(** * isoForestImport: frames, feature views and their realignment

    A shallow embedding of [src/isoForestImport.py].  The pandas objects the
    script manipulates are modelled by lists: a column is a list of cells, a
    frame is a row index plus an ordered list of named columns.  The anomaly
    scorer ([sklearn.ensemble.IsolationForest]) and the plotting back end are
    external; the scorer is an interface record, the plots are events of a
    log.  Floating point values are idealised by rationals. *)

From Stdlib Require Import String Ascii Bool Arith ZArith QArith Qabs Qreduction Lia.
From Stdlib Require Import DecimalString DecimalZ DecimalPos List.
Import ListNotations.
Open Scope list_scope.

(** ** Cells, labels, series and frames *)

(** What a pandas cell holds here: a missing value, a number (score, label,
    series value), a [datetime64] time stamp (nanoseconds since the epoch) or
    a calendar date (days since the epoch). *)
Inductive cell : Type :=
| NaN
| Num (q : Q)
| Stamp (t : Z)
| Day (d : Z).

Definition isna (c : cell) : bool :=
  match c with NaN => true | _ => false end.

Definition notna (c : cell) : bool := negb (isna c).

(** Row labels: a position of a [RangeIndex] or a time stamp of a
    [DatetimeIndex]. *)
Inductive label : Type :=
| Loc (i : nat)
| Time (t : Z).

Definition label_eqb (a b : label) : bool :=
  match a, b with
  | Loc i, Loc j => Nat.eqb i j
  | Time t, Time u => Z.eqb t u
  | _, _ => false
  end.

Definition RangeIndex (n : nat) : list label := map Loc (seq 0 n).

Record Series : Type := mkSeries {
  s_index : list label;
  s_values : list cell
}.

Record DataFrame : Type := mkFrame {
  df_index : list label;
  df_columns : list (string * list cell)
}.

(** [pd.DataFrame()] *)
Definition empty_frame : DataFrame := mkFrame [] [].

Definition names (df : DataFrame) : list string := map fst (df_columns df).

Definition has_column (df : DataFrame) (name : string) : bool :=
  existsb (String.eqb name) (names df).

(** [df[name]] for a name carried by one column: the first column of that
    name. *)
Fixpoint lookup (name : string) (cols : list (string * list cell)) : option (list cell) :=
  match cols with
  | [] => None
  | (k, v) :: rest => if String.eqb name k then Some v else lookup name rest
  end.

(** The arguments of [getIF] as Python hands them over, before the
    [isinstance] assertions have looked at them. *)
Inductive pyobj : Type :=
| PyNone
| PyBool (b : bool)
| PyInt (z : Z)
| PyStr (s : string)
| PySeries (s : Series)
| PyDatetimeIndex (t : list Z)
| PyList (l : list Z).

(** ** Exceptions, events and the monad of the script *)

Inductive exn : Type :=
| AssertionError (msg : string)
| ValueError (msg : string)
| KeyError (msg : string)
| IndexError (msg : string).

(** Observable work: a call of [clf.fit] on a feature matrix, and a plot
    handed to matplotlib (title, axis labels, anomalous points). *)
Inductive event : Type :=
| Fit (X : list (list cell))
| Plot (title : string) (xx yy : option string) (anomalies : list (cell * cell)).

Inductive outcome (A : Type) : Type :=
| Ok (a : A)
| Raise (e : exn).
Arguments Ok {A} a.
Arguments Raise {A} e.

(** A computation yields the events it performed, in order, and either a
    value or the exception that stopped it. *)
Definition M (A : Type) : Type := (list event * outcome A)%type.

Definition ret {A} (a : A) : M A := ([], Ok a).

Definition raise {A} (e : exn) : M A := ([], Raise e).

Definition tell (e : event) : M unit := ([e], Ok tt).

Definition bind {A B} (m : M A) (f : A -> M B) : M B :=
  match m with
  | (l1, Ok a) => let (l2, r) := f a in (l1 ++ l2, r)
  | (l1, Raise e) => (l1, Raise e)
  end.

Notation "x <- m ;; k" := (bind m (fun x => k))
  (at level 61, m at next level, right associativity).
Notation "m ;;; k" := (bind m (fun _ => k))
  (at level 61, right associativity).

Definition effects {A} (m : M A) : list event := fst m.
Definition result {A} (m : M A) : outcome A := snd m.

(** ** The pandas operations the script uses *)

Definition count_na (c : list cell) : nat := length (filter isna c).

(** [Series.dropna()]: the defined entries with their labels. *)
Definition dropna (s : Series) : Series :=
  let kept := filter (fun p => notna (snd p)) (combine (s_index s) (s_values s)) in
  mkSeries (map fst kept) (map snd kept).

Fixpoint position (l : label) (idx : list label) : option nat :=
  match idx with
  | [] => None
  | k :: rest => if label_eqb l k then Some 0%nat
                 else option_map S (position l rest)
  end.

(** Label alignment: the values of a column indexed by [old], read at the
    labels of [new]; a label [old] does not have yields [NaN]. *)
Definition reindex (new old : list label) (vals : list cell) : list cell :=
  map (fun l => match position l old with
                | Some i => nth i vals NaN
                | None => NaN
                end) new.

(** Outer join of two row indexes. *)
Definition union_index (a b : list label) : list label :=
  a ++ filter (fun l => negb (existsb (label_eqb l) a)) b.

(** [pd.concat(frames, axis = 1)]: the columns of all frames side by side,
    each aligned on the union of the row indexes. *)
Definition concat_axis1 (frames : list DataFrame) : DataFrame :=
  let idx := fold_left union_index (map df_index frames) [] in
  mkFrame idx
    (flat_map (fun f => map (fun c => (fst c, reindex idx (df_index f) (snd c)))
                            (df_columns f)) frames).

(** [Series.shift(k)] on the values: everything moves down [k] rows, the
    top fills with [NaN], what falls off the end is lost. *)
Definition shift (k : nat) (c : list cell) : list cell :=
  firstn (length c) (repeat NaN k ++ c).

Definition replace_named (name : string) (v : list cell)
  (cols : list (string * list cell)) : list (string * list cell) :=
  map (fun c => if String.eqb name (fst c) then (fst c, v) else c) cols.

(** [df[name] = array]: positional assignment of an array or an index.  On
    a frame without rows the array brings its [RangeIndex] (columns already
    there are stretched to it with [NaN]); otherwise the lengths must agree.
    An existing name keeps its place. *)
Definition setitem (df : DataFrame) (name : string) (v : list cell) : M DataFrame :=
  match df_index df with
  | [] => let cols := map (fun c => (fst c, repeat NaN (length v))) (df_columns df) in
          if has_column df name
          then ret (mkFrame (RangeIndex (length v)) (replace_named name v cols))
          else ret (mkFrame (RangeIndex (length v)) (cols ++ [(name, v)]))
  | _ :: _ =>
      if Nat.eqb (length v) (length (df_index df))
      then if has_column df name
           then ret (mkFrame (df_index df) (replace_named name v (df_columns df)))
           else ret (mkFrame (df_index df) (df_columns df ++ [(name, v)]))
      else raise (ValueError "Length of values does not match length of index")
  end.

(** [df[name] = series]: assignment of a labelled series, aligned on the
    frame's index; every column called [name] receives it. *)
Definition setitem_aligned (df : DataFrame) (name : string) (s : Series) : DataFrame :=
  let v := reindex (df_index df) (s_index s) (s_values s) in
  if has_column df name
  then mkFrame (df_index df) (replace_named name v (df_columns df))
  else mkFrame (df_index df) (df_columns df ++ [(name, v)]).

(** [df[name] = df[name].shift(k)]: every column called [name] is shifted. *)
Definition shift_named (df : DataFrame) (name : string) (k : nat) : DataFrame :=
  mkFrame (df_index df)
    (map (fun c => if String.eqb name (fst c) then (fst c, shift k (snd c)) else c)
         (df_columns df)).

(** [df.drop(name, 1)] *)
Definition drop (df : DataFrame) (name : string) : M DataFrame :=
  if has_column df name
  then ret (mkFrame (df_index df)
              (filter (fun c => negb (String.eqb name (fst c))) (df_columns df)))
  else raise (KeyError name).

(** [df.columns = new_names] *)
Definition set_columns (df : DataFrame) (new_names : list string) : M DataFrame :=
  if Nat.eqb (length new_names) (length (df_columns df))
  then ret (mkFrame (df_index df) (combine new_names (map snd (df_columns df))))
  else raise (ValueError "Length mismatch").

Fixpoint rename_nth (i : nat) (name : string) (cols : list (string * list cell))
  : option (list (string * list cell)) :=
  match cols, i with
  | [], _ => None
  | (_, v) :: rest, O => Some ((name, v) :: rest)
  | c :: rest, S j => option_map (cons c) (rename_nth j name rest)
  end.

(** [df.columns.values[i] = name] *)
Definition rename_at (df : DataFrame) (i : nat) (name : string) : M DataFrame :=
  match rename_nth i name (df_columns df) with
  | Some cols => ret (mkFrame (df_index df) cols)
  | None => raise (IndexError "index out of bounds")
  end.

(** ** Numbers: differences and rolling means *)

Definition sub_cell (a b : cell) : cell :=
  match a, b with
  | Num x, Num y => Num (Qred (x - y))
  | _, _ => NaN
  end.

(** [Series.diff()]: the first entry has no predecessor. *)
Fixpoint diff_from (prev : cell) (c : list cell) : list cell :=
  match c with
  | [] => []
  | x :: rest => sub_cell x prev :: diff_from x rest
  end.

Definition diff_values (c : list cell) : list cell :=
  match c with
  | [] => []
  | x :: rest => NaN :: diff_from x rest
  end.

Definition diff (s : Series) : Series :=
  mkSeries (s_index s) (diff_values (s_values s)).

(** Sum of a window; nothing when it meets a cell that is not a number. *)
Fixpoint sum_cells (w : list cell) : option Q :=
  match w with
  | [] => Some 0%Q
  | Num x :: rest => option_map (Qplus x) (sum_cells rest)
  | _ :: rest => None
  end.

Definition mean (w : list cell) : cell :=
  match sum_cells w with
  | Some s => Num (Qred (s / inject_Z (Z.of_nat (length w))))
  | None => NaN
  end.

(** [Series.rolling(val).mean()] for [val >= 0]: at row [i] the mean of the
    [val] entries ending at [i]; undefined while fewer than [val] rows are
    there, where the window holds a missing value, and for the empty
    window. *)
Definition rolling_mean_values (val : nat) (c : list cell) : list cell :=
  map (fun i => if (val =? 0)%nat || (i + 1 <? val)%nat then NaN
                else mean (firstn val (skipn (i + 1 - val) c)))
      (seq 0 (length c)).

Definition rolling_mean (val : Z) (s : Series) : M Series :=
  if (val <? 0)%Z then raise (ValueError "window must be >= 0")
  else ret (mkSeries (s_index s) (rolling_mean_values (Z.to_nat val) (s_values s))).

(** [array.reshape(-1, 1)]: one row per entry. *)
Definition reshape (c : list cell) : list (list cell) := map (fun x => [x]) c.

(** [pd.concat([deltaCol, dataCol], axis = 1).dropna()] as a matrix: the
    rows (difference, value) in which both are defined. *)
Definition delta_matrix (deltaCol dataCol : list cell) : list (list cell) :=
  map (fun p => [fst p; snd p])
      (filter (fun p => notna (fst p) && notna (snd p)) (combine deltaCol dataCol)).

(** [Series.dt.date] on one cell. *)
Definition ns_per_day : Z := 86400000000000.

Definition dt_date (c : cell) : cell :=
  match c with
  | Stamp t => Day (t / ns_per_day)
  | other => other
  end.

(** [str(val)] for an integer. *)
Definition str (val : Z) : string := NilZero.string_of_int (Z.to_int val).

(** ** The scorer *)

(** The state of the process-wide random generator, which an unseeded
    forest would draw from. *)
Definition entropy : Type := Z.

(** [sklearn.ensemble.IsolationForest]: fitting takes the [random_state]
    the forest was built with, the ambient generator and the feature
    matrix, and may reject the matrix; a fitted forest gives a score
    ([decision_function]) and a label ([predict], -1 or 1) per row. *)
Record sklearn : Type := mkSklearn {
  fitted : Type;
  forest_fit : option Z -> entropy -> list (list cell) -> option fitted;
  decision_function : fitted -> list (list cell) -> list Q;
  predict : fitted -> list (list cell) -> list Z
}.

(** A small loop combinator for the [for] loops of the script: the body
    runs once per element, in order, and the first exception ends it. *)
Fixpoint foldM {A B} (f : A -> B -> M A) (l : list B) (acc : A) : M A :=
  match l with
  | [] => ret acc
  | b :: rest => acc' <- f acc b ;; foldM f rest acc'
  end.

(** ** The functions of [isoForestImport.py] *)

Section Script.

Context (sk : sklearn) (env : entropy).

(** [IsolationForest(random_state=42)] *)
Definition random_state : option Z := Some 42%Z.

(** [clf.fit(X)] *)
Definition fit (X : list (list cell)) : M (fitted sk) :=
  tell (Fit X) ;;;
  match forest_fit sk random_state env X with
  | Some clf => ret clf
  | None => raise (ValueError "IsolationForest.fit rejected the input")
  end.

Definition scores (clf : fitted sk) (X : list (list cell)) : list cell :=
  map Num (decision_function sk clf X).

Definition labels (clf : fitted sk) (X : list (list cell)) : list cell :=
  map (fun z => Num (inject_Z z)) (predict sk clf X).

Definition is_anomaly (c : cell) : bool :=
  match c with
  | Num q => Qeq_bool q (inject_Z (-1))
  | _ => false
  end.

(** [dfResults.loc[dfResults['Anomaly'] == -1, ['Date', 'Incidents']]]:
    the mask is computed first, so a frame without a column [Anomaly] is a
    [KeyError] for it; the two labels are then selected together, and one
    [KeyError] names those of them that are not columns of the frame. *)
Definition loc_anomalies (dfResults : DataFrame) : M (list (cell * cell)) :=
  match lookup "Anomaly" (df_columns dfResults) with
  | None => raise (KeyError "Anomaly")
  | Some flags =>
      match lookup "Date" (df_columns dfResults),
            lookup "Incidents" (df_columns dfResults) with
      | Some dates, Some incidents =>
          ret (map snd (filter (fun r => is_anomaly (fst r))
                               (combine flags (combine dates incidents))))
      | None, Some _ => raise (KeyError "Date")
      | Some _, None => raise (KeyError "Incidents")
      | None, None => raise (KeyError "Date, Incidents")
      end
  end.

(** [getPlot]: the anomalous rows are selected, the series is drawn against
    the time column ([ax.plot] wants both of one length), the anomalies are
    scattered over it and the figure is shown. *)
Definition getPlot (dataCol : Series) (timeCol : list Z) (dfResults : DataFrame)
  (title : string) (xx yy : option string) : M unit :=
  a <- loc_anomalies dfResults ;;
  if Nat.eqb (length timeCol) (length (s_values dataCol))
  then tell (Plot title xx yy a)
  else raise (ValueError "x and y must have same first dimension").

(** Lines 71-93 of [getBase]: the frame of the raw view. *)
Definition baseFrame (dataCol : Series) (timeCol : list Z) (time : option bool)
  : M DataFrame :=
  let X := reshape (s_values dataCol) in
  clf <- fit X ;;
  dfResults <- setitem empty_frame "baseScores" (scores clf X) ;;
  dfResults <- setitem dfResults "Anomaly" (labels clf X) ;;
  dfResults <- setitem dfResults "Incidents" (s_values dataCol) ;;
  match time with
  | None =>
      dfResults <- setitem dfResults "Date" (map Stamp timeCol) ;;
      match lookup "Date" (df_columns dfResults) with
      | Some dates => setitem dfResults "Date" (map dt_date dates)
      | None => raise (KeyError "Date")
      end
  | Some true => setitem dfResults "Date" (map Stamp timeCol)
  | Some false => ret dfResults
  end.

Definition getBase (dataCol : Series) (timeCol : list Z) (xx yy : option string)
  (time : option bool) : M DataFrame :=
  dfResults <- baseFrame dataCol timeCol time ;;
  getPlot dataCol timeCol dfResults "Raw Input" xx yy ;;;
  ret dfResults.

Definition getBaseDelta (dataCol : Series) (timeCol : list Z) (xx yy : option string)
  : M DataFrame :=
  let deltaCol := diff dataCol in
  let deltaPD := delta_matrix (s_values deltaCol) (s_values dataCol) in
  clf <- fit deltaPD ;;
  dfResults <- setitem empty_frame "deltaScores" (scores clf deltaPD) ;;
  dfResults <- setitem dfResults "Anomaly" (labels clf deltaPD) ;;
  dfResults <- setitem dfResults "Incidents" (skipn 1 (s_values dataCol)) ;;
  dfResults <- setitem dfResults "deltaIncidents" (skipn 1 (s_values deltaCol)) ;;
  dfResults <- setitem dfResults "Date" (map Stamp (skipn 1 timeCol)) ;;
  getPlot dataCol timeCol dfResults "Raw Input and Delta" xx yy ;;;
  dfResults <- drop dfResults "Date" ;;
  dfResults <- drop dfResults "Incidents" ;;
  rename_at dfResults 1 "deltaAnomaly".

Definition window_names (val : Z) : list string :=
  [ ("window" ++ str val ++ "Scores")%string;
    ("window" ++ str val ++ "Anomaly")%string;
    ("window" ++ str val ++ "Incidents")%string ].

(** The body of the loop of [getWindows] up to the renaming of the
    columns: the rolling column and the frame of the view [Window(val)]. *)
Definition window_view (dataCol : Series) (timeCol : list Z) (xx yy : option string)
  (val : Z) : M (Series * DataFrame) :=
  rollingCol <- rolling_mean val dataCol ;;
  let dropped := count_na (s_values rollingCol) in
  let rollingCol := dropna rollingCol in
  let X := reshape (s_values rollingCol) in
  clf <- fit X ;;
  dfResults <- setitem empty_frame "scores" (scores clf X) ;;
  dfResults <- setitem dfResults "Anomaly" (labels clf X) ;;
  dfResults <- setitem dfResults "windowIncidents" (s_values rollingCol) ;;
  dfResults <- setitem dfResults "Incidents" (skipn dropped (s_values dataCol)) ;;
  dfResults <- setitem dfResults "Date" (map Stamp (skipn dropped timeCol)) ;;
  getPlot dataCol timeCol dfResults ("Window of " ++ str val) xx yy ;;;
  dfResults <- drop dfResults "Date" ;;
  dfResults <- drop dfResults "Incidents" ;;
  dfResults <- set_columns dfResults (window_names val) ;;
  ret (rollingCol, dfResults).

(** [getWindows].  [rollingDF] collects the rolling columns; all that is
    read from it later is one column per window, so it is kept as the list
    of its columns.  [windowResults] is a frame. *)
Definition getWindows (dataCol : Series) (timeCol : list Z) (windowList : list Z)
  (xx yy : option string) : M (list Series * DataFrame) :=
  foldM (fun acc val =>
           r <- window_view dataCol timeCol xx yy val ;;
           ret (fst acc ++ [fst r], concat_axis1 [snd acc; snd r]))
        windowList ([], empty_frame).

Definition windowDelta_names (val : Z) : list string :=
  [ ("windowDelta" ++ str val ++ "Scores")%string;
    ("windowDelta" ++ str val ++ "Anomaly")%string;
    ("windowDelta" ++ str val ++ "Incidents")%string ].

(** The body of the loop of [getWindowsDelta]; [columnData] is the rolling
    column the [zip] pairs with [val]. *)
Definition windowDelta_view (dataCol : Series) (timeCol : list Z) (xx yy : option string)
  (val : Z) (columnData : Series) : M DataFrame :=
  let deltaCol := diff dataCol in
  let dropped := count_na (s_values deltaCol) in
  let deltaPD := delta_matrix (s_values deltaCol) (s_values dataCol) in
  clf <- fit deltaPD ;;
  dfResults <- setitem empty_frame "scores" (scores clf deltaPD) ;;
  dfResults <- setitem dfResults "Anomaly" (labels clf deltaPD) ;;
  dfResults <- setitem dfResults "Incidents" (skipn dropped (s_values dataCol)) ;;
  dfResults <- setitem dfResults "deltaIncidents" (skipn dropped (s_values deltaCol)) ;;
  dfResults <- setitem dfResults "Date" (map Stamp (skipn dropped timeCol)) ;;
  getPlot dataCol timeCol dfResults ("Window of " ++ str val ++ " and Delta") xx yy ;;;
  dfResults <- drop dfResults "Date" ;;
  dfResults <- drop dfResults "Incidents" ;;
  set_columns dfResults (windowDelta_names val).

Definition getWindowsDelta (dataCol : Series) (timeCol : list Z) (windowList : list Z)
  (rollingDF : list Series) (xx yy : option string) : M DataFrame :=
  foldM (fun windowDeltaResults p =>
           dfResults <- windowDelta_view dataCol timeCol xx yy (fst p) (snd p) ;;
           ret (concat_axis1 [windowDeltaResults; dfResults]))
        (combine windowList rollingDF) empty_frame.

(** One turn of the loop at lines 308-312.  [isoResults.iloc[:, :]] is the
    frame itself and [iteritems] reads its columns one position at a time
    while the body assigns by name: the column at position [i] is read as
    the frame then stands. *)
Definition realign_step (isoResults : DataFrame) (i : nat) : DataFrame :=
  match nth_error (df_columns isoResults) i with
  | None => isoResults
  | Some (columnName, columnData) =>
      let dropped := count_na columnData in
      let test := dropna (mkSeries (df_index isoResults) columnData) in
      let isoResults := setitem_aligned isoResults columnName test in
      shift_named isoResults columnName dropped
  end.

Definition realign (isoResults : DataFrame) : DataFrame :=
  fold_left realign_step (seq 0 (length (df_columns isoResults))) isoResults.

(** The merge at line 301, before the realignment. *)
Definition merged (dataCol : Series) (timeCol : list Z) (windowList : list Z)
  (x y : option string) (time : option bool) : M DataFrame :=
  baseDF <- getBase dataCol timeCol x y time ;;
  w <- getWindows dataCol timeCol windowList x y ;;
  let rollingCol := fst w in
  let rollingDF := snd w in
  baseDeltaDF <- getBaseDelta dataCol timeCol x y ;;
  windowDeltaDF <- getWindowsDelta dataCol timeCol windowList rollingCol x y ;;
  ret (concat_axis1 [baseDF; baseDeltaDF; rollingDF; windowDeltaDF]).

Definition getIF (dataCol timeCol windowList : pyobj) (x y : option string)
  (time : option bool) : M DataFrame :=
  match dataCol with
  | PySeries dataCol =>
      match timeCol with
      | PyDatetimeIndex timeCol =>
          match windowList with
          | PyList windowList =>
              isoResults <- merged dataCol timeCol windowList x y time ;;
              ret (realign isoResults)
          | _ => raise (AssertionError "windowList should be a list")
          end
      | _ => raise (AssertionError "timeCol should be a pandas DatetimeIndex")
      end
  | _ => raise (AssertionError "dataCol should be a pandas series")
  end.

End Script.

(** ** A concrete scorer to run the script on

    A stand-in for the forest with the interface of the real one: it
    rejects an empty matrix and a matrix with a cell that is not a number;
    seeded, it ignores the ambient generator; the label of a row is -1 when
    the magnitude of its first feature reaches 25. *)

Definition numeric (c : cell) : bool :=
  match c with Num _ => true | _ => false end.

Definition first_feature (row : list cell) : Q :=
  match row with
  | Num q :: _ => q
  | _ => 0%Q
  end.

Definition threshold_fit (rs : option Z) (env : entropy) (X : list (list cell))
  : option Z :=
  match X with
  | [] => None
  | _ :: _ => if forallb (forallb numeric) X
              then Some (match rs with Some s => s | None => env end)
              else None
  end.

Definition threshold_forest : sklearn :=
  mkSklearn Z threshold_fit
    (fun seed X => map (fun row => Qred (inject_Z seed / 100 - Qabs (first_feature row))) X)
    (fun _ X => map (fun row => if Qle_bool 25 (Qabs (first_feature row))
                                then (-1)%Z else 1%Z) X).

(** The example of the specification: six consecutive days, one spike. *)
Definition day (i : Z) : Z := (i * ns_per_day)%Z.

Definition six_days : list Z := map day [0; 1; 2; 3; 4; 5]%Z.

Definition spike : Series :=
  mkSeries (map Time six_days)
           (map (fun z => Num (inject_Z z)) [10; 10; 10; 50; 10; 10]%Z).

(** ** Views, their names and their warm-up *)

Inductive ViewKind : Type :=
| Raw
| Delta
| Window (w : Z)
| WindowDelta (w : Z).

(** The views of one run, in the order of the merge at line 301. *)
Definition views (windowList : list Z) : list ViewKind :=
  Raw :: Delta :: map Window windowList ++ map WindowDelta windowList.

(** The warm-up of a view as the specification gives it. *)
Definition warmup (v : ViewKind) : nat :=
  match v with
  | Raw => 0
  | Delta => 1
  | Window w => Z.to_nat w - 1
  | WindowDelta _ => 1
  end.

Definition base_names (time : option bool) : list string :=
  match time with
  | Some false => ["baseScores"; "Anomaly"; "Incidents"]%string
  | _ => ["baseScores"; "Anomaly"; "Incidents"; "Date"]%string
  end.

Definition delta_names : list string :=
  ["deltaScores"; "deltaAnomaly"; "deltaIncidents"]%string.

(** The column names under which a view reaches the merge. *)
Definition view_names (time : option bool) (v : ViewKind) : list string :=
  match v with
  | Raw => base_names time
  | Delta => delta_names
  | Window w => window_names w
  | WindowDelta w => windowDelta_names w
  end.

(** The frame each view hands to the merge, by the function that builds
    it.  The loop of [getWindowsDelta] never reads the rolling column it is
    paired with, so any column stands for it. *)
Definition view_frame (sk : sklearn) (env : entropy) (dataCol : Series)
  (timeCol : list Z) (xx yy : option string) (time : option bool) (v : ViewKind)
  : M DataFrame :=
  match v with
  | Raw => getBase sk env dataCol timeCol xx yy time
  | Delta => getBaseDelta sk env dataCol timeCol xx yy
  | Window w => r <- window_view sk env dataCol timeCol xx yy w ;; ret (snd r)
  | WindowDelta w => windowDelta_view sk env dataCol timeCol xx yy w (mkSeries [] [])
  end.

(** The feature matrices of the four kinds of view, as the functions build
    them before [clf.fit]. *)
Definition raw_features (dataCol : Series) : list (list cell) :=
  reshape (s_values dataCol).

Definition delta_features (dataCol : Series) : list (list cell) :=
  delta_matrix (s_values (diff dataCol)) (s_values dataCol).

Definition window_features (rollingCol : Series) : list (list cell) :=
  reshape (s_values (dropna rollingCol)).

(** A frame over [RangeIndex rows] whose columns are given by their defined
    entries, each filled up with [NaN] at the bottom. *)
Definition bottom_pad (rows : nat) (v : list cell) : list cell :=
  v ++ repeat NaN (rows - length v).

Definition top_pad (rows : nat) (v : list cell) : list cell :=
  repeat NaN (rows - length v) ++ v.

Definition ragged (rows : nat) (payload : list (string * list cell)) : DataFrame :=
  mkFrame (RangeIndex rows) (map (fun p => (fst p, bottom_pad rows (snd p))) payload).

(** ** Well-formed inputs and a well-behaved scorer *)

(** The scorer contract of the specification: a feature matrix that has a
    row and only defined numbers is accepted, and a fitted forest gives one
    score and one label per row. *)
Definition scorer_ok (sk : sklearn) (env : entropy) : Prop :=
  (forall X, X <> [] -> Forall (Forall (fun c => numeric c = true)) X ->
             forest_fit sk random_state env X <> None)
  /\ (forall clf X, length (decision_function sk clf X) = length X)
  /\ (forall clf X, length (predict sk clf X) = length X).

(** The scorer rejects a matrix without rows. *)
Definition rejects_empty (sk : sklearn) (env : entropy) : Prop :=
  forest_fit sk random_state env [] = None.

(** A seeded forest does not look at the ambient generator. *)
Definition seeded_deterministic (sk : sklearn) : Prop :=
  forall seed e1 e2 X, forest_fit sk (Some seed) e1 X = forest_fit sk (Some seed) e2 X.

(** Inputs on which every view can be built and scored: a series (one
    label per value) of at least two defined numbers, as many time stamps,
    windows between 1 and the length of the series, and a time flag that
    keeps the Date column. *)
Definition valid_input (dataCol : Series) (timeCol : list Z) (windowList : list Z)
  (time : option bool) : Prop :=
  length (s_index dataCol) = length (s_values dataCol)
  /\ Forall (fun c => numeric c = true) (s_values dataCol)
  /\ (2 <= length (s_values dataCol))%nat
  /\ length timeCol = length (s_values dataCol)
  /\ Forall (fun w => (1 <= w <= Z.of_nat (length (s_values dataCol)))%Z) windowList
  /\ time <> Some false.

(** ** The columns each view is expected to hand over

    Given the forest a view has fitted, the named columns of its frame. *)

Definition date_column (time : option bool) (timeCol : list Z) : list cell :=
  match time with
  | None => map dt_date (map Stamp timeCol)
  | _ => map Stamp timeCol
  end.

Definition base_payload (sk : sklearn) (clf : fitted sk) (dataCol : Series)
  (timeCol : list Z) (time : option bool) : list (string * list cell) :=
  [ ("baseScores"%string, scores sk clf (raw_features dataCol));
    ("Anomaly"%string, labels sk clf (raw_features dataCol));
    ("Incidents"%string, s_values dataCol);
    ("Date"%string, date_column time timeCol) ].

Definition delta_payload (sk : sklearn) (clf : fitted sk) (dataCol : Series)
  : list (string * list cell) :=
  [ ("deltaScores"%string, scores sk clf (delta_features dataCol));
    ("deltaAnomaly"%string, labels sk clf (delta_features dataCol));
    ("deltaIncidents"%string, skipn 1 (s_values (diff dataCol))) ].

Definition rolling_column (val : Z) (dataCol : Series) : Series :=
  mkSeries (s_index dataCol) (rolling_mean_values (Z.to_nat val) (s_values dataCol)).

Definition window_payload (sk : sklearn) (clf : fitted sk) (dataCol : Series) (val : Z)
  : list (string * list cell) :=
  combine (window_names val)
    [ scores sk clf (window_features (rolling_column val dataCol));
      labels sk clf (window_features (rolling_column val dataCol));
      s_values (dropna (rolling_column val dataCol)) ].

Definition windowDelta_payload (sk : sklearn) (clf : fitted sk) (dataCol : Series) (val : Z)
  : list (string * list cell) :=
  combine (windowDelta_names val)
    [ scores sk clf (delta_features dataCol);
      labels sk clf (delta_features dataCol);
      skipn 1 (s_values (diff dataCol)) ].

(** The columns of a view with the forest that [clf.fit] returns on its
    feature matrix (none when the matrix is rejected). *)
Definition view_columns (sk : sklearn) (env : entropy) (dataCol : Series)
  (timeCol : list Z) (time : option bool) (v : ViewKind) : list (string * list cell) :=
  match v with
  | Raw =>
      match forest_fit sk random_state env (raw_features dataCol) with
      | Some clf => base_payload sk clf dataCol timeCol time
      | None => []
      end
  | Delta =>
      match forest_fit sk random_state env (delta_features dataCol) with
      | Some clf => delta_payload sk clf dataCol
      | None => []
      end
  | Window w =>
      match forest_fit sk random_state env (window_features (rolling_column w dataCol)) with
      | Some clf => window_payload sk clf dataCol w
      | None => []
      end
  | WindowDelta w =>
      match forest_fit sk random_state env (delta_features dataCol) with
      | Some clf => windowDelta_payload sk clf dataCol w
      | None => []
      end
  end.

(** The table a view computes before it drops rows, and the matrix it
    fits: for [Raw] the series itself, for [Delta] and [WindowDelta] the
    rows (difference, value), for [Window] the rolling mean. *)
Definition view_table (dataCol : Series) (v : ViewKind) : list (list cell) :=
  match v with
  | Raw => reshape (s_values dataCol)
  | Delta | WindowDelta _ =>
      map (fun p => [fst p; snd p]) (combine (s_values (diff dataCol)) (s_values dataCol))
  | Window w => reshape (s_values (rolling_column w dataCol))
  end.

Definition view_features (dataCol : Series) (v : ViewKind) : list (list cell) :=
  match v with
  | Raw => raw_features dataCol
  | Delta | WindowDelta _ => delta_features dataCol
  | Window w => window_features (rolling_column w dataCol)
  end.

(** The three [isinstance] tests of [getIF]. *)
Definition is_Series (o : pyobj) : bool :=
  match o with PySeries _ => true | _ => false end.

Definition is_DatetimeIndex (o : pyobj) : bool :=
  match o with PyDatetimeIndex _ => true | _ => false end.

Definition is_list (o : pyobj) : bool :=
  match o with PyList _ => true | _ => false end.

(** Two days, a window as long as the series. *)
Definition two_days : list Z := map day [0; 1]%Z.

Definition pair_series : Series :=
  mkSeries (map Time two_days) (map (fun z => Num (inject_Z z)) [10; 50]%Z).

(** How many columns go by a name. *)
Definition occurrences (name : string) (l : list string) : nat :=
  length (filter (String.eqb name) l).

(** The characters [str] writes, and the three endings of a window
    view's column names. *)
Definition numeral_char (c : ascii) : bool :=
  existsb (Ascii.eqb c) (list_ascii_of_string "0123456789-").

Fixpoint all_chars (p : ascii -> bool) (s : string) : bool :=
  match s with
  | EmptyString => true
  | String c rest => p c && all_chars p rest
  end.

Definition starts_plain (s : string) : Prop :=
  match s with
  | EmptyString => False
  | String c _ => numeral_char c = false
  end.

Definition suffixes : list string := ["Scores"; "Anomaly"; "Incidents"]%string.

Definition tagged_names (prefix : string) (val : Z) : list string :=
  map (fun suffix => (prefix ++ str val ++ suffix)%string) suffixes.

(** ** The trace of a run *)

(** The order in which [getIF] builds the views (lines 296-299): the
    windows come before Delta, though they are merged after it. *)
Definition execution_order (windowList : list Z) : list ViewKind :=
  Raw :: map Window windowList ++ Delta :: map WindowDelta windowList.

(** The title under which each view is plotted. *)
Definition view_title (v : ViewKind) : string :=
  match v with
  | Raw => "Raw Input"
  | Delta => "Raw Input and Delta"
  | Window w => "Window of " ++ str w
  | WindowDelta w => "Window of " ++ str w ++ " and Delta"
  end.

(** An event without the points of its scatter. *)
Definition erase (e : event) : event :=
  match e with
  | Fit X => Fit X
  | Plot title xx yy _ => Plot title xx yy []
  end.

(** * Properties *)

(** ** The monad *)

Lemma result_bind {A B} (m : M A) (f : A -> M B) :
  result (bind m f) =
  match result m with
  | Ok a => result (f a)
  | Raise e => Raise e
  end.
Proof.
  destruct m as [l [a | e]]; simpl; [ | reflexivity ].
  destruct (f a); reflexivity.
Qed.

Lemma effects_bind {A B} (m : M A) (f : A -> M B) :
  effects (bind m f) =
  effects m ++ match result m with
               | Ok a => effects (f a)
               | Raise _ => []
               end.
Proof.
  destruct m as [l [a | e]]; simpl.
  - destruct (f a); reflexivity.
  - now rewrite app_nil_r.
Qed.

Lemma bind_ret {A B} (a : A) (f : A -> M B) : bind (ret a) f = f a.
Proof. unfold bind, ret. now destruct (f a). Qed.

Lemma bind_ext {A B} (m : M A) (f g : A -> M B) :
  (forall a, f a = g a) -> bind m f = bind m g.
Proof.
  intros H. destruct m as [l [a | e]]; simpl; [ now rewrite H | reflexivity ].
Qed.

Lemma bind_ok {A B} (m : M A) (f : A -> M B) (b : B) :
  result (bind m f) = Ok b ->
  exists a, result m = Ok a /\ result (f a) = Ok b.
Proof.
  rewrite result_bind. destruct (result m) as [a | e]; [ eauto | discriminate ].
Qed.

Lemma bind_raises {A B} (m : M A) (f : A -> M B) :
  (forall a, result m = Ok a -> exists e, result (f a) = Raise e) ->
  exists e, result (bind m f) = Raise e.
Proof.
  intros H. rewrite result_bind. destruct (result m) as [a | e]; eauto.
Qed.

(** ** Lists of cells *)

Lemma map_nth_seq (c : list cell) (s : nat) :
  map (fun i => nth (i - s) c NaN) (seq s (length c)) = c.
Proof.
  revert s. induction c as [ | a c IH]; intros s; simpl; [ reflexivity | ].
  rewrite Nat.sub_diag. f_equal.
  transitivity (map (fun i => nth (i - S s) c NaN) (seq (S s) (length c))); [ | apply IH ].
  apply map_ext_in. intros i Hi. apply in_seq in Hi.
  replace (i - s)%nat with (S (i - S s)) by lia. reflexivity.
Qed.

Lemma count_na_app (a b : list cell) :
  count_na (a ++ b) = (count_na a + count_na b)%nat.
Proof. unfold count_na. now rewrite filter_app, length_app. Qed.

Lemma count_na_repeat (k : nat) : count_na (repeat NaN k) = k.
Proof.
  unfold count_na. induction k as [ | k IH]; simpl; [ reflexivity | now rewrite IH ].
Qed.

Lemma count_na_defined (v : list cell) :
  Forall (fun c => notna c = true) v -> count_na v = 0%nat.
Proof.
  unfold count_na. induction 1 as [ | c v Hc _ IH]; simpl; [ reflexivity | ].
  unfold notna in Hc. destruct (isna c); [ discriminate | exact IH ].
Qed.

Lemma numeric_notna (c : cell) : numeric c = true -> notna c = true.
Proof. now destruct c. Qed.

Lemma Forall_numeric_notna (v : list cell) :
  Forall (fun c => numeric c = true) v -> Forall (fun c => notna c = true) v.
Proof. apply Forall_impl, numeric_notna. Qed.

Lemma length_bottom_pad (rows : nat) (v : list cell) :
  (length v <= rows)%nat -> length (bottom_pad rows v) = rows.
Proof. intros H. unfold bottom_pad. rewrite length_app, repeat_length. lia. Qed.

Lemma length_top_pad (rows : nat) (v : list cell) :
  (length v <= rows)%nat -> length (top_pad rows v) = rows.
Proof. intros H. unfold top_pad. rewrite length_app, repeat_length. lia. Qed.

Lemma bottom_pad_full (v : list cell) : bottom_pad (length v) v = v.
Proof. unfold bottom_pad. now rewrite Nat.sub_diag, app_nil_r. Qed.

(** ** Row indexes *)

Lemma label_eqb_refl (l : label) : label_eqb l l = true.
Proof. destruct l; simpl; [ apply Nat.eqb_refl | apply Z.eqb_refl ]. Qed.

Lemma position_range (i s n : nat) :
  position (Loc i) (map Loc (seq s n)) =
  if (s <=? i)%nat && (i <? s + n)%nat then Some (i - s)%nat else None.
Proof.
  revert s. induction n as [ | n IH]; intros s; simpl.
  - destruct (s <=? i)%nat eqn:E1, (i <? s + 0)%nat eqn:E2; try reflexivity.
    apply Nat.leb_le in E1. apply Nat.ltb_lt in E2. lia.
  - destruct (Nat.eqb_spec i s) as [-> | Hne].
    + rewrite Nat.leb_refl, Nat.sub_diag.
      replace (s <? s + S n)%nat with true; [ reflexivity | ].
      symmetry. apply Nat.ltb_lt. lia.
    + rewrite IH.
      destruct (S s <=? i)%nat eqn:E1, (i <? S s + n)%nat eqn:E2;
        destruct (s <=? i)%nat eqn:E3, (i <? s + S n)%nat eqn:E4; simpl;
        repeat match goal with
               | H : (_ <=? _)%nat = true |- _ => apply Nat.leb_le in H
               | H : (_ <=? _)%nat = false |- _ => apply Nat.leb_gt in H
               | H : (_ <? _)%nat = true |- _ => apply Nat.ltb_lt in H
               | H : (_ <? _)%nat = false |- _ => apply Nat.ltb_ge in H
               end; try lia; try reflexivity.
      f_equal. lia.
Qed.

Lemma reindex_range (n m : nat) (c : list cell) :
  length c = m -> (m <= n)%nat ->
  reindex (RangeIndex n) (RangeIndex m) c = c ++ repeat NaN (n - m).
Proof.
  intros Hc Hm. unfold reindex, RangeIndex. rewrite map_map.
  replace n with (m + (n - m))%nat at 1 by lia.
  rewrite seq_app, map_app. f_equal.
  - transitivity (map (fun i => nth (i - 0) c NaN) (seq 0 (length c)));
      [ | apply map_nth_seq ].
    rewrite Hc. apply map_ext_in. intros i Hi. apply in_seq in Hi.
    rewrite position_range. simpl.
    replace (i <? m)%nat with true by (symmetry; apply Nat.ltb_lt; lia).
    reflexivity.
  - simpl. generalize (n - m)%nat as k. intros k.
    assert (H : forall s, (m <= s)%nat ->
              map (fun x => match position (Loc x) (map Loc (seq 0 m)) with
                            | Some i => nth i c NaN
                            | None => NaN
                            end) (seq s k) = repeat NaN k).
    { induction k as [ | k IH]; intros s Hs; simpl; [ reflexivity | ].
      rewrite position_range. simpl.
      replace (s <? m)%nat with false by (symmetry; apply Nat.ltb_ge; lia).
      f_equal. apply IH. lia. }
    apply H. lia.
Qed.

Lemma existsb_label_range (i n : nat) :
  existsb (label_eqb (Loc i)) (RangeIndex n) = (i <? n)%nat.
Proof.
  unfold RangeIndex.
  destruct (i <? n)%nat eqn:E.
  - apply Nat.ltb_lt in E. apply existsb_exists. exists (Loc i). split.
    + apply in_map, in_seq. lia.
    + apply label_eqb_refl.
  - apply Nat.ltb_ge in E.
    destruct (existsb (label_eqb (Loc i)) (map Loc (seq 0 n))) eqn:F; [ | reflexivity ].
    apply existsb_exists in F. destruct F as [l [Hin Heq]].
    apply in_map_iff in Hin. destruct Hin as [j [<- Hj]]. apply in_seq in Hj.
    simpl in Heq. apply Nat.eqb_eq in Heq. lia.
Qed.

Lemma filter_none {A} (f : A -> bool) (l : list A) :
  (forall x, In x l -> f x = false) -> filter f l = [].
Proof.
  induction l as [ | a l IH]; intros H; simpl; [ reflexivity | ].
  rewrite (H a (or_introl eq_refl)). apply IH. intros x Hx. apply H. now right.
Qed.

Lemma filter_all {A} (f : A -> bool) (l : list A) :
  (forall x, In x l -> f x = true) -> filter f l = l.
Proof.
  induction l as [ | a l IH]; intros H; simpl; [ reflexivity | ].
  rewrite (H a (or_introl eq_refl)). f_equal. apply IH. intros x Hx. apply H. now right.
Qed.

Lemma union_range (a b : nat) :
  union_index (RangeIndex a) (RangeIndex b) = RangeIndex (Nat.max a b).
Proof.
  unfold union_index.
  destruct (Nat.le_ge_cases b a) as [Hba | Hab].
  - rewrite filter_none.
    + rewrite app_nil_r. f_equal. lia.
    + intros l Hl. apply in_map_iff in Hl. destruct Hl as [i [<- Hi]].
      apply in_seq in Hi. rewrite existsb_label_range.
      replace (i <? a)%nat with true by (symmetry; apply Nat.ltb_lt; lia).
      reflexivity.
  - assert (Hb : RangeIndex b = map Loc (seq 0 a) ++ map Loc (seq (0 + a) (b - a))).
    { unfold RangeIndex. rewrite <- map_app, <- seq_app. do 2 f_equal. lia. }
    rewrite Hb, filter_app, filter_none, filter_all.
    + simpl. unfold RangeIndex. rewrite <- map_app.
      change a with (0 + a)%nat at 2. rewrite <- seq_app. do 2 f_equal. lia.
    + intros l Hl. apply in_map_iff in Hl. destruct Hl as [i [<- Hi]].
      apply in_seq in Hi. rewrite existsb_label_range.
      replace (i <? a)%nat with false by (symmetry; apply Nat.ltb_ge; lia).
      reflexivity.
    + intros l Hl. apply in_map_iff in Hl. destruct Hl as [i [<- Hi]].
      apply in_seq in Hi. rewrite existsb_label_range.
      replace (i <? a)%nat with true by (symmetry; apply Nat.ltb_lt; lia).
      reflexivity.
Qed.

Lemma combine_app {A B} (a1 a2 : list A) (b1 b2 : list B) :
  length a1 = length b1 ->
  combine (a1 ++ a2) (b1 ++ b2) = combine a1 b1 ++ combine a2 b2.
Proof.
  revert b1. induction a1 as [ | x a1 IH]; intros [ | y b1] H; simpl in *;
    try discriminate; [ reflexivity | ].
  f_equal. apply IH. now injection H.
Qed.

Lemma map_fst_combine {A B} (a : list A) (b : list B) :
  length a = length b -> map fst (combine a b) = a.
Proof.
  revert b. induction a as [ | x a IH]; intros [ | y b] H; simpl in *;
    try discriminate; [ reflexivity | ].
  f_equal. apply IH. now injection H.
Qed.

Lemma map_snd_combine {A B} (a : list A) (b : list B) :
  length a = length b -> map snd (combine a b) = b.
Proof.
  revert b. induction a as [ | x a IH]; intros [ | y b] H; simpl in *;
    try discriminate; [ reflexivity | ].
  f_equal. apply IH. now injection H.
Qed.

(** ** Ragged frames: merge and realignment *)

Lemma ragged_full (rows : nat) (payload : list (string * list cell)) :
  Forall (fun p => length (snd p) = rows) payload ->
  ragged rows payload = mkFrame (RangeIndex rows) payload.
Proof.
  intros H. unfold ragged. f_equal.
  rewrite <- (map_id payload) at 2. apply map_ext_in. intros [nm v] Hin.
  rewrite Forall_forall in H. specialize (H _ Hin). simpl in *.
  rewrite <- H. now rewrite bottom_pad_full.
Qed.

Lemma names_ragged (rows : nat) (payload : list (string * list cell)) :
  names (ragged rows payload) = map fst payload.
Proof. unfold names, ragged. simpl. now rewrite map_map. Qed.

Lemma reindex_bottom_pad (n m : nat) (v : list cell) :
  (length v <= m)%nat -> (m <= n)%nat ->
  reindex (RangeIndex n) (RangeIndex m) (bottom_pad m v) = bottom_pad n v.
Proof.
  intros Hv Hm. rewrite reindex_range; [ | now apply length_bottom_pad | exact Hm ].
  unfold bottom_pad. rewrite <- app_assoc, <- repeat_app. do 2 f_equal. lia.
Qed.

Lemma fold_union_range (ms : list nat) (a : nat) :
  fold_left union_index (map RangeIndex ms) (RangeIndex a)
  = RangeIndex (fold_left Nat.max ms a).
Proof.
  revert a. induction ms as [ | m ms IH]; intros a; simpl; [ reflexivity | ].
  now rewrite union_range, IH.
Qed.

Lemma fold_max_le (ms : list nat) (a : nat) :
  (a <= fold_left Nat.max ms a)%nat
  /\ Forall (fun m => (m <= fold_left Nat.max ms a)%nat) ms.
Proof.
  revert a. induction ms as [ | m ms IH]; intros a; simpl.
  - split; [ lia | constructor ].
  - destruct (IH (Nat.max a m)) as [H1 H2]. split; [ lia | ].
    constructor; [ lia | exact H2 ].
Qed.

Lemma concat_ragged_columns (n : nat) (l : list (nat * list (string * list cell))) :
  Forall (fun mp => Forall (fun p => (length (snd p) <= fst mp)%nat) (snd mp)) l ->
  Forall (fun m => (m <= n)%nat) (map fst l) ->
  flat_map (fun f => map (fun c => (fst c, reindex (RangeIndex n) (df_index f) (snd c)))
                         (df_columns f))
           (map (fun mp => ragged (fst mp) (snd mp)) l)
  = map (fun p => (fst p, bottom_pad n (snd p))) (flat_map snd l).
Proof.
  induction l as [ | [m p] l IH]; intros H Hle; simpl; [ reflexivity | ].
  inversion H as [ | ? ? Hp Hl]; subst. inversion Hle as [ | ? ? Hm Hle']; subst.
  rewrite map_app, (IH Hl Hle'). f_equal.
  rewrite map_map. apply map_ext_in. intros [nm v] Hin. simpl.
  rewrite Forall_forall in Hp. specialize (Hp _ Hin). simpl in *.
  now rewrite reindex_bottom_pad.
Qed.

(** Merging ragged frames gives the ragged frame of all their payloads over
    the longest index. *)
Lemma concat_ragged (l : list (nat * list (string * list cell))) :
  Forall (fun mp => Forall (fun p => (length (snd p) <= fst mp)%nat) (snd mp)) l ->
  concat_axis1 (map (fun mp => ragged (fst mp) (snd mp)) l)
  = ragged (fold_left Nat.max (map fst l) 0%nat) (flat_map snd l).
Proof.
  intros H. unfold concat_axis1.
  assert (Hidx : fold_left union_index
                   (map df_index (map (fun mp => ragged (fst mp) (snd mp)) l)) []
                 = RangeIndex (fold_left Nat.max (map fst l) 0%nat)).
  { rewrite map_map. simpl. rewrite <- map_map. apply (fold_union_range _ 0). }
  rewrite Hidx. unfold ragged at 2. f_equal.
  apply concat_ragged_columns; [ exact H | ].
  apply (proj2 (fold_max_le (map fst l) 0)).
Qed.

Lemma count_na_bottom_pad (rows : nat) (v : list cell) :
  Forall (fun c => notna c = true) v ->
  count_na (bottom_pad rows v) = (rows - length v)%nat.
Proof.
  intros H. unfold bottom_pad.
  now rewrite count_na_app, count_na_repeat, count_na_defined.
Qed.

Lemma dropna_bottom_pad (rows : nat) (v : list cell) :
  Forall (fun c => notna c = true) v -> (length v <= rows)%nat ->
  dropna (mkSeries (RangeIndex rows) (bottom_pad rows v))
  = mkSeries (RangeIndex (length v)) v.
Proof.
  intros Hv Hle. unfold dropna, bottom_pad. simpl.
  assert (Hr : RangeIndex rows
               = RangeIndex (length v) ++ map Loc (seq (0 + length v) (rows - length v))).
  { unfold RangeIndex. rewrite <- map_app, <- seq_app. do 2 f_equal. lia. }
  rewrite Hr, combine_app by (unfold RangeIndex; now rewrite length_map, length_seq).
  rewrite filter_app, filter_all, filter_none.
  - rewrite app_nil_r, map_fst_combine, map_snd_combine;
      unfold RangeIndex; now rewrite ?length_map, ?length_seq.
  - intros [l c] Hin. apply in_combine_r in Hin. apply repeat_spec in Hin.
    simpl in *. now subst.
  - intros [l c] Hin. apply in_combine_r in Hin. simpl.
    rewrite Forall_forall in Hv. now apply Hv.
Qed.

Lemma shift_bottom_pad (rows : nat) (v : list cell) :
  (length v <= rows)%nat ->
  shift (rows - length v) (bottom_pad rows v) = top_pad rows v.
Proof.
  intros Hle. unfold shift. rewrite length_bottom_pad by exact Hle.
  unfold bottom_pad, top_pad. rewrite app_assoc.
  rewrite firstn_app. rewrite length_app, repeat_length.
  replace (rows - (rows - length v + length v))%nat with 0%nat by lia.
  rewrite firstn_all2 by (rewrite length_app, repeat_length; lia).
  simpl. now rewrite app_nil_r.
Qed.

(** Updating by name touches nothing that goes by another name. *)
Lemma update_other (name : string) (g : string * list cell -> string * list cell)
  (cols : list (string * list cell)) :
  ~ In name (map fst cols) ->
  map (fun c => if String.eqb name (fst c) then g c else c) cols = cols.
Proof.
  induction cols as [ | [k v] cols IH]; intros H; simpl in *; [ reflexivity | ].
  destruct (String.eqb_spec name k) as [-> | Hne].
  - exfalso. apply H. now left.
  - f_equal. apply IH. intros Hin. apply H. now right.
Qed.

Lemma update_one (name : string) (g : string * list cell -> string * list cell)
  (before after : list (string * list cell)) (c : list cell) :
  ~ In name (map fst before) -> ~ In name (map fst after) ->
  map (fun c => if String.eqb name (fst c) then g c else c)
      (before ++ (name, c) :: after)
  = before ++ g (name, c) :: after.
Proof.
  intros Hb Ha. rewrite map_app. simpl. rewrite String.eqb_refl.
  now rewrite (update_other _ _ _ Hb), (update_other _ _ _ Ha).
Qed.

Lemma has_column_middle (idx : list label) (before after : list (string * list cell))
  (name : string) (c : list cell) :
  has_column (mkFrame idx (before ++ (name, c) :: after)) name = true.
Proof.
  unfold has_column, names. simpl. rewrite map_app, existsb_app. simpl.
  rewrite String.eqb_refl. now rewrite orb_true_r.
Qed.

(** One turn of the realignment loop on a column whose name no other
    column bears. *)
Lemma realign_step_ragged (rows : nat) (before after : list (string * list cell))
  (name : string) (v : list cell) :
  Forall (fun c => notna c = true) v -> (length v <= rows)%nat ->
  ~ In name (map fst before) -> ~ In name (map fst after) ->
  realign_step (mkFrame (RangeIndex rows) (before ++ (name, bottom_pad rows v) :: after))
               (length before)
  = mkFrame (RangeIndex rows) (before ++ (name, top_pad rows v) :: after).
Proof.
  intros Hv Hle Hb Ha. unfold realign_step. simpl df_columns.
  rewrite nth_error_app2, Nat.sub_diag by lia. simpl nth_error. cbv beta iota.
  simpl df_index.
  rewrite dropna_bottom_pad, count_na_bottom_pad by assumption.
  unfold setitem_aligned. rewrite has_column_middle. simpl.
  rewrite reindex_range by (reflexivity || exact Hle).
  unfold shift_named, replace_named. simpl. f_equal.
  rewrite (update_one name (fun c => (fst c, v ++ repeat NaN (rows - length v)))) by assumption.
  rewrite (update_one name (fun c => (fst c, shift (rows - length v) (snd c)))) by assumption.
  simpl. do 3 f_equal. apply shift_bottom_pad. exact Hle.
Qed.

(** The realignment loop on a ragged frame of distinctly named columns
    moves the padding of every column from its bottom to its top. *)
Lemma realign_ragged_from (rows : nat) (done todo : list (string * list cell)) :
  NoDup (map fst (done ++ todo)) ->
  Forall (fun p => Forall (fun c => notna c = true) (snd p)
                   /\ (length (snd p) <= rows)%nat) todo ->
  fold_left realign_step (seq (length done) (length todo))
    (mkFrame (RangeIndex rows)
       (map (fun p => (fst p, top_pad rows (snd p))) done
        ++ map (fun p => (fst p, bottom_pad rows (snd p))) todo))
  = mkFrame (RangeIndex rows) (map (fun p => (fst p, top_pad rows (snd p))) (done ++ todo)).
Proof.
  revert done. induction todo as [ | [name v] todo IH]; intros done Hnd Htodo.
  - simpl. now rewrite !app_nil_r.
  - inversion Htodo as [ | ? ? [Hv Hle] Hrest]; subst. simpl in Hv, Hle.
    simpl seq. simpl fold_left.
    rewrite map_app in Hnd. simpl in Hnd.
    pose proof (NoDup_remove_2 _ _ _ Hnd) as Hnotin.
    rewrite in_app_iff in Hnotin.
    pose proof (realign_step_ragged rows
                  (map (fun p => (fst p, top_pad rows (snd p))) done)
                  (map (fun p => (fst p, bottom_pad rows (snd p))) todo)
                  name v Hv Hle) as Hstep.
    rewrite length_map, !map_map in Hstep. simpl in Hstep.
    simpl map. rewrite Hstep by tauto.
    replace (map (fun p : string * list cell => (fst p, top_pad rows (snd p))) done
             ++ (name, top_pad rows v)
                :: map (fun p : string * list cell => (fst p, bottom_pad rows (snd p))) todo)
      with (map (fun p : string * list cell => (fst p, top_pad rows (snd p)))
                (done ++ [(name, v)])
            ++ map (fun p : string * list cell => (fst p, bottom_pad rows (snd p))) todo)
      by (rewrite map_app, <- app_assoc; reflexivity).
    replace (S (length done)) with (length (done ++ [(name, v)]))
      by (rewrite length_app; simpl; lia).
    rewrite IH; [ now rewrite <- app_assoc | | exact Hrest ].
    rewrite <- app_assoc, map_app. exact Hnd.
Qed.

Lemma realign_ragged (rows : nat) (payload : list (string * list cell)) :
  NoDup (map fst payload) ->
  Forall (fun p => Forall (fun c => notna c = true) (snd p)
                   /\ (length (snd p) <= rows)%nat) payload ->
  realign (ragged rows payload)
  = mkFrame (RangeIndex rows) (map (fun p => (fst p, top_pad rows (snd p))) payload).
Proof.
  intros Hnd Hp. unfold realign, ragged. simpl df_columns. rewrite length_map.
  apply (realign_ragged_from rows [] payload); assumption.
Qed.

(** The realignment loop keeps the row index, the names and the height of
    the columns, whatever the names are. *)
Lemma realign_step_shape (df : DataFrame) (i : nat) :
  Forall (fun c => length (snd c) = length (df_index df)) (df_columns df) ->
  df_index (realign_step df i) = df_index df
  /\ names (realign_step df i) = names df
  /\ Forall (fun c => length (snd c) = length (df_index df))
            (df_columns (realign_step df i)).
Proof.
  intros Hlen. unfold realign_step.
  destruct (nth_error (df_columns df) i) as [[columnName columnData] | ] eqn:E;
    [ | repeat split; assumption ].
  assert (Hhas : has_column df columnName = true).
  { unfold has_column, names. apply existsb_exists. exists columnName. split.
    - apply nth_error_In in E. now apply (in_map fst) in E.
    - apply String.eqb_refl. }
  unfold setitem_aligned. rewrite Hhas. unfold shift_named, replace_named, names. simpl.
  repeat split.
  - rewrite !map_map. apply map_ext. intros [k v]. simpl.
    destruct (String.eqb columnName k) eqn:Ek; simpl; rewrite ?Ek; reflexivity.
  - rewrite map_map. apply Forall_map. rewrite Forall_forall in *.
    intros [k v] Hin. specialize (Hlen _ Hin). simpl in *.
    destruct (String.eqb columnName k) eqn:Ek; simpl; rewrite ?Ek; simpl.
    + unfold shift. rewrite length_firstn, length_app. unfold reindex.
      rewrite length_map. lia.
    + exact Hlen.
Qed.

Lemma realign_shape (df : DataFrame) :
  Forall (fun c => length (snd c) = length (df_index df)) (df_columns df) ->
  df_index (realign df) = df_index df
  /\ names (realign df) = names df
  /\ Forall (fun c => length (snd c) = length (df_index df)) (df_columns (realign df)).
Proof.
  unfold realign. generalize (seq 0 (length (df_columns df))). intros l.
  revert df. induction l as [ | i l IH]; intros df Hlen; simpl.
  - repeat split; assumption.
  - destruct (realign_step_shape df i Hlen) as [Hi [Hn Hl]].
    rewrite <- Hi in Hl. destruct (IH _ Hl) as [Hi' [Hn' Hl']].
    rewrite Hi', Hn', Hi in *. repeat split; assumption.
Qed.

(** A column without gaps whose name is its own alone goes through the
    realignment loop untouched, whatever the other columns are called. *)
Lemma realign_full_column (rows : nat) (c : list cell) :
  length c = rows -> Forall (fun x => notna x = true) c ->
  shift (count_na c)
        (reindex (RangeIndex rows)
                 (s_index (dropna (mkSeries (RangeIndex rows) c)))
                 (s_values (dropna (mkSeries (RangeIndex rows) c)))) = c.
Proof.
  intros <- Hc.
  pose proof (dropna_bottom_pad (length c) c Hc (le_n _)) as E.
  rewrite bottom_pad_full in E. rewrite E. simpl.
  rewrite reindex_range by (reflexivity || lia).
  rewrite count_na_defined by assumption.
  unfold shift. simpl. rewrite Nat.sub_diag, app_nil_r. apply firstn_all.
Qed.

Lemma realign_step_keeps (rows : nat) (df : DataFrame) (name : string) (c : list cell)
  (i : nat) :
  df_index df = RangeIndex rows ->
  length c = rows -> Forall (fun x => notna x = true) c ->
  In (name, c) (df_columns df) ->
  (forall c', In (name, c') (df_columns df) -> c' = c) ->
  df_index (realign_step df i) = RangeIndex rows
  /\ In (name, c) (df_columns (realign_step df i))
  /\ (forall c', In (name, c') (df_columns (realign_step df i)) -> c' = c).
Proof.
  intros Hidx Hlen Hc Hin Huniq. unfold realign_step.
  destruct (nth_error (df_columns df) i) as [[columnName columnData] | ] eqn:E;
    [ | repeat split; assumption ].
  assert (Hhas : has_column df columnName = true).
  { unfold has_column, names. apply existsb_exists. exists columnName. split.
    - apply nth_error_In in E. now apply (in_map fst) in E.
    - apply String.eqb_refl. }
  unfold setitem_aligned. rewrite Hhas. unfold shift_named, replace_named.
  simpl df_index. simpl df_columns. rewrite map_map. simpl s_index. simpl s_values.
  rewrite Hidx.
  assert (Hg : forall k v c',
             In (k, v) (df_columns df) ->
             (let y := if String.eqb columnName k
                       then (k, reindex (RangeIndex rows)
                                  (s_index (dropna (mkSeries (RangeIndex rows) columnData)))
                                  (s_values (dropna (mkSeries (RangeIndex rows) columnData))))
                       else (k, v) in
              if String.eqb columnName (fst y)
              then (fst y, shift (count_na columnData) (snd y)) else y) = (name, c') ->
             c' = c).
  { intros k v c' Hkv. simpl.
    destruct (String.eqb_spec columnName k) as [-> | Hne]; simpl.
    - rewrite String.eqb_refl. intros [= -> <-].
      apply nth_error_In in E. rewrite (Huniq _ E).
      now apply realign_full_column.
    - destruct (String.eqb_spec columnName k) as [-> | _]; [ contradiction | ].
      intros [= -> ->]. now apply Huniq. }
  repeat split.
  - apply in_map_iff. exists (name, c). split; [ | exact Hin ]. simpl.
    destruct (String.eqb_spec columnName name) as [-> | Hne]; simpl.
    + rewrite String.eqb_refl. f_equal.
      apply nth_error_In in E. rewrite (Huniq _ E).
      now apply realign_full_column.
    + destruct (String.eqb_spec columnName name) as [-> | _]; [ contradiction | ].
      reflexivity.
  - intros c' Hin'. apply in_map_iff in Hin'. destruct Hin' as [[k v] [Hy Hkv]].
    now apply (Hg k v c' Hkv).
Qed.

Lemma realign_keeps (rows : nat) (df : DataFrame) (name : string) (c : list cell) :
  df_index df = RangeIndex rows ->
  length c = rows -> Forall (fun x => notna x = true) c ->
  In (name, c) (df_columns df) ->
  (forall c', In (name, c') (df_columns df) -> c' = c) ->
  lookup name (df_columns (realign df)) = Some c.
Proof.
  intros Hidx Hlen Hc Hin Huniq.
  assert (H : In (name, c) (df_columns (realign df))
              /\ (forall c', In (name, c') (df_columns (realign df)) -> c' = c)).
  { unfold realign. generalize (seq 0 (length (df_columns df))). intros l.
    revert df Hidx Hin Huniq. induction l as [ | i l IH]; intros df Hidx Hin Huniq; simpl.
    - split; assumption.
    - destruct (realign_step_keeps rows df name c i Hidx Hlen Hc Hin Huniq)
        as [H1 [H2 H3]].
      now apply IH. }
  destruct H as [H1 H2]. revert H1 H2.
  induction (df_columns (realign df)) as [ | [k v] cols IH]; intros H1 H2; simpl.
  - contradiction.
  - destruct (String.eqb_spec name k) as [-> | Hne].
    + f_equal. apply H2. now left.
    + apply IH.
      * destruct H1 as [[= -> ->] | H1]; [ contradiction | exact H1 ].
      * intros c' Hc'. apply H2. now right.
Qed.

(** ** Differences and rolling means of a series without gaps *)

Lemma sub_cell_numeric (a b : cell) :
  numeric a = true -> numeric b = true -> numeric (sub_cell a b) = true.
Proof. now destruct a, b. Qed.

Lemma diff_from_numeric (prev : cell) (c : list cell) :
  numeric prev = true -> Forall (fun x => numeric x = true) c ->
  Forall (fun x => numeric x = true) (diff_from prev c)
  /\ length (diff_from prev c) = length c.
Proof.
  intros Hp Hc. revert prev Hp. induction Hc as [ | x c Hx _ IH]; intros prev Hp; simpl.
  - split; [ constructor | reflexivity ].
  - destruct (IH x Hx) as [H1 H2]. split; [ | now rewrite H2 ].
    constructor; [ now apply sub_cell_numeric | exact H1 ].
Qed.

(** The first difference of a series without gaps is undefined in its
    first row and nowhere else. *)
Lemma diff_values_numeric (c : list cell) :
  Forall (fun x => numeric x = true) c -> c <> [] ->
  exists ds, diff_values c = NaN :: ds
             /\ Forall (fun x => numeric x = true) ds
             /\ length ds = (length c - 1)%nat.
Proof.
  intros Hc Hne. destruct c as [ | x c]; [ contradiction | ].
  inversion Hc as [ | ? ? Hx Hrest]; subst.
  destruct (diff_from_numeric x c Hx Hrest) as [H1 H2].
  exists (diff_from x c). simpl. repeat split; [ exact H1 | lia ].
Qed.

Lemma delta_matrix_numeric (ds c : list cell) (x : cell) :
  Forall (fun y => numeric y = true) ds -> Forall (fun y => numeric y = true) c ->
  length ds = length c ->
  delta_matrix (NaN :: ds) (x :: c) = map (fun p => [fst p; snd p]) (combine ds c)
  /\ length (delta_matrix (NaN :: ds) (x :: c)) = length c
  /\ Forall (Forall (fun y => numeric y = true)) (delta_matrix (NaN :: ds) (x :: c)).
Proof.
  intros Hds Hc Hlen. unfold delta_matrix. simpl.
  rewrite filter_all.
  - repeat split.
    + now rewrite length_map, length_combine, Hlen, Nat.min_id.
    + apply Forall_map. apply Forall_forall. intros [d y] Hin.
      rewrite Forall_forall in Hds, Hc.
      pose proof (in_combine_l _ _ _ _ Hin). pose proof (in_combine_r _ _ _ _ Hin).
      simpl. repeat constructor; auto.
  - intros [d y] Hin. rewrite Forall_forall in Hds, Hc.
    pose proof (in_combine_l _ _ _ _ Hin) as Hd. pose proof (in_combine_r _ _ _ _ Hin) as Hy.
    simpl. now rewrite (numeric_notna _ (Hds _ Hd)), (numeric_notna _ (Hc _ Hy)).
Qed.

Lemma In_firstn {A} (n : nat) (l : list A) (x : A) : In x (firstn n l) -> In x l.
Proof.
  intros H. rewrite <- (firstn_skipn n l). apply in_or_app. now left.
Qed.

Lemma In_skipn {A} (n : nat) (l : list A) (x : A) : In x (skipn n l) -> In x l.
Proof.
  intros H. rewrite <- (firstn_skipn n l). apply in_or_app. now right.
Qed.

Lemma sum_cells_numeric (w : list cell) :
  Forall (fun x => numeric x = true) w -> exists s, sum_cells w = Some s.
Proof.
  induction 1 as [ | x w Hx _ [s IH]]; simpl; [ eauto | ].
  destruct x; try discriminate. rewrite IH. simpl. eauto.
Qed.

Lemma mean_numeric (w : list cell) :
  Forall (fun x => numeric x = true) w -> numeric (mean w) = true.
Proof.
  intros H. unfold mean. destruct (sum_cells_numeric w H) as [s ->]. reflexivity.
Qed.

Lemma map_const_seq {A} (f : nat -> A) (a : A) (s k : nat) :
  (forall i, (s <= i < s + k)%nat -> f i = a) -> map f (seq s k) = repeat a k.
Proof.
  revert s. induction k as [ | k IH]; intros s H; simpl; [ reflexivity | ].
  rewrite H by lia. f_equal. apply IH. intros i Hi. apply H. lia.
Qed.

(** The rolling mean over [w] rows of a series without gaps is undefined in
    its first [w - 1] rows and nowhere else. *)
Lemma rolling_mean_numeric (w : nat) (c : list cell) :
  Forall (fun x => numeric x = true) c -> (1 <= w <= length c)%nat ->
  exists ms, rolling_mean_values w c = repeat NaN (w - 1) ++ ms
             /\ Forall (fun x => numeric x = true) ms
             /\ length ms = (length c - (w - 1))%nat.
Proof.
  intros Hc Hw. unfold rolling_mean_values.
  assert (Hs : seq 0 (length c)
               = seq 0 (w - 1) ++ seq (0 + (w - 1)) (length c - (w - 1))).
  { rewrite <- seq_app. f_equal. lia. }
  rewrite Hs, map_app.
  eexists. split; [ f_equal | split ].
  - apply map_const_seq. intros i Hi.
    replace (w =? 0)%nat with false by (symmetry; apply Nat.eqb_neq; lia).
    replace (i + 1 <? w)%nat with true by (symmetry; apply Nat.ltb_lt; lia).
    reflexivity.
  - apply Forall_map, Forall_forall. intros i Hi. apply in_seq in Hi.
    replace (w =? 0)%nat with false by (symmetry; apply Nat.eqb_neq; lia).
    replace (i + 1 <? w)%nat with false by (symmetry; apply Nat.ltb_ge; lia).
    simpl. apply mean_numeric.
    apply Forall_forall. intros x Hx.
    apply In_firstn, In_skipn in Hx.
    rewrite Forall_forall in Hc. now apply Hc.
  - now rewrite length_map, length_seq.
Qed.

(** A window longer than the series is never filled. *)
Lemma rolling_mean_short (w : nat) (c : list cell) :
  (length c < w)%nat -> rolling_mean_values w c = repeat NaN (length c).
Proof.
  intros Hw. unfold rolling_mean_values. apply map_const_seq. intros i Hi.
  replace (i + 1 <? w)%nat with true by (symmetry; apply Nat.ltb_lt; lia).
  now rewrite orb_true_r.
Qed.

Lemma dropna_top_pad (idx : list label) (k : nat) (ms : list cell) :
  Forall (fun x => notna x = true) ms ->
  length idx = (k + length ms)%nat ->
  s_values (dropna (mkSeries idx (repeat NaN k ++ ms))) = ms.
Proof.
  intros Hms Hlen. unfold dropna. simpl.
  rewrite <- (firstn_skipn k idx).
  rewrite combine_app by (rewrite length_firstn, repeat_length; lia).
  rewrite filter_app, filter_none, filter_all.
  - simpl. apply map_snd_combine. rewrite length_skipn. lia.
  - intros [l x] Hin. apply in_combine_r in Hin. simpl.
    rewrite Forall_forall in Hms. now apply Hms.
  - intros [l x] Hin. apply in_combine_r in Hin. apply repeat_spec in Hin.
    simpl in *. now subst.
Qed.

Lemma dropna_all_na (idx : list label) (k : nat) :
  s_values (dropna (mkSeries idx (repeat NaN k))) = [].
Proof.
  unfold dropna. simpl. rewrite filter_none; [ reflexivity | ].
  intros [l x] Hin. apply in_combine_r in Hin. apply repeat_spec in Hin.
  simpl in *. now subst.
Qed.

(** ** Building frames *)

Lemma setitem_fresh (rows : nat) (name : string) (v : list cell) :
  length v = rows ->
  setitem empty_frame name v = ret (mkFrame (RangeIndex rows) [(name, v)]).
Proof. intros <-. reflexivity. Qed.

Lemma RangeIndex_cons (rows : nat) :
  (1 <= rows)%nat -> exists l idx, RangeIndex rows = l :: idx.
Proof.
  intros H. destruct rows as [ | k]; [ lia | ].
  unfold RangeIndex. simpl. eauto.
Qed.

Lemma length_RangeIndex (rows : nat) : length (RangeIndex rows) = rows.
Proof. unfold RangeIndex. now rewrite length_map, length_seq. Qed.

Lemma setitem_new (rows : nat) (cols : list (string * list cell)) (name : string)
  (v : list cell) :
  (1 <= rows)%nat -> length v = rows ->
  has_column (mkFrame (RangeIndex rows) cols) name = false ->
  setitem (mkFrame (RangeIndex rows) cols) name v
  = ret (mkFrame (RangeIndex rows) (cols ++ [(name, v)])).
Proof.
  intros Hrows Hv Hhas. unfold setitem. simpl df_index.
  destruct (RangeIndex_cons rows Hrows) as [l [idx E]].
  rewrite Hhas. rewrite E at 1 2. rewrite <- E, length_RangeIndex, Hv, Nat.eqb_refl.
  reflexivity.
Qed.

Lemma setitem_again (rows : nat) (cols : list (string * list cell)) (name : string)
  (v : list cell) :
  (1 <= rows)%nat -> length v = rows ->
  has_column (mkFrame (RangeIndex rows) cols) name = true ->
  setitem (mkFrame (RangeIndex rows) cols) name v
  = ret (mkFrame (RangeIndex rows) (replace_named name v cols)).
Proof.
  intros Hrows Hv Hhas. unfold setitem. simpl df_index.
  destruct (RangeIndex_cons rows Hrows) as [l [idx E]].
  rewrite Hhas. rewrite E at 1 2. rewrite <- E, length_RangeIndex, Hv, Nat.eqb_refl.
  reflexivity.
Qed.

Section Runs.

Context (sk : sklearn) (env : entropy).

Lemma result_fit (X : list (list cell)) (clf : fitted sk) :
  forest_fit sk random_state env X = Some clf -> result (fit sk env X) = Ok clf.
Proof. intros H. unfold fit. rewrite result_bind. simpl. now rewrite H. Qed.

Lemma result_fit_rejected (X : list (list cell)) :
  forest_fit sk random_state env X = None ->
  exists e, result (fit sk env X) = Raise e.
Proof.
  intros H. unfold fit. rewrite result_bind. simpl. rewrite H.
  eexists. reflexivity.
Qed.

Lemma effects_fit (X : list (list cell)) : effects (fit sk env X) = [Fit X].
Proof.
  unfold fit. rewrite effects_bind. simpl.
  destruct (forest_fit sk random_state env X); reflexivity.
Qed.

Lemma length_scores (clf : fitted sk) (X : list (list cell)) :
  scorer_ok sk env -> length (scores sk clf X) = length X.
Proof. intros [_ [H _]]. unfold scores. now rewrite length_map. Qed.

Lemma length_labels (clf : fitted sk) (X : list (list cell)) :
  scorer_ok sk env -> length (labels sk clf X) = length X.
Proof. intros [_ [_ H]]. unfold labels. now rewrite length_map. Qed.

Lemma length_reshape (c : list cell) : length (reshape c) = length c.
Proof. unfold reshape. now rewrite length_map. Qed.

Lemma baseFrame_runs (dataCol : Series) (timeCol : list Z) (time : option bool)
  (clf : fitted sk) :
  scorer_ok sk env ->
  (1 <= length (s_values dataCol))%nat ->
  length timeCol = length (s_values dataCol) ->
  time <> Some false ->
  forest_fit sk random_state env (raw_features dataCol) = Some clf ->
  result (baseFrame sk env dataCol timeCol time)
  = Ok (mkFrame (RangeIndex (length (s_values dataCol)))
                (base_payload sk clf dataCol timeCol time)).
Proof.
  intros Hok Hn Hts Htime Hfit. unfold baseFrame. cbv zeta.
  change (reshape (s_values dataCol)) with (raw_features dataCol).
  rewrite result_bind, (result_fit _ _ Hfit).
  rewrite (setitem_fresh (length (s_values dataCol)))
    by (rewrite length_scores by exact Hok; apply length_reshape).
  rewrite bind_ret.
  rewrite setitem_new;
    [ | exact Hn | rewrite length_labels by exact Hok; apply length_reshape | reflexivity ].
  rewrite bind_ret.
  rewrite setitem_new; [ | exact Hn | reflexivity | reflexivity ].
  rewrite bind_ret. simpl app.
  destruct time as [[ | ] | ]; [ | contradiction | ].
  - rewrite setitem_new; [ reflexivity | exact Hn | now rewrite length_map | reflexivity ].
  - rewrite setitem_new; [ | exact Hn | now rewrite length_map | reflexivity ].
    rewrite bind_ret.
    change (lookup "Date" _) with (Some (map Stamp timeCol)). cbv iota beta.
    rewrite setitem_again; [ reflexivity | exact Hn | now rewrite !length_map | reflexivity ].
Qed.

Lemma lookup_base (clf : fitted sk) (dataCol : Series) (timeCol : list Z)
  (time : option bool) :
  lookup "Anomaly" (base_payload sk clf dataCol timeCol time)
  = Some (labels sk clf (raw_features dataCol))
  /\ lookup "Date" (base_payload sk clf dataCol timeCol time)
     = Some (date_column time timeCol)
  /\ lookup "Incidents" (base_payload sk clf dataCol timeCol time)
     = Some (s_values dataCol).
Proof. repeat split. Qed.

Lemma getBase_runs (dataCol : Series) (timeCol : list Z) (xx yy : option string)
  (time : option bool) (clf : fitted sk) :
  scorer_ok sk env ->
  (1 <= length (s_values dataCol))%nat ->
  length timeCol = length (s_values dataCol) ->
  time <> Some false ->
  forest_fit sk random_state env (raw_features dataCol) = Some clf ->
  result (getBase sk env dataCol timeCol xx yy time)
  = Ok (mkFrame (RangeIndex (length (s_values dataCol)))
                (base_payload sk clf dataCol timeCol time)).
Proof.
  intros Hok Hn Hts Htime Hfit. unfold getBase.
  rewrite result_bind, (baseFrame_runs _ _ _ clf) by assumption.
  rewrite result_bind. unfold getPlot. rewrite result_bind.
  unfold loc_anomalies. simpl df_columns.
  destruct (lookup_base clf dataCol timeCol time) as [-> [-> ->]].
  simpl result at 2. cbv iota beta. rewrite Hts, Nat.eqb_refl. reflexivity.
Qed.

Lemma getPlot_runs (dataCol : Series) (timeCol : list Z) (dfResults : DataFrame)
  (title : string) (xx yy : option string) (a d i : list cell) :
  lookup "Anomaly" (df_columns dfResults) = Some a ->
  lookup "Date" (df_columns dfResults) = Some d ->
  lookup "Incidents" (df_columns dfResults) = Some i ->
  length timeCol = length (s_values dataCol) ->
  result (getPlot dataCol timeCol dfResults title xx yy) = Ok tt.
Proof.
  intros Ha Hd Hi Hts. unfold getPlot, loc_anomalies.
  rewrite result_bind, Ha, Hd, Hi. simpl. now rewrite Hts, Nat.eqb_refl.
Qed.

Ltac frame_names :=
  cbn [drop set_columns rename_at rename_nth has_column names existsb map fst snd
       filter negb orb String.eqb Ascii.eqb Bool.eqb df_columns df_index
       length Nat.eqb combine option_map app].

Lemma delta_features_rows (dataCol : Series) :
  Forall (fun c => numeric c = true) (s_values dataCol) ->
  length (delta_features dataCol) = (length (s_values dataCol) - 1)%nat
  /\ Forall (Forall (fun c => numeric c = true)) (delta_features dataCol)
  /\ length (s_values (diff dataCol)) = length (s_values dataCol)
  /\ count_na (s_values (diff dataCol)) = Nat.min 1 (length (s_values dataCol))
  /\ Forall (fun c => notna c = true) (skipn 1 (s_values (diff dataCol))).
Proof.
  intros Hnum. unfold delta_features, diff. simpl s_values.
  destruct (s_values dataCol) as [ | x c] eqn:E.
  - simpl. repeat split; constructor.
  - inversion Hnum as [ | ? ? Hx Hc]; subst.
    destruct (diff_from_numeric x c Hx Hc) as [Hds Hlen].
    destruct (delta_matrix_numeric (diff_from x c) c x Hds Hc Hlen) as [_ [H2 H3]].
    simpl diff_values. repeat split.
    + rewrite H2. simpl. lia.
    + exact H3.
    + simpl. now rewrite Hlen.
    + change (NaN :: diff_from x c) with ([NaN] ++ diff_from x c).
      rewrite count_na_app, (count_na_defined (diff_from x c)).
      * reflexivity.
      * now apply Forall_numeric_notna.
    + simpl. now apply Forall_numeric_notna.
Qed.

Ltac lengths Hok :=
  rewrite ?(length_scores _ _ Hok), ?(length_labels _ _ Hok),
    ?length_map, ?length_skipn, ?length_reshape;
  try assumption;
  try (repeat match goal with
              | H : length _ = _ |- _ => rewrite H
              end; lia).

Ltac build Hok :=
  repeat (first [ rewrite setitem_new by (first [ reflexivity | lengths Hok ])
                | rewrite bind_ret ]).

Lemma getBaseDelta_runs (dataCol : Series) (timeCol : list Z) (xx yy : option string)
  (clf : fitted sk) :
  scorer_ok sk env ->
  Forall (fun c => numeric c = true) (s_values dataCol) ->
  (2 <= length (s_values dataCol))%nat ->
  length timeCol = length (s_values dataCol) ->
  forest_fit sk random_state env (delta_features dataCol) = Some clf ->
  result (getBaseDelta sk env dataCol timeCol xx yy)
  = Ok (mkFrame (RangeIndex (length (s_values dataCol) - 1))
                (delta_payload sk clf dataCol)).
Proof.
  intros Hok Hnum Hn Hts Hfit. unfold getBaseDelta. cbv zeta.
  change (delta_matrix (s_values (diff dataCol)) (s_values dataCol))
    with (delta_features dataCol).
  destruct (delta_features_rows dataCol Hnum) as [Hrows [_ [Hdiff _]]].
  rewrite result_bind, (result_fit _ _ Hfit).
  rewrite (setitem_fresh (length (s_values dataCol) - 1)) by (lengths Hok).
  build Hok. simpl app.
  rewrite result_bind.
  erewrite getPlot_runs; [ | reflexivity | reflexivity | reflexivity | exact Hts ].
  frame_names. rewrite !bind_ret. reflexivity.
Qed.

Lemma rolling_column_numeric (dataCol : Series) (val : Z) :
  length (s_index dataCol) = length (s_values dataCol) ->
  Forall (fun c => numeric c = true) (s_values dataCol) ->
  (1 <= val <= Z.of_nat (length (s_values dataCol)))%Z ->
  exists ms,
    s_values (rolling_column val dataCol) = repeat NaN (Z.to_nat val - 1) ++ ms
    /\ Forall (fun c => numeric c = true) ms
    /\ length ms = (length (s_values dataCol) - (Z.to_nat val - 1))%nat
    /\ count_na (s_values (rolling_column val dataCol)) = (Z.to_nat val - 1)%nat
    /\ s_values (dropna (rolling_column val dataCol)) = ms.
Proof.
  intros Hwf Hnum Hval.
  destruct (rolling_mean_numeric (Z.to_nat val) (s_values dataCol) Hnum) as [ms [E [Hms Hlen]]];
    [ lia | ].
  exists ms. unfold rolling_column. simpl s_values. rewrite E.
  repeat split; try assumption.
  - rewrite count_na_app, count_na_repeat, count_na_defined; [ lia | ].
    now apply Forall_numeric_notna.
  - apply dropna_top_pad; [ now apply Forall_numeric_notna | ].
    change (length (s_index dataCol) = (Z.to_nat val - 1 + length ms)%nat).
    rewrite Hwf, Hlen. lia.
Qed.

Lemma window_view_runs (dataCol : Series) (timeCol : list Z) (xx yy : option string)
  (val : Z) (clf : fitted sk) :
  scorer_ok sk env ->
  length (s_index dataCol) = length (s_values dataCol) ->
  Forall (fun c => numeric c = true) (s_values dataCol) ->
  (1 <= val <= Z.of_nat (length (s_values dataCol)))%Z ->
  length timeCol = length (s_values dataCol) ->
  forest_fit sk random_state env (window_features (rolling_column val dataCol)) = Some clf ->
  result (window_view sk env dataCol timeCol xx yy val)
  = Ok (dropna (rolling_column val dataCol),
        mkFrame (RangeIndex (length (s_values dataCol) - (Z.to_nat val - 1)))
                (window_payload sk clf dataCol val)).
Proof.
  intros Hok Hwf Hnum Hval Hts Hfit. unfold window_view, rolling_mean.
  replace (val <? 0)%Z with false by (symmetry; apply Z.ltb_ge; lia).
  rewrite bind_ret. cbv zeta.
  change (mkSeries (s_index dataCol)
            (rolling_mean_values (Z.to_nat val) (s_values dataCol)))
    with (rolling_column val dataCol).
  change (reshape (s_values (dropna (rolling_column val dataCol))))
    with (window_features (rolling_column val dataCol)).
  destruct (rolling_column_numeric dataCol val Hwf Hnum Hval)
    as [ms [E [Hms [Hlen [Hdropped Hkept]]]]].
  assert (Hrows : length (window_features (rolling_column val dataCol))
                  = (length (s_values dataCol) - (Z.to_nat val - 1))%nat).
  { unfold window_features. now rewrite length_reshape, Hkept. }
  rewrite result_bind, (result_fit _ _ Hfit).
  rewrite Hdropped.
  rewrite (setitem_fresh (length (s_values dataCol) - (Z.to_nat val - 1)))
    by (lengths Hok).
  assert (Hpos : (1 <= length (s_values dataCol) - (Z.to_nat val - 1))%nat) by lia.
  assert (Hk : length (s_values (dropna (rolling_column val dataCol)))
               = (length (s_values dataCol) - (Z.to_nat val - 1))%nat)
    by now rewrite Hkept.
  build Hok. simpl app.
  rewrite result_bind.
  erewrite getPlot_runs; [ | reflexivity | reflexivity | reflexivity | exact Hts ].
  frame_names. rewrite !bind_ret. reflexivity.
Qed.

Lemma windowDelta_view_runs (dataCol : Series) (timeCol : list Z) (xx yy : option string)
  (val : Z) (columnData : Series) (clf : fitted sk) :
  scorer_ok sk env ->
  Forall (fun c => numeric c = true) (s_values dataCol) ->
  (2 <= length (s_values dataCol))%nat ->
  length timeCol = length (s_values dataCol) ->
  forest_fit sk random_state env (delta_features dataCol) = Some clf ->
  result (windowDelta_view sk env dataCol timeCol xx yy val columnData)
  = Ok (mkFrame (RangeIndex (length (s_values dataCol) - 1))
                (windowDelta_payload sk clf dataCol val)).
Proof.
  intros Hok Hnum Hn Hts Hfit. unfold windowDelta_view. cbv zeta.
  change (delta_matrix (s_values (diff dataCol)) (s_values dataCol))
    with (delta_features dataCol).
  destruct (delta_features_rows dataCol Hnum) as [Hrows [_ [Hdiff [Hdropped _]]]].
  rewrite Hdropped. replace (Nat.min 1 (length (s_values dataCol))) with 1%nat by lia.
  rewrite result_bind, (result_fit _ _ Hfit).
  rewrite (setitem_fresh (length (s_values dataCol) - 1)) by (lengths Hok).
  build Hok. simpl app.
  rewrite result_bind.
  erewrite getPlot_runs; [ | reflexivity | reflexivity | reflexivity | exact Hts ].
  frame_names. rewrite !bind_ret. reflexivity.
Qed.

Lemma fit_exists (X : list (list cell)) :
  scorer_ok sk env -> X <> [] -> Forall (Forall (fun c => numeric c = true)) X ->
  exists clf, forest_fit sk random_state env X = Some clf.
Proof.
  intros [H _] Hne Hnum. specialize (H X Hne Hnum).
  destruct (forest_fit sk random_state env X) as [clf | ]; [ eauto | contradiction ].
Qed.

Lemma reshape_numeric (c : list cell) :
  Forall (fun x => numeric x = true) c ->
  Forall (Forall (fun x => numeric x = true)) (reshape c).
Proof.
  intros H. unfold reshape. apply Forall_map.
  apply (Forall_impl _ (P := fun x => numeric x = true)); [ | exact H ].
  intros x Hx. now repeat constructor.
Qed.

Lemma nonempty_length {A} (l : list A) : (1 <= length l)%nat -> l <> [].
Proof. destruct l; simpl; [ lia | discriminate ]. Qed.

(** On a valid input every view is built and scored: its function returns
    the frame of its columns over as many rows as the series has after the
    warm-up. *)
Lemma view_frame_runs (dataCol : Series) (timeCol : list Z) (windowList : list Z)
  (xx yy : option string) (time : option bool) (v : ViewKind) :
  scorer_ok sk env ->
  valid_input dataCol timeCol windowList time ->
  In v (views windowList) ->
  result (view_frame sk env dataCol timeCol xx yy time v)
  = Ok (mkFrame (RangeIndex (length (s_values dataCol) - warmup v))
                (view_columns sk env dataCol timeCol time v)).
Proof.
  intros Hok [Hwf [Hnum [Hn [Hts [Hwl Htime]]]]] Hv.
  destruct (delta_features_rows dataCol Hnum) as [Hrows [Hdnum _]].
  assert (Hdelta : exists clf, forest_fit sk random_state env (delta_features dataCol)
                               = Some clf).
  { apply fit_exists; [ exact Hok | apply nonempty_length; lia | exact Hdnum ]. }
  unfold views in Hv. simpl in Hv. rewrite in_app_iff, !in_map_iff in Hv.
  destruct Hv as [<- | [<- | [[w [<- Hw]] | [w [<- Hw]]]]]; simpl view_frame.
  - destruct (fit_exists (raw_features dataCol) Hok) as [clf Hfit].
    + apply nonempty_length. unfold raw_features. rewrite length_reshape. lia.
    + now apply reshape_numeric.
    + simpl. rewrite Hfit, Nat.sub_0_r. apply getBase_runs; try assumption. lia.
  - destruct Hdelta as [clf Hfit]. simpl. rewrite Hfit.
    now apply getBaseDelta_runs.
  - rewrite Forall_forall in Hwl. specialize (Hwl _ Hw).
    destruct (rolling_column_numeric dataCol w Hwf Hnum Hwl)
      as [ms [_ [Hms [Hlen [_ Hkept]]]]].
    destruct (fit_exists (window_features (rolling_column w dataCol)) Hok) as [clf Hfit].
    + apply nonempty_length. unfold window_features.
      rewrite length_reshape, Hkept, Hlen. lia.
    + unfold window_features. rewrite Hkept. now apply reshape_numeric.
    + simpl. rewrite Hfit, result_bind.
      now rewrite (window_view_runs _ _ _ _ _ clf).
  - destruct Hdelta as [clf Hfit]. simpl. rewrite Hfit.
    now apply windowDelta_view_runs.
Qed.

Lemma scores_notna (clf : fitted sk) (X : list (list cell)) :
  Forall (fun c => notna c = true) (scores sk clf X).
Proof. unfold scores. apply Forall_map, Forall_forall. reflexivity. Qed.

Lemma labels_notna (clf : fitted sk) (X : list (list cell)) :
  Forall (fun c => notna c = true) (labels sk clf X).
Proof. unfold labels. apply Forall_map, Forall_forall. reflexivity. Qed.

Lemma date_column_notna (time : option bool) (timeCol : list Z) :
  Forall (fun c => notna c = true) (date_column time timeCol).
Proof.
  unfold date_column. destruct time as [b | ];
    rewrite ?map_map; apply Forall_map, Forall_forall; reflexivity.
Qed.

Lemma length_date_column (time : option bool) (timeCol : list Z) :
  length (date_column time timeCol) = length timeCol.
Proof. unfold date_column. destruct time; now rewrite ?length_map. Qed.

(** The columns of a view on a valid input: their names, their height and
    that no entry is missing. *)
Lemma view_columns_shape (dataCol : Series) (timeCol : list Z) (windowList : list Z)
  (time : option bool) (v : ViewKind) :
  scorer_ok sk env ->
  valid_input dataCol timeCol windowList time ->
  In v (views windowList) ->
  map fst (view_columns sk env dataCol timeCol time v) = view_names time v
  /\ Forall (fun p => length (snd p) = (length (s_values dataCol) - warmup v)%nat
                      /\ Forall (fun c => notna c = true) (snd p))
            (view_columns sk env dataCol timeCol time v).
Proof.
  intros Hok [Hwf [Hnum [Hn [Hts [Hwl Htime]]]]] Hv.
  destruct (delta_features_rows dataCol Hnum) as [Hrows [Hdnum [Hdiff [_ Hdna]]]].
  assert (Hdelta : exists clf, forest_fit sk random_state env (delta_features dataCol)
                               = Some clf).
  { apply fit_exists; [ exact Hok | apply nonempty_length; lia | exact Hdnum ]. }
  unfold views in Hv. simpl in Hv. rewrite in_app_iff, !in_map_iff in Hv.
  destruct Hv as [<- | [<- | [[w [<- Hw]] | [w [<- Hw]]]]]; simpl.
  - destruct (fit_exists (raw_features dataCol) Hok) as [clf Hfit].
    + apply nonempty_length. unfold raw_features. rewrite length_reshape. lia.
    + now apply reshape_numeric.
    + rewrite Hfit. split.
      * destruct time as [[ | ] | ]; [ reflexivity | contradiction | reflexivity ].
      * rewrite Nat.sub_0_r. unfold base_payload, raw_features.
        repeat constructor; cbn [snd fst];
          auto using scores_notna, labels_notna, date_column_notna, Forall_numeric_notna;
          rewrite ?length_date_column; lengths Hok.
  - destruct Hdelta as [clf ->]. split; [ reflexivity | ].
    unfold delta_payload.
    repeat constructor; cbn [snd fst]; auto using scores_notna, labels_notna; lengths Hok.
  - rewrite Forall_forall in Hwl. specialize (Hwl _ Hw).
    destruct (rolling_column_numeric dataCol w Hwf Hnum Hwl)
      as [ms [_ [Hms [Hlen [_ Hkept]]]]].
    destruct (fit_exists (window_features (rolling_column w dataCol)) Hok) as [clf Hfit].
    + apply nonempty_length. unfold window_features.
      rewrite length_reshape, Hkept, Hlen. lia.
    + unfold window_features. rewrite Hkept. now apply reshape_numeric.
    + rewrite Hfit. split; [ reflexivity | ].
      unfold window_payload, window_features. rewrite Hkept.
      repeat constructor; cbn [snd fst];
        auto using scores_notna, labels_notna, Forall_numeric_notna; lengths Hok.
  - destruct Hdelta as [clf ->]. split; [ reflexivity | ].
    unfold windowDelta_payload.
    repeat constructor; cbn [snd fst]; auto using scores_notna, labels_notna; lengths Hok.
Qed.

Lemma result_foldM_cons {A B} (f : A -> B -> M A) (b : B) (rest : list B) (acc : A) :
  result (foldM f (b :: rest) acc)
  = match result (f acc b) with
    | Ok acc' => result (foldM f rest acc')
    | Raise e => Raise e
    end.
Proof. simpl. apply result_bind. Qed.

Lemma window_view_valid (dataCol : Series) (timeCol : list Z) (windowList : list Z)
  (xx yy : option string) (time : option bool) (w : Z) :
  scorer_ok sk env ->
  valid_input dataCol timeCol windowList time ->
  In w windowList ->
  exists rollingCol,
    result (window_view sk env dataCol timeCol xx yy w)
    = Ok (rollingCol,
          mkFrame (RangeIndex (length (s_values dataCol) - warmup (Window w)))
                  (view_columns sk env dataCol timeCol time (Window w))).
Proof.
  intros Hok Hvalid Hw.
  assert (Hv : In (Window w) (views windowList)).
  { unfold views. simpl. right. right. apply in_or_app. left. now apply in_map. }
  pose proof (view_frame_runs dataCol timeCol windowList xx yy time _ Hok Hvalid Hv) as H.
  simpl view_frame in H. apply bind_ok in H. destruct H as [[rc f] [H1 H2]].
  simpl in H2. injection H2 as ->. eauto.
Qed.

Lemma ragged_le_max (m rows : nat) (payload : list (string * list cell)) :
  Forall (fun p => (length (snd p) <= m)%nat) payload ->
  Forall (fun p => (length (snd p) <= Nat.max m rows)%nat) payload.
Proof. apply Forall_impl. intros p Hp. lia. Qed.

(** Appending the frame of one more view to a ragged frame. *)
Lemma concat_ragged_view (m rows : nat) (payload cols : list (string * list cell)) :
  Forall (fun p => (length (snd p) <= m)%nat) payload ->
  Forall (fun p => length (snd p) = rows) cols ->
  concat_axis1 [ragged m payload; mkFrame (RangeIndex rows) cols]
  = ragged (Nat.max m rows) (payload ++ cols).
Proof.
  intros Hp Hc. rewrite <- (ragged_full rows cols Hc).
  pose proof (concat_ragged [(m, payload); (rows, cols)]) as H.
  simpl in H. rewrite app_nil_r in H. apply H.
  repeat constructor; simpl; [ exact Hp | ].
  apply (Forall_impl _ (P := fun p => length (snd p) = rows)); [ | exact Hc ].
  intros p Hlen. lia.
Qed.

Lemma getWindows_from (dataCol : Series) (timeCol : list Z) (windowList : list Z)
  (xx yy : option string) (time : option bool) :
  scorer_ok sk env ->
  valid_input dataCol timeCol windowList time ->
  forall (todo : list Z) (rollingDF : list Series) (m : nat)
         (payload : list (string * list cell)),
    incl todo windowList ->
    Forall (fun p => (length (snd p) <= m)%nat) payload ->
    exists rollingDF' m',
      result (foldM (fun acc val =>
                       r <- window_view sk env dataCol timeCol xx yy val ;;
                       ret (fst acc ++ [fst r], concat_axis1 [snd acc; snd r]))
                    todo (rollingDF, ragged m payload))
      = Ok (rollingDF',
            ragged m' (payload ++ flat_map (fun w => view_columns sk env dataCol timeCol time
                                                                  (Window w)) todo))
      /\ length rollingDF' = (length rollingDF + length todo)%nat
      /\ (m <= m')%nat
      /\ (m <= length (s_values dataCol) -> m' <= length (s_values dataCol))%nat
      /\ Forall (fun p => (length (snd p) <= m')%nat)
                (payload ++ flat_map (fun w => view_columns sk env dataCol timeCol time
                                                            (Window w)) todo).
Proof.
  intros Hok Hvalid. induction todo as [ | w todo IH]; intros rollingDF m payload Hincl Hp.
  - exists rollingDF, m. simpl. rewrite app_nil_r. repeat split; auto; lia.
  - assert (Hw : In w windowList) by (apply Hincl; now left).
    destruct (window_view_valid dataCol timeCol windowList xx yy time w Hok Hvalid Hw)
      as [rc Hrun].
    assert (Hv : In (Window w) (views windowList)).
    { unfold views. simpl. right. right. apply in_or_app. left. now apply in_map. }
    destruct (view_columns_shape dataCol timeCol windowList time _ Hok Hvalid Hv)
      as [_ Hshape].
    rewrite result_foldM_cons, result_bind, Hrun. simpl fst. simpl snd.
    simpl result at 1. cbv iota beta.
    rewrite concat_ragged_view;
      [ | exact Hp
        | eapply Forall_impl; [ | exact Hshape ]; intros p [Hlen _]; exact Hlen ].
    destruct (IH (rollingDF ++ [rc])
                 (Nat.max m (length (s_values dataCol) - warmup (Window w)))
                 (payload ++ view_columns sk env dataCol timeCol time (Window w)))
      as [rdf [m' [Hres [Hlen [Hle [Hbound Hall]]]]]].
    + intros x Hx. apply Hincl. now right.
    + apply Forall_app. split; [ now apply ragged_le_max | ].
      eapply Forall_impl; [ | exact Hshape ]. intros p [Hl _]. simpl in *. lia.
    + exists rdf, m'. simpl flat_map. rewrite app_assoc. repeat split.
      * exact Hres.
      * rewrite Hlen, length_app. simpl. lia.
      * lia.
      * intros Hm. apply Hbound. lia.
      * exact Hall.
Qed.

Lemma getWindowsDelta_from (dataCol : Series) (timeCol : list Z) (windowList : list Z)
  (xx yy : option string) (time : option bool) :
  scorer_ok sk env ->
  valid_input dataCol timeCol windowList time ->
  forall (todo : list Z) (rollingDF : list Series) (m : nat)
         (payload : list (string * list cell)),
    incl todo windowList ->
    length rollingDF = length todo ->
    Forall (fun p => (length (snd p) <= m)%nat) payload ->
    exists m',
      result (foldM (fun windowDeltaResults p =>
                       dfResults <- windowDelta_view sk env dataCol timeCol xx yy
                                                     (fst p) (snd p) ;;
                       ret (concat_axis1 [windowDeltaResults; dfResults]))
                    (combine todo rollingDF) (ragged m payload))
      = Ok (ragged m' (payload ++ flat_map (fun w => view_columns sk env dataCol timeCol time
                                                                  (WindowDelta w)) todo))
      /\ (m <= m')%nat
      /\ (m <= length (s_values dataCol) -> m' <= length (s_values dataCol))%nat
      /\ Forall (fun p => (length (snd p) <= m')%nat)
                (payload ++ flat_map (fun w => view_columns sk env dataCol timeCol time
                                                            (WindowDelta w)) todo).
Proof.
  intros Hok Hvalid.
  induction todo as [ | w todo IH]; intros rollingDF m payload Hincl Hlen Hp.
  - exists m. simpl. rewrite app_nil_r. repeat split; auto; lia.
  - destruct rollingDF as [ | rc rollingDF]; [ discriminate | ].
    assert (Hv : In (WindowDelta w) (views windowList)).
    { unfold views. simpl. right. right. apply in_or_app. right.
      apply in_map. apply Hincl. now left. }
    destruct (view_columns_shape dataCol timeCol windowList time _ Hok Hvalid Hv)
      as [_ Hshape].
    destruct (delta_features_rows dataCol (proj1 (proj2 Hvalid))) as [Hrows [Hdnum _]].
    destruct Hvalid as [Hwf [Hnum [Hn [Hts [Hwl Htime]]]]].
    destruct (fit_exists (delta_features dataCol) Hok) as [clf Hfit];
      [ apply nonempty_length; lia | exact Hdnum | ].
    simpl combine. rewrite result_foldM_cons, result_bind. simpl fst. simpl snd.
    rewrite (windowDelta_view_runs _ _ _ _ _ _ clf) by assumption.
    simpl result at 1. cbv iota beta.
    assert (Hcols : view_columns sk env dataCol timeCol time (WindowDelta w)
                    = windowDelta_payload sk clf dataCol w)
      by (simpl; now rewrite Hfit).
    rewrite Hcols in Hshape. simpl warmup in Hshape.
    rewrite concat_ragged_view;
      [ | exact Hp
        | eapply Forall_impl; [ | exact Hshape ]; intros p [Hl _]; exact Hl ].
    destruct (IH rollingDF (Nat.max m (length (s_values dataCol) - 1))
                 (payload ++ windowDelta_payload sk clf dataCol w))
      as [m' [Hres [Hle [Hbound Hall]]]].
    + intros x Hx. apply Hincl. now right.
    + simpl in Hlen. lia.
    + apply Forall_app. split; [ now apply ragged_le_max | ].
      eapply Forall_impl; [ | exact Hshape ]. intros p [Hl _]. simpl in *. lia.
    + exists m'. cbn [flat_map]. rewrite Hcols, app_assoc. repeat split.
      * exact Hres.
      * lia.
      * intros Hm. apply Hbound. lia.
      * exact Hall.
Qed.

(** The merge at line 301 on a valid input: the columns of all views in
    the order of [views], over the rows of the series, each column filled
    up with [NaN] at its bottom. *)
Lemma merged_runs (dataCol : Series) (timeCol : list Z) (windowList : list Z)
  (x y : option string) (time : option bool) :
  scorer_ok sk env ->
  valid_input dataCol timeCol windowList time ->
  result (merged sk env dataCol timeCol windowList x y time)
  = Ok (ragged (length (s_values dataCol))
               (flat_map (view_columns sk env dataCol timeCol time) (views windowList))).
Proof.
  intros Hok Hvalid. unfold merged.
  assert (Hraw : In Raw (views windowList)) by (now left).
  assert (Hdel : In Delta (views windowList)) by (right; now left).
  destruct (view_columns_shape dataCol timeCol windowList time _ Hok Hvalid Hraw)
    as [_ Hsraw].
  destruct (view_columns_shape dataCol timeCol windowList time _ Hok Hvalid Hdel)
    as [_ Hsdel].
  rewrite result_bind.
  pose proof (view_frame_runs dataCol timeCol windowList x y time _ Hok Hvalid Hraw) as Hb.
  simpl view_frame in Hb. rewrite Hb. clear Hb.
  rewrite result_bind. unfold getWindows.
  destruct (getWindows_from dataCol timeCol windowList x y time Hok Hvalid
              windowList [] 0%nat [] (incl_refl _) (Forall_nil _))
    as [rdf [mw [Hw [Hlen [_ [Hmw Hallw]]]]]].
  change (([] : list Series), empty_frame) with (([] : list Series), ragged 0 []).
  rewrite Hw. cbn [fst snd].
  rewrite result_bind.
  pose proof (view_frame_runs dataCol timeCol windowList x y time _ Hok Hvalid Hdel) as Hd.
  simpl view_frame in Hd. rewrite Hd. clear Hd.
  rewrite result_bind. unfold getWindowsDelta.
  destruct (getWindowsDelta_from dataCol timeCol windowList x y time Hok Hvalid
              windowList rdf 0%nat [] (incl_refl _) Hlen (Forall_nil _))
    as [mwd [Hwd [_ [Hmwd Hallwd]]]].
  change empty_frame with (ragged 0 []). rewrite Hwd.
  cbn [result ret snd fst app warmup] in *.
  rewrite <- (ragged_full (length (s_values dataCol) - 0)
                (view_columns sk env dataCol timeCol time Raw))
    by (eapply Forall_impl; [ | exact Hsraw ]; intros p [Hl _]; exact Hl).
  rewrite <- (ragged_full (length (s_values dataCol) - 1)
                (view_columns sk env dataCol timeCol time Delta))
    by (eapply Forall_impl; [ | exact Hsdel ]; intros p [Hl _]; exact Hl).
  pose proof (concat_ragged
                [ ((length (s_values dataCol) - 0)%nat,
                   view_columns sk env dataCol timeCol time Raw);
                  ((length (s_values dataCol) - 1)%nat,
                   view_columns sk env dataCol timeCol time Delta);
                  (mw, flat_map (fun w => view_columns sk env dataCol timeCol time (Window w))
                                windowList);
                  (mwd, flat_map (fun w => view_columns sk env dataCol timeCol time
                                                       (WindowDelta w)) windowList) ])
    as Hcat.
  cbn [map flat_map fold_left fst snd] in Hcat.
  rewrite Hcat.
  - f_equal. f_equal.
    + specialize (Hmw (Nat.le_0_l _)). specialize (Hmwd (Nat.le_0_l _)). lia.
    + unfold views. cbn [flat_map]. rewrite flat_map_app, !flat_map_concat_map, !map_map.
      rewrite app_nil_r. reflexivity.
  - repeat constructor; simpl fst; simpl snd.
    + eapply Forall_impl; [ | exact Hsraw ]. intros p [Hl _]. simpl in *. lia.
    + eapply Forall_impl; [ | exact Hsdel ]. intros p [Hl _]. simpl in *. lia.
    + exact Hallw.
    + exact Hallwd.
Qed.

Lemma ragged_lengths (rows : nat) (payload : list (string * list cell)) :
  Forall (fun p => (length (snd p) <= rows)%nat) payload ->
  Forall (fun c => length (snd c) = length (df_index (ragged rows payload)))
         (df_columns (ragged rows payload)).
Proof.
  intros H. unfold ragged. simpl. rewrite length_RangeIndex.
  apply Forall_map. eapply Forall_impl; [ | exact H ].
  intros p Hp. simpl. now apply length_bottom_pad.
Qed.

Lemma all_view_columns_shape (dataCol : Series) (timeCol : list Z) (windowList : list Z)
  (time : option bool) :
  scorer_ok sk env ->
  valid_input dataCol timeCol windowList time ->
  map fst (flat_map (view_columns sk env dataCol timeCol time) (views windowList))
  = flat_map (view_names time) (views windowList)
  /\ Forall (fun p => (length (snd p) <= length (s_values dataCol))%nat
                      /\ Forall (fun c => notna c = true) (snd p))
            (flat_map (view_columns sk env dataCol timeCol time) (views windowList)).
Proof.
  intros Hok Hvalid.
  assert (H : forall vs, incl vs (views windowList) ->
            map fst (flat_map (view_columns sk env dataCol timeCol time) vs)
            = flat_map (view_names time) vs
            /\ Forall (fun p => (length (snd p) <= length (s_values dataCol))%nat
                                /\ Forall (fun c => notna c = true) (snd p))
                      (flat_map (view_columns sk env dataCol timeCol time) vs)).
  { induction vs as [ | v vs IH]; intros Hincl; simpl.
    - split; [ reflexivity | constructor ].
    - destruct IH as [IH1 IH2]; [ intros x Hx; apply Hincl; now right | ].
      destruct (view_columns_shape dataCol timeCol windowList time v Hok Hvalid)
        as [Hn Hs]; [ apply Hincl; now left | ].
      rewrite map_app, Hn, IH1. split; [ reflexivity | ].
      apply Forall_app. split; [ | exact IH2 ].
      eapply Forall_impl; [ | exact Hs ]. intros p [Hl Hna]. split; [ lia | exact Hna ]. }
  apply H, incl_refl.
Qed.

(** On a valid input [getIF] returns the realigned merge of all views. *)
Lemma getIF_runs (dataCol : Series) (timeCol : list Z) (windowList : list Z)
  (x y : option string) (time : option bool) :
  scorer_ok sk env ->
  valid_input dataCol timeCol windowList time ->
  result (getIF sk env (PySeries dataCol) (PyDatetimeIndex timeCol) (PyList windowList)
                x y time)
  = Ok (realign (ragged (length (s_values dataCol))
                        (flat_map (view_columns sk env dataCol timeCol time)
                                  (views windowList)))).
Proof.
  intros Hok Hvalid. simpl getIF.
  now rewrite result_bind, merged_runs.
Qed.

(** Shape of the result on a valid input: indexed by position, one column
    per name of every view in merge order, every column as long as the
    series. *)
Lemma getIF_shape (dataCol : Series) (timeCol : list Z) (windowList : list Z)
  (x y : option string) (time : option bool) :
  scorer_ok sk env ->
  valid_input dataCol timeCol windowList time ->
  exists tbl,
    result (getIF sk env (PySeries dataCol) (PyDatetimeIndex timeCol) (PyList windowList)
                  x y time) = Ok tbl
    /\ df_index tbl = RangeIndex (length (s_values dataCol))
    /\ names tbl = flat_map (view_names time) (views windowList)
    /\ Forall (fun c => length (snd c) = length (s_values dataCol)) (df_columns tbl).
Proof.
  intros Hok Hvalid. eexists. split; [ now apply getIF_runs | ].
  destruct (all_view_columns_shape dataCol timeCol windowList time Hok Hvalid) as [Hn Hs].
  destruct (realign_shape
              (ragged (length (s_values dataCol))
                      (flat_map (view_columns sk env dataCol timeCol time)
                                (views windowList)))) as [Hi [Hnm Hlen]].
  { apply ragged_lengths. eapply Forall_impl; [ | exact Hs ]. now intros p [Hl _]. }
  rewrite Hi, Hnm, names_ragged, Hn. repeat split.
  simpl df_index in Hlen. now rewrite length_RangeIndex in Hlen.
Qed.

End Runs.

(** ** Column names *)

Lemma window_names_head (w : Z) (name : string) :
  In name (window_names w) -> exists rest, name = String "w" rest.
Proof.
  unfold window_names. simpl.
  intros [<- | [<- | [<- | []]]]; eexists; reflexivity.
Qed.

Lemma windowDelta_names_head (w : Z) (name : string) :
  In name (windowDelta_names w) -> exists rest, name = String "w" rest.
Proof.
  unfold windowDelta_names. simpl.
  intros [<- | [<- | [<- | []]]]; eexists; reflexivity.
Qed.

Lemma window_views_names_head (time : option bool) (windowList : list Z) (name : string) :
  In name (flat_map (view_names time) (map Window windowList ++ map WindowDelta windowList)) ->
  exists rest, name = String "w" rest.
Proof.
  rewrite in_flat_map. intros [v [Hv Hname]].
  rewrite in_app_iff, !in_map_iff in Hv.
  destruct Hv as [[w [<- _]] | [w [<- _]]]; simpl in Hname.
  - now apply window_names_head in Hname.
  - now apply windowDelta_names_head in Hname.
Qed.

(** The raw view's [Date] column reaches the result as it was built. *)
Lemma getIF_date_column (sk : sklearn) (env : entropy) (dataCol : Series)
  (timeCol : list Z) (windowList : list Z) (time : option bool) :
  scorer_ok sk env ->
  valid_input dataCol timeCol windowList time ->
  lookup "Date"
    (df_columns (realign (ragged (length (s_values dataCol))
                                 (flat_map (view_columns sk env dataCol timeCol time)
                                           (views windowList)))))
  = Some (date_column time timeCol).
Proof.
  intros Hok Hvalid.
  pose proof Hvalid as [Hwf [Hnum [Hn [Hts [Hwl Htime]]]]].
  assert (Hlen : length (date_column time timeCol) = length (s_values dataCol))
    by now rewrite length_date_column.
  apply (realign_keeps (length (s_values dataCol)));
    [ reflexivity | exact Hlen | apply date_column_notna | | ].
  - unfold ragged. simpl df_columns. apply in_map_iff.
    exists ("Date"%string, date_column time timeCol). split.
    + simpl. f_equal. rewrite <- Hlen. apply bottom_pad_full.
    + unfold views. simpl flat_map. apply in_or_app. left.
      destruct (fit_exists sk env (raw_features dataCol) Hok) as [clf Hfit].
      * apply nonempty_length. unfold raw_features. rewrite length_reshape. lia.
      * now apply reshape_numeric.
      * simpl. rewrite Hfit. simpl. tauto.
  - intros c' Hin. unfold ragged in Hin. simpl df_columns in Hin.
    apply in_map_iff in Hin. destruct Hin as [[k v] [Hkv Hin]].
    simpl in Hkv. injection Hkv as -> <-.
    unfold views in Hin. simpl flat_map in Hin. rewrite !in_app_iff in Hin.
    destruct Hin as [Hin | [Hin | Hin]].
    + simpl in Hin. destruct (forest_fit sk random_state env (raw_features dataCol));
        [ | contradiction ].
      simpl in Hin.
      destruct Hin as [[=] | [[=] | [[=] | [[= <-] | []]]]].
      rewrite <- Hlen. apply bottom_pad_full.
    + simpl in Hin. destruct (forest_fit sk random_state env (delta_features dataCol));
        [ | contradiction ].
      simpl in Hin. destruct Hin as [[=] | [[=] | [[=] | []]]].
    + exfalso.
      assert (Hv : incl (map Window windowList ++ map WindowDelta windowList)
                        (views windowList)).
      { intros u Hu. right. right. exact Hu. }
      assert (Hname : In "Date"%string
                        (flat_map (view_names time)
                                  (map Window windowList ++ map WindowDelta windowList))).
      { apply in_flat_map in Hin. destruct Hin as [u [Hu Hin]].
        apply in_flat_map. exists u. split; [ exact Hu | ].
        destruct (view_columns_shape sk env dataCol timeCol windowList time u Hok Hvalid
                    (Hv u Hu)) as [<- _].
        now apply (in_map fst) in Hin. }
      apply window_views_names_head in Hname. destruct Hname as [rest [=]].
Qed.

(** ** The concrete scorer meets the contract *)

Lemma forallb_numeric (X : list (list cell)) :
  Forall (Forall (fun c => numeric c = true)) X -> forallb (forallb numeric) X = true.
Proof.
  intros H. apply forallb_forall. intros row Hrow.
  rewrite Forall_forall in H. specialize (H _ Hrow).
  apply forallb_forall. now apply Forall_forall.
Qed.

Lemma threshold_forest_ok (env : entropy) : scorer_ok threshold_forest env.
Proof.
  repeat split.
  - intros X Hne Hnum. simpl. unfold threshold_fit.
    destruct X as [ | row X]; [ contradiction | ].
    now rewrite (forallb_numeric _ Hnum).
  - intros clf X. simpl. now rewrite length_map.
  - intros clf X. simpl. now rewrite length_map.
Qed.

Lemma threshold_forest_rejects_empty (env : entropy) : rejects_empty threshold_forest env.
Proof. reflexivity. Qed.

Lemma threshold_forest_seeded : seeded_deterministic threshold_forest.
Proof. intros seed e1 e2 X. reflexivity. Qed.

Lemma spike_valid (time : option bool) :
  time <> Some false -> valid_input spike six_days [2; 3]%Z time.
Proof.
  intros Htime. unfold valid_input. simpl.
  repeat split; try lia; try exact Htime; repeat constructor; simpl; lia.
Qed.

(** The example of the specification: the rolling means over two days,
    and the rows the Delta view scores. *)
Example spike_rolling_means :
  s_values (dropna (rolling_column 2%Z spike))
  = map (fun z => Num (inject_Z z)) [10; 10; 30; 30; 10]%Z.
Proof. vm_compute. reflexivity. Qed.

Example spike_delta_rows :
  delta_features spike
  = map (fun p => [Num (inject_Z (fst p)); Num (inject_Z (snd p))])
        [(0, 10); (0, 10); (40, 50); (-40, 10); (0, 10)]%Z.
Proof. vm_compute. reflexivity. Qed.

(** ** The claims *)

(** C2.  On a valid series of length [n] and a window list of length [k],
    the table [getIF] returns has [n] rows (a row index and every column of
    length [n]) and its columns are, in this order, those of Raw, of Delta,
    of one Window view per requested window and of one WindowDelta view
    per requested window: [2 + 2 * k] views, none left out; without
    windows, the columns of Raw and Delta and no others. *)
Theorem C2_result_covers_every_view (sk : sklearn) (env : entropy) (dataCol : Series)
  (timeCol : list Z) (windowList : list Z) (x y : option string) (time : option bool) :
  scorer_ok sk env ->
  valid_input dataCol timeCol windowList time ->
  exists tbl,
    result (getIF sk env (PySeries dataCol) (PyDatetimeIndex timeCol) (PyList windowList)
                  x y time) = Ok tbl
    /\ length (df_index tbl) = length (s_values dataCol)
    /\ Forall (fun c => length (snd c) = length (s_values dataCol)) (df_columns tbl)
    /\ names tbl = flat_map (view_names time) (views windowList)
    /\ length (views windowList) = (2 + 2 * length windowList)%nat
    /\ (windowList = [] -> names tbl = base_names time ++ delta_names).
Proof.
  intros Hok Hvalid.
  destruct (getIF_shape sk env dataCol timeCol windowList x y time Hok Hvalid)
    as [tbl [Hrun [Hidx [Hnames Hlen]]]].
  exists tbl. repeat split; try assumption.
  - now rewrite Hidx, length_RangeIndex.
  - unfold views. simpl. rewrite length_app, !length_map. lia.
  - intros ->. rewrite Hnames. reflexivity.
Qed.

Lemma C2_witness :
  exists tbl,
    result (getIF threshold_forest 0%Z (PySeries spike) (PyDatetimeIndex six_days)
                  (PyList [2; 3]%Z) None None None) = Ok tbl
    /\ length (df_index tbl) = length (s_values spike)
    /\ Forall (fun c => length (snd c) = length (s_values spike)) (df_columns tbl)
    /\ names tbl = flat_map (view_names None) (views [2; 3]%Z)
    /\ length (views [2; 3]%Z) = (2 + 2 * length [2; 3]%Z)%nat
    /\ ([2; 3]%Z = [] -> names tbl = base_names None ++ delta_names).
Proof.
  apply (C2_result_covers_every_view threshold_forest 0%Z spike six_days [2; 3]%Z
           None None None).
  - apply threshold_forest_ok.
  - apply spike_valid. discriminate.
Defined.

(** C6, as the code has it.  The table [getIF] returns on a valid input is
    indexed by the positions [0 .. n-1]; the time stamps of the caller are
    the values of the raw view's column [Date]: calendar dates when [time]
    is [None], the time stamps themselves when it is [True]. *)
Theorem C6_result_indexed_by_position (sk : sklearn) (env : entropy) (dataCol : Series)
  (timeCol : list Z) (windowList : list Z) (x y : option string) (time : option bool) :
  scorer_ok sk env ->
  valid_input dataCol timeCol windowList time ->
  exists tbl,
    result (getIF sk env (PySeries dataCol) (PyDatetimeIndex timeCol) (PyList windowList)
                  x y time) = Ok tbl
    /\ df_index tbl = RangeIndex (length (s_values dataCol))
    /\ lookup "Date" (df_columns tbl) = Some (date_column time timeCol).
Proof.
  intros Hok Hvalid.
  destruct (getIF_shape sk env dataCol timeCol windowList x y time Hok Hvalid)
    as [tbl [Hrun [Hidx _]]].
  exists tbl. repeat split; try assumption.
  rewrite getIF_runs in Hrun by assumption. injection Hrun as <-.
  now apply getIF_date_column.
Qed.

Lemma C6_witness :
  exists tbl,
    result (getIF threshold_forest 0%Z (PySeries spike) (PyDatetimeIndex six_days)
                  (PyList [2; 3]%Z) None None (Some true)) = Ok tbl
    /\ df_index tbl = RangeIndex (length (s_values spike))
    /\ lookup "Date" (df_columns tbl) = Some (date_column (Some true) six_days).
Proof.
  apply (C6_result_indexed_by_position threshold_forest 0%Z spike six_days [2; 3]%Z
           None None (Some true)).
  - apply threshold_forest_ok.
  - apply spike_valid. discriminate.
Defined.

(** C6 as the specification words it fails: on the six-day example the row
    index of the result is not the sequence of time stamps. *)
Lemma C6_counterexample :
  exists tbl,
    result (getIF threshold_forest 0%Z (PySeries spike) (PyDatetimeIndex six_days)
                  (PyList [2; 3]%Z) None None None) = Ok tbl
    /\ df_index tbl <> map Time six_days.
Proof.
  eexists. split; [ vm_compute; reflexivity | ]. discriminate.
Qed.

(** The first thing a view's function does is to fit its feature matrix. *)
Lemma view_frame_fits (sk : sklearn) (env : entropy) (dataCol : Series)
  (timeCol : list Z) (xx yy : option string) (time : option bool) (v : ViewKind) :
  match v with Window w => (0 <= w)%Z | _ => True end ->
  exists rest,
    effects (view_frame sk env dataCol timeCol xx yy time v)
    = Fit (view_features dataCol v) :: rest.
Proof.
  intros Hw. destruct v as [ | | w | w]; simpl view_frame; simpl view_features.
  - unfold getBase, baseFrame. cbv zeta.
    rewrite !effects_bind, effects_fit. simpl. eexists. reflexivity.
  - unfold getBaseDelta. cbv zeta.
    rewrite !effects_bind, effects_fit. simpl. eexists. reflexivity.
  - unfold window_view, rolling_mean.
    replace (w <? 0)%Z with false by (symmetry; apply Z.ltb_ge; lia).
    rewrite effects_bind, bind_ret. cbv zeta.
    rewrite !effects_bind, effects_fit. simpl. eexists. reflexivity.
  - unfold windowDelta_view. cbv zeta.
    rewrite !effects_bind, effects_fit. simpl. eexists. reflexivity.
Qed.

Lemma skipn_app_exact {A} (a b : list A) (k : nat) :
  length a = k -> skipn k (a ++ b) = b.
Proof.
  intros <-. rewrite skipn_app, skipn_all, Nat.sub_diag. reflexivity.
Qed.

Lemma firstn_app_exact {A} (a b : list A) (k : nat) :
  length a = k -> firstn k (a ++ b) = a.
Proof.
  intros <-. rewrite firstn_app, firstn_all, Nat.sub_diag. simpl. apply app_nil_r.
Qed.

(** C3.  On a valid input the raw view fits all [n] rows (warm-up 0); the
    Delta view and every WindowDelta view fit [n - 1] rows (warm-up 1); the
    view [Window w] fits [n - (w - 1)] rows (warm-up [w - 1]).  In each case
    the matrix fitted is the view's table without its first [warmup] rows;
    those rows are the ones holding an undefined first difference or
    rolling mean, and every row kept is fully defined. *)
Theorem C3_warmup_of_every_view (sk : sklearn) (env : entropy) (dataCol : Series)
  (timeCol : list Z) (windowList : list Z) (xx yy : option string) (time : option bool)
  (v : ViewKind) :
  valid_input dataCol timeCol windowList time ->
  In v (views windowList) ->
  (exists rest, effects (view_frame sk env dataCol timeCol xx yy time v)
                = Fit (view_features dataCol v) :: rest)
  /\ length (view_table dataCol v) = length (s_values dataCol)
  /\ view_features dataCol v = skipn (warmup v) (view_table dataCol v)
  /\ length (view_features dataCol v) = (length (s_values dataCol) - warmup v)%nat
  /\ Forall (fun row => existsb isna row = true) (firstn (warmup v) (view_table dataCol v))
  /\ Forall (Forall (fun c => numeric c = true)) (view_features dataCol v)
  /\ warmup Raw = 0%nat /\ warmup Delta = 1%nat
  /\ (forall w, warmup (WindowDelta w) = 1%nat)
  /\ (forall w, warmup (Window w) = (Z.to_nat w - 1)%nat).
Proof.
  intros [Hwf [Hnum [Hn [Hts [Hwl Htime]]]]] Hv.
  assert (Hdelta :
            length (view_table dataCol Delta) = length (s_values dataCol)
            /\ delta_features dataCol = skipn 1 (view_table dataCol Delta)
            /\ length (delta_features dataCol) = (length (s_values dataCol) - 1)%nat
            /\ Forall (fun row => existsb isna row = true)
                      (firstn 1 (view_table dataCol Delta))
            /\ Forall (Forall (fun c => numeric c = true)) (delta_features dataCol)).
  { destruct (delta_features_rows dataCol Hnum) as [Hrows [Hdnum [Hdiff _]]].
    unfold view_table, delta_features, diff in *. simpl s_values in *.
    destruct (s_values dataCol) as [ | x c] eqn:E; [ simpl in Hn; lia | ].
    inversion Hnum as [ | ? ? Hx Hc]; subst.
    destruct (diff_from_numeric x c Hx Hc) as [Hds Hlen].
    destruct (delta_matrix_numeric (diff_from x c) c x Hds Hc Hlen) as [H1 _].
    simpl diff_values in *. rewrite H1 in *. simpl.
    repeat split; try assumption.
    - now rewrite length_map, length_combine, Hlen, Nat.min_id.
    - repeat constructor. }
  split.
  - apply view_frame_fits. destruct v as [ | | w | w]; try exact I.
    unfold views in Hv. simpl in Hv. rewrite in_app_iff, !in_map_iff in Hv.
    destruct Hv as [[=] | [[=] | [[u [[= <-] Hu]] | [u [[=] _]]]]].
    rewrite Forall_forall in Hwl. specialize (Hwl _ Hu). lia.
  - cut (length (view_table dataCol v) = length (s_values dataCol)
         /\ view_features dataCol v = skipn (warmup v) (view_table dataCol v)
         /\ length (view_features dataCol v) = (length (s_values dataCol) - warmup v)%nat
         /\ Forall (fun row => existsb isna row = true)
                   (firstn (warmup v) (view_table dataCol v))
         /\ Forall (Forall (fun c => numeric c = true)) (view_features dataCol v)).
    { intros [H1 [H2 [H3 [H4 H5]]]]. repeat split; assumption. }
    unfold views in Hv. simpl in Hv. rewrite in_app_iff, !in_map_iff in Hv.
    destruct Hv as [<- | [<- | [[w [<- Hw]] | [w [<- Hw]]]]].
    + simpl. unfold raw_features. rewrite length_reshape, Nat.sub_0_r.
      repeat split; [ constructor | now apply reshape_numeric ].
    + exact Hdelta.
    + rewrite Forall_forall in Hwl. specialize (Hwl _ Hw).
      destruct (rolling_column_numeric dataCol w Hwf Hnum Hwl)
        as [ms [E [Hms [Hlen [_ Hkept]]]]].
      cbn [view_table view_features warmup].
      unfold window_features. rewrite Hkept, E. unfold reshape.
      rewrite map_app.
      assert (Hk : length (map (fun x : cell => [x]) (repeat NaN (Z.to_nat w - 1)))
                   = (Z.to_nat w - 1)%nat)
        by now rewrite length_map, repeat_length.
      rewrite (skipn_app_exact _ _ _ Hk), (firstn_app_exact _ _ _ Hk).
      repeat split.
      * rewrite length_app, Hk, length_map, Hlen. lia.
      * now rewrite length_map.
      * apply Forall_map, Forall_forall. intros c Hc.
        apply repeat_spec in Hc. now subst.
      * now apply (reshape_numeric ms).
    + exact Hdelta.
Qed.

Lemma C3_witness :
  (exists rest, effects (view_frame threshold_forest 0%Z spike six_days None None None
                                    (Window 3))
                = Fit (view_features spike (Window 3)) :: rest)
  /\ length (view_table spike (Window 3)) = length (s_values spike)
  /\ view_features spike (Window 3) = skipn (warmup (Window 3)) (view_table spike (Window 3))
  /\ length (view_features spike (Window 3))
     = (length (s_values spike) - warmup (Window 3))%nat
  /\ Forall (fun row => existsb isna row = true)
            (firstn (warmup (Window 3)) (view_table spike (Window 3)))
  /\ Forall (Forall (fun c => numeric c = true)) (view_features spike (Window 3))
  /\ warmup Raw = 0%nat /\ warmup Delta = 1%nat
  /\ (forall w, warmup (WindowDelta w) = 1%nat)
  /\ (forall w, warmup (Window w) = (Z.to_nat w - 1)%nat).
Proof.
  apply (C3_warmup_of_every_view threshold_forest 0%Z spike six_days [2; 3]%Z
           None None None (Window 3)).
  - apply spike_valid. discriminate.
  - simpl. tauto.
Defined.

(** Row [i] of the matrix of differences holds the value of row [i + 1]
    of the series and what it exceeds the value before it by. *)
Lemma delta_rows_nth (c : list cell) :
  forall (prev : cell) (i : nat) (a b : Q),
    nth_error (prev :: c) i = Some (Num a) ->
    nth_error c i = Some (Num b) ->
    exists d,
      nth_error (map (fun p => [fst p; snd p]) (combine (diff_from prev c) c)) i
      = Some [Num d; Num b]
      /\ (d == b - a)%Q.
Proof.
  induction c as [ | x c IH]; intros prev i a b Ha Hb.
  - destruct i; discriminate Hb.
  - destruct i as [ | i].
    + simpl in Ha, Hb. injection Ha as ->. injection Hb as ->.
      simpl. exists (Qred (b - a)). split; [ reflexivity | apply Qred_correct ].
    + simpl in Hb. change (nth_error (x :: c) i = Some (Num a)) in Ha.
      destruct (IH x i a b Ha Hb) as [d [Hd Hq]].
      exists d. split; [ exact Hd | exact Hq ].
Qed.

Lemma delta_features_nth (dataCol : Series) (i : nat) (a b : Q) :
  Forall (fun c => numeric c = true) (s_values dataCol) ->
  nth_error (s_values dataCol) i = Some (Num a) ->
  nth_error (s_values dataCol) (S i) = Some (Num b) ->
  exists d, nth_error (delta_features dataCol) i = Some [Num d; Num b]
            /\ (d == b - a)%Q.
Proof.
  intros Hnum Ha Hb. unfold delta_features, diff. simpl s_values.
  destruct (s_values dataCol) as [ | x c]; [ destruct i; discriminate Ha | ].
  inversion Hnum as [ | ? ? Hx Hc]; subst.
  destruct (diff_from_numeric x c Hx Hc) as [Hds Hlen].
  destruct (delta_matrix_numeric (diff_from x c) c x Hds Hc Hlen) as [E _].
  simpl diff_values. rewrite E. now apply delta_rows_nth.
Qed.

(** C4.  Whatever window size [val] (and rolling column) the loop of
    [getWindowsDelta] is at, it fits the feature matrix [getBaseDelta]
    fits, and that matrix has the two columns the specification names: on a
    series of [n >= 2] defined numbers it has [n - 1] rows of two entries,
    and row [i] holds the first difference [value (i + 1) - value i] and the
    raw value [value (i + 1)], so its first row belongs to the second row of
    the series (a warm-up of one row).  Both functions return a frame over
    [n - 1] rows with the same values column by column; only the names
    differ, and those of the WindowDelta view carry [val]. *)
Theorem C4_windowDelta_is_delta (sk : sklearn) (env : entropy) (dataCol : Series)
  (timeCol : list Z) (xx yy : option string) (val : Z) (columnData : Series) :
  scorer_ok sk env ->
  Forall (fun c => numeric c = true) (s_values dataCol) ->
  (2 <= length (s_values dataCol))%nat ->
  length timeCol = length (s_values dataCol) ->
  (exists rest, effects (windowDelta_view sk env dataCol timeCol xx yy val columnData)
                = Fit (delta_features dataCol) :: rest)
  /\ (exists rest, effects (getBaseDelta sk env dataCol timeCol xx yy)
                   = Fit (delta_features dataCol) :: rest)
  /\ length (delta_features dataCol) = (length (s_values dataCol) - 1)%nat
  /\ Forall (fun row => length row = 2%nat) (delta_features dataCol)
  /\ (forall i a b,
        nth_error (s_values dataCol) i = Some (Num a) ->
        nth_error (s_values dataCol) (S i) = Some (Num b) ->
        exists d, nth_error (delta_features dataCol) i = Some [Num d; Num b]
                  /\ (d == b - a)%Q)
  /\ exists f g,
       result (windowDelta_view sk env dataCol timeCol xx yy val columnData) = Ok f
       /\ result (getBaseDelta sk env dataCol timeCol xx yy) = Ok g
       /\ df_index f = df_index g
       /\ map snd (df_columns f) = map snd (df_columns g)
       /\ names f = windowDelta_names val
       /\ names g = delta_names.
Proof.
  intros Hok Hnum Hn Hts.
  destruct (delta_features_rows dataCol Hnum) as [Hrows [Hdnum _]].
  destruct (fit_exists sk env (delta_features dataCol) Hok) as [clf Hfit];
    [ apply nonempty_length; lia | exact Hdnum | ].
  split; [ | split; [ | split; [ exact Hrows | split; [ | split ] ] ] ].
  - unfold windowDelta_view. cbv zeta.
    rewrite !effects_bind, effects_fit. simpl. eexists. reflexivity.
  - unfold getBaseDelta. cbv zeta.
    rewrite !effects_bind, effects_fit. simpl. eexists. reflexivity.
  - unfold delta_features, delta_matrix. apply Forall_map, Forall_forall. reflexivity.
  - intros i a b Ha Hb. now apply delta_features_nth.
  - exists (mkFrame (RangeIndex (length (s_values dataCol) - 1))
                    (windowDelta_payload sk clf dataCol val)),
           (mkFrame (RangeIndex (length (s_values dataCol) - 1))
                    (delta_payload sk clf dataCol)).
    repeat split.
    + now apply windowDelta_view_runs.
    + now apply getBaseDelta_runs.
Qed.

Lemma C4_witness :
  (exists rest, effects (windowDelta_view threshold_forest 0%Z spike six_days None None 3%Z
                                          (mkSeries [] []))
                = Fit (delta_features spike) :: rest)
  /\ (exists rest, effects (getBaseDelta threshold_forest 0%Z spike six_days None None)
                   = Fit (delta_features spike) :: rest)
  /\ length (delta_features spike) = (length (s_values spike) - 1)%nat
  /\ Forall (fun row => length row = 2%nat) (delta_features spike)
  /\ (forall i a b,
        nth_error (s_values spike) i = Some (Num a) ->
        nth_error (s_values spike) (S i) = Some (Num b) ->
        exists d, nth_error (delta_features spike) i = Some [Num d; Num b]
                  /\ (d == b - a)%Q)
  /\ exists f g,
       result (windowDelta_view threshold_forest 0%Z spike six_days None None 3%Z
                                (mkSeries [] [])) = Ok f
       /\ result (getBaseDelta threshold_forest 0%Z spike six_days None None) = Ok g
       /\ df_index f = df_index g
       /\ map snd (df_columns f) = map snd (df_columns g)
       /\ names f = windowDelta_names 3%Z
       /\ names g = delta_names.
Proof.
  apply (C4_windowDelta_is_delta threshold_forest 0%Z spike six_days None None 3%Z
           (mkSeries [] [])).
  - apply threshold_forest_ok.
  - simpl. repeat constructor.
  - simpl. lia.
  - reflexivity.
Defined.

(** ** Runs that fail *)

Lemma bind_raises_left {A B} (m : M A) (f : A -> M B) :
  (exists e, result m = Raise e) -> exists e, result (bind m f) = Raise e.
Proof. intros [e H]. rewrite result_bind, H. eauto. Qed.

Lemma foldM_raises {A B} (f : A -> B -> M A) (l : list B) (b : B) :
  In b l -> (forall acc, exists e, result (f acc b) = Raise e) ->
  forall acc, exists e, result (foldM f l acc) = Raise e.
Proof.
  intros Hin Hb. induction l as [ | b0 l IH]; intros acc; [ contradiction | ].
  rewrite result_foldM_cons.
  destruct (result (f acc b0)) as [acc' | e] eqn:E; [ | eauto ].
  destruct Hin as [-> | Hin].
  - destruct (Hb acc) as [e He]. congruence.
  - now apply IH.
Qed.

Lemma fit_empty_raises (sk : sklearn) (env : entropy) :
  rejects_empty sk env -> exists e, result (fit sk env []) = Raise e.
Proof. intros H. now apply result_fit_rejected. Qed.

(** A window longer than the series leaves nothing to fit. *)
Lemma window_view_too_long (sk : sklearn) (env : entropy) (dataCol : Series)
  (timeCol : list Z) (xx yy : option string) (w : Z) :
  rejects_empty sk env ->
  (Z.of_nat (length (s_values dataCol)) < w)%Z ->
  exists e, result (window_view sk env dataCol timeCol xx yy w) = Raise e.
Proof.
  intros Hrej Hw. unfold window_view, rolling_mean.
  replace (w <? 0)%Z with false by (symmetry; apply Z.ltb_ge; lia).
  rewrite bind_ret. cbv zeta.
  rewrite rolling_mean_short by lia.
  rewrite dropna_all_na. simpl reshape.
  apply bind_raises_left. now apply fit_empty_raises.
Qed.

(** A series of one value has no first difference to fit. *)
Lemma delta_features_single (dataCol : Series) :
  (length (s_values dataCol) < 2)%nat -> delta_features dataCol = [].
Proof.
  intros Hn. unfold delta_features, diff. simpl s_values.
  destruct (s_values dataCol) as [ | x [ | y c]]; simpl in *; [ reflexivity | | lia ].
  reflexivity.
Qed.

(** C5, as the code has it.  When some requested window is longer than the
    series, or the series has fewer than two values, a feature matrix comes
    out empty, the run stops with an exception and no table is returned. *)
Theorem C5_short_series_fails (sk : sklearn) (env : entropy) (dataCol : Series)
  (timeCol : list Z) (windowList : list Z) (x y : option string) (time : option bool) :
  rejects_empty sk env ->
  (exists w, In w windowList /\ (Z.of_nat (length (s_values dataCol)) < w)%Z)
  \/ (length (s_values dataCol) < 2)%nat ->
  exists e,
    result (getIF sk env (PySeries dataCol) (PyDatetimeIndex timeCol) (PyList windowList)
                  x y time) = Raise e.
Proof.
  intros Hrej Hshort. simpl getIF. apply bind_raises_left. unfold merged.
  apply bind_raises. intros baseDF _.
  destruct Hshort as [[w [Hin Hw]] | Hn].
  - apply bind_raises_left. unfold getWindows.
    apply (foldM_raises _ _ w Hin). intros acc.
    apply bind_raises_left. now apply window_view_too_long.
  - apply bind_raises. intros wres _.
    apply bind_raises_left. unfold getBaseDelta. cbv zeta.
    change (delta_matrix (s_values (diff dataCol)) (s_values dataCol))
      with (delta_features dataCol).
    rewrite (delta_features_single dataCol Hn).
    apply bind_raises_left. now apply fit_empty_raises.
Qed.

Lemma C5_witness :
  exists e,
    result (getIF threshold_forest 0%Z (PySeries spike) (PyDatetimeIndex six_days)
                  (PyList [2; 7]%Z) None None None) = Raise e.
Proof.
  apply (C5_short_series_fails threshold_forest 0%Z spike six_days [2; 7]%Z None None None).
  - apply threshold_forest_rejects_empty.
  - left. exists 7%Z. split; [ simpl; tauto | simpl; lia ].
Defined.

(** C5 as the specification words it fails: a window as long as the series
    is accepted and a table is returned. *)
Lemma C5_counterexample :
  In 2%Z [2]%Z
  /\ (Z.of_nat (length (s_values pair_series)) <= 2)%Z
  /\ exists tbl,
       result (getIF threshold_forest 0%Z (PySeries pair_series) (PyDatetimeIndex two_days)
                     (PyList [2]%Z) None None None) = Ok tbl.
Proof.
  split; [ simpl; tauto | ]. split; [ simpl; lia | ].
  eexists. vm_compute. reflexivity.
Qed.

(** C7, as the code has it.  Before any work [getIF] checks three things:
    that [dataCol] is a pandas Series, [timeCol] a DatetimeIndex and
    [windowList] a list.  When one of them fails the run stops with an
    [AssertionError] and nothing has been fitted or plotted.  When all hold
    the raw view is fitted right away: lengths, numbers and window sizes
    are not looked at beforehand. *)
Theorem C7_only_types_are_asserted (sk : sklearn) (env : entropy)
  (dataCol timeCol windowList : pyobj) (x y : option string) (time : option bool) :
  (is_Series dataCol && is_DatetimeIndex timeCol && is_list windowList = false ->
   effects (getIF sk env dataCol timeCol windowList x y time) = []
   /\ exists msg, result (getIF sk env dataCol timeCol windowList x y time)
                  = Raise (AssertionError msg))
  /\ (is_Series dataCol && is_DatetimeIndex timeCol && is_list windowList = true ->
      exists series rest,
        dataCol = PySeries series
        /\ effects (getIF sk env dataCol timeCol windowList x y time)
           = Fit (raw_features series) :: rest).
Proof.
  split; intros H.
  - destruct dataCol; try (split; [ reflexivity | eexists; reflexivity ]).
    destruct timeCol; try (split; [ reflexivity | eexists; reflexivity ]).
    destruct windowList; try (split; [ reflexivity | eexists; reflexivity ]).
    discriminate H.
  - destruct dataCol as [ | | | | series | | ]; try discriminate H.
    destruct timeCol as [ | | | | | stamps | ]; try discriminate H.
    destruct windowList as [ | | | | | | wl ]; try discriminate H.
    exists series. simpl getIF. unfold merged, getBase, baseFrame. cbv zeta.
    rewrite !effects_bind, effects_fit. simpl. eexists. split; reflexivity.
Qed.

Lemma C7_witness :
  effects (getIF threshold_forest 0%Z (PyList [1]%Z) (PyDatetimeIndex six_days)
                 (PyList [2]%Z) None None None) = []
  /\ exists msg, result (getIF threshold_forest 0%Z (PyList [1]%Z)
                               (PyDatetimeIndex six_days) (PyList [2]%Z) None None None)
                 = Raise (AssertionError msg).
Proof.
  apply (proj1 (C7_only_types_are_asserted threshold_forest 0%Z (PyList [1]%Z)
                  (PyDatetimeIndex six_days) (PyList [2]%Z) None None None)).
  reflexivity.
Defined.

(** C7 as the specification words it fails: a window list holding 0 passes
    the assertions; the raw view is fitted and plotted before the run
    stops, and it stops on the scorer's [ValueError]. *)
Lemma C7_counterexample :
  exists X title xx yy a rest msg,
    effects (getIF threshold_forest 0%Z (PySeries spike) (PyDatetimeIndex six_days)
                   (PyList [0]%Z) None None None)
    = Fit X :: Plot title xx yy a :: rest
    /\ result (getIF threshold_forest 0%Z (PySeries spike) (PyDatetimeIndex six_days)
                     (PyList [0]%Z) None None None)
       = Raise (ValueError msg).
Proof.
  do 7 eexists. split; vm_compute; reflexivity.
Qed.

(** ** Determinism *)

Lemma foldM_ext {A B} (f g : A -> B -> M A) (l : list B) (acc : A) :
  (forall a b, f a b = g a b) -> foldM f l acc = foldM g l acc.
Proof.
  intros H. revert acc. induction l as [ | b l IH]; intros acc; simpl; [ reflexivity | ].
  rewrite H. apply bind_ext. exact IH.
Qed.

Section Seeded.

Context (sk : sklearn) (Hseed : seeded_deterministic sk) (e1 e2 : entropy).

Lemma fit_seeded (X : list (list cell)) : fit sk e1 X = fit sk e2 X.
Proof. unfold fit, random_state. now rewrite (Hseed 42%Z e1 e2 X). Qed.

Lemma getBase_seeded (dataCol : Series) (timeCol : list Z) (xx yy : option string)
  (time : option bool) :
  getBase sk e1 dataCol timeCol xx yy time = getBase sk e2 dataCol timeCol xx yy time.
Proof. unfold getBase, baseFrame. cbv zeta. now rewrite fit_seeded. Qed.

Lemma getBaseDelta_seeded (dataCol : Series) (timeCol : list Z) (xx yy : option string) :
  getBaseDelta sk e1 dataCol timeCol xx yy = getBaseDelta sk e2 dataCol timeCol xx yy.
Proof. unfold getBaseDelta. cbv zeta. now rewrite fit_seeded. Qed.

Lemma window_view_seeded (dataCol : Series) (timeCol : list Z) (xx yy : option string)
  (val : Z) :
  window_view sk e1 dataCol timeCol xx yy val = window_view sk e2 dataCol timeCol xx yy val.
Proof.
  unfold window_view. apply bind_ext. intros rollingCol. cbv zeta.
  now rewrite fit_seeded.
Qed.

Lemma windowDelta_view_seeded (dataCol : Series) (timeCol : list Z) (xx yy : option string)
  (val : Z) (columnData : Series) :
  windowDelta_view sk e1 dataCol timeCol xx yy val columnData
  = windowDelta_view sk e2 dataCol timeCol xx yy val columnData.
Proof. unfold windowDelta_view. cbv zeta. now rewrite fit_seeded. Qed.

Lemma merged_seeded (dataCol : Series) (timeCol : list Z) (windowList : list Z)
  (x y : option string) (time : option bool) :
  merged sk e1 dataCol timeCol windowList x y time
  = merged sk e2 dataCol timeCol windowList x y time.
Proof.
  unfold merged. rewrite getBase_seeded. apply bind_ext. intros baseDF.
  assert (Hw : getWindows sk e1 dataCol timeCol windowList x y
               = getWindows sk e2 dataCol timeCol windowList x y).
  { unfold getWindows. apply foldM_ext. intros acc val. now rewrite window_view_seeded. }
  rewrite Hw. apply bind_ext. intros w.
  rewrite getBaseDelta_seeded. apply bind_ext. intros baseDeltaDF.
  assert (Hwd : getWindowsDelta sk e1 dataCol timeCol windowList (fst w) x y
                = getWindowsDelta sk e2 dataCol timeCol windowList (fst w) x y).
  { unfold getWindowsDelta. apply foldM_ext. intros acc p.
    now rewrite windowDelta_view_seeded. }
  now rewrite Hwd.
Qed.

End Seeded.

(** C8.  Every view builds its forest with [random_state = 42]; when a
    seeded forest does not draw from the ambient random generator, two runs
    of [getIF] on the same series, time stamps, window list and flags give
    the same outcome, cell for cell, and the same fits and plots, whatever
    the state of the generator was at either run. *)
Theorem C8_seeded_runs_agree (sk : sklearn) (e1 e2 : entropy)
  (dataCol timeCol windowList : pyobj) (x y : option string) (time : option bool) :
  seeded_deterministic sk ->
  getIF sk e1 dataCol timeCol windowList x y time
  = getIF sk e2 dataCol timeCol windowList x y time.
Proof.
  intros Hseed. unfold getIF.
  destruct dataCol; try reflexivity.
  destruct timeCol; try reflexivity.
  destruct windowList; try reflexivity.
  now rewrite (merged_seeded sk Hseed e1 e2).
Qed.

Lemma C8_witness :
  getIF threshold_forest 0%Z (PySeries spike) (PyDatetimeIndex six_days) (PyList [2; 3]%Z)
        None None None
  = getIF threshold_forest 7%Z (PySeries spike) (PyDatetimeIndex six_days) (PyList [2; 3]%Z)
          None None None.
Proof.
  apply (C8_seeded_runs_agree threshold_forest 0%Z 7%Z).
  apply threshold_forest_seeded.
Defined.

(** ** What a run that returns tells about the names *)

Lemma names_update (cols : list (string * list cell))
  (g : string * list cell -> list cell) (test : string -> bool) :
  map fst (map (fun c => if test (fst c) then (fst c, g c) else c) cols) = map fst cols.
Proof.
  rewrite map_map. apply map_ext. intros [k v]. simpl. now destruct (test k).
Qed.

Lemma setitem_ok_names (df df' : DataFrame) (name : string) (v : list cell) :
  result (setitem df name v) = Ok df' ->
  names df' = if has_column df name then names df else names df ++ [name].
Proof.
  unfold setitem. destruct (df_index df) as [ | l idx].
  - destruct (has_column df name); simpl; intros [= <-]; unfold names, replace_named; simpl.
    + rewrite (names_update _ (fun _ => v) (String.eqb name)), map_map. reflexivity.
    + rewrite map_app, map_map. reflexivity.
  - destruct (Nat.eqb (length v) (length (l :: idx))); [ | discriminate ].
    destruct (has_column df name); simpl; intros [= <-]; unfold names, replace_named; simpl.
    + apply (names_update _ (fun _ => v) (String.eqb name)).
    + now rewrite map_app.
Qed.

Lemma drop_ok_names (df df' : DataFrame) (name : string) :
  result (drop df name) = Ok df' ->
  names df' = filter (fun k => negb (String.eqb name k)) (names df).
Proof.
  unfold drop. destruct (has_column df name); [ | discriminate ].
  simpl. intros [= <-]. unfold names. simpl.
  induction (df_columns df) as [ | [k v] cols IH]; simpl; [ reflexivity | ].
  destruct (String.eqb name k); simpl; now rewrite IH.
Qed.

Lemma set_columns_ok_names (df df' : DataFrame) (new_names : list string) :
  result (set_columns df new_names) = Ok df' -> names df' = new_names.
Proof.
  unfold set_columns.
  destruct (Nat.eqb_spec (length new_names) (length (df_columns df))) as [E | _];
    [ | discriminate ].
  simpl. intros [= <-]. unfold names. simpl.
  apply map_fst_combine. now rewrite length_map.
Qed.

Lemma rename_nth_names (i : nat) (name : string) (cols cols' : list (string * list cell)) :
  rename_nth i name cols = Some cols' ->
  map fst cols' = firstn i (map fst cols) ++ name :: skipn (S i) (map fst cols).
Proof.
  revert i cols'. induction cols as [ | [k v] cols IH]; intros i cols'; simpl.
  - destruct i; discriminate.
  - destruct i as [ | j]; simpl.
    + intros [= <-]. reflexivity.
    + destruct (rename_nth j name cols) as [r | ] eqn:E; [ | discriminate ].
      simpl. intros [= <-]. simpl. f_equal. now apply IH.
Qed.

Lemma rename_at_ok_names (df df' : DataFrame) (i : nat) (name : string) :
  result (rename_at df i name) = Ok df' ->
  names df' = firstn i (names df) ++ name :: skipn (S i) (names df).
Proof.
  unfold rename_at. destruct (rename_nth i name (df_columns df)) as [cols | ] eqn:E;
    [ | discriminate ].
  simpl. intros [= <-]. now apply rename_nth_names.
Qed.

Lemma lookup_some_in (name : string) (cols : list (string * list cell)) (v : list cell) :
  lookup name cols = Some v -> In name (map fst cols).
Proof.
  induction cols as [ | [k w] cols IH]; simpl; [ discriminate | ].
  destruct (String.eqb_spec name k) as [-> | _]; [ now left | ].
  intros H. right. now apply IH.
Qed.

Lemma getPlot_ok_date (dataCol : Series) (timeCol : list Z) (dfResults : DataFrame)
  (title : string) (xx yy : option string) (u : unit) :
  result (getPlot dataCol timeCol dfResults title xx yy) = Ok u ->
  In "Date"%string (names dfResults).
Proof.
  unfold getPlot, loc_anomalies. rewrite result_bind.
  destruct (lookup "Anomaly" (df_columns dfResults)); [ | discriminate ].
  destruct (lookup "Date" (df_columns dfResults)) as [d | ] eqn:E;
    [ | destruct (lookup "Incidents" (df_columns dfResults)); discriminate ].
  intros _. now apply lookup_some_in in E.
Qed.

Lemma names_concat (frames : list DataFrame) :
  names (concat_axis1 frames) = flat_map names frames.
Proof.
  unfold concat_axis1, names. simpl.
  generalize (fold_left union_index (map df_index frames) []). intros idx.
  induction frames as [ | f frames IH]; simpl; [ reflexivity | ].
  rewrite map_app, IH, map_map. reflexivity.
Qed.

Lemma realign_step_names (df : DataFrame) (i : nat) :
  names (realign_step df i) = names df.
Proof.
  unfold realign_step.
  destruct (nth_error (df_columns df) i) as [[columnName columnData] | ] eqn:E;
    [ | reflexivity ].
  assert (Hhas : has_column df columnName = true).
  { unfold has_column, names. apply existsb_exists. exists columnName. split.
    - apply nth_error_In in E. now apply (in_map fst) in E.
    - apply String.eqb_refl. }
  unfold setitem_aligned. rewrite Hhas. unfold shift_named, replace_named, names. simpl.
  rewrite (names_update _ (fun c => shift (count_na columnData) (snd c))
             (String.eqb columnName)).
  apply (names_update _ (fun _ => reindex (df_index df)
                                    (s_index (dropna (mkSeries (df_index df) columnData)))
                                    (s_values (dropna (mkSeries (df_index df) columnData))))
           (String.eqb columnName)).
Qed.

Lemma realign_names (df : DataFrame) : names (realign df) = names df.
Proof.
  unfold realign. generalize (seq 0 (length (df_columns df))). intros l.
  revert df. induction l as [ | i l IH]; intros df; simpl; [ reflexivity | ].
  now rewrite IH, realign_step_names.
Qed.

Ltac invert_binds H :=
  repeat (apply bind_ok in H;
          let a := fresh "a" in
          let Ha := fresh "Ha" in
          destruct H as [a [Ha H]]; cbv beta in H).

(** [names_after Hprev H]: from the names of the frame before an assignment
    ([Hprev]) and a successful assignment ([H]), the names after it. *)
Ltac names_after Hprev H :=
  apply setitem_ok_names in H; unfold has_column in H; rewrite Hprev in H;
  simpl in H.

Lemma names_empty_frame : names empty_frame = [].
Proof. reflexivity. Qed.

Lemma baseFrame_ok_names (sk : sklearn) (env : entropy) (dataCol : Series)
  (timeCol : list Z) (time : option bool) (df : DataFrame) :
  result (baseFrame sk env dataCol timeCol time) = Ok df ->
  names df = base_names time.
Proof.
  unfold baseFrame. cbv zeta. intros H.
  apply bind_ok in H. destruct H as [clf [_ H]].
  apply bind_ok in H. destruct H as [df1 [H1 H]].
  apply bind_ok in H. destruct H as [df2 [H2 H]].
  apply bind_ok in H. destruct H as [df3 [H3 H]].
  names_after names_empty_frame H1.
  names_after H1 H2.
  names_after H2 H3.
  destruct time as [[ | ] | ].
  - names_after H3 H. exact H.
  - simpl in H. injection H as <-. exact H3.
  - apply bind_ok in H. destruct H as [df4 [H4 H]].
    names_after H3 H4.
    destruct (lookup "Date" (df_columns df4)); [ | discriminate ].
    names_after H4 H. exact H.
Qed.

Lemma getBase_ok_names (sk : sklearn) (env : entropy) (dataCol : Series)
  (timeCol : list Z) (xx yy : option string) (time : option bool) (df : DataFrame) :
  result (getBase sk env dataCol timeCol xx yy time) = Ok df ->
  names df = base_names time /\ time <> Some false.
Proof.
  unfold getBase. intros H.
  apply bind_ok in H. destruct H as [df0 [H0 H]].
  apply bind_ok in H. destruct H as [u [Hplot H]].
  simpl in H. injection H as <-.
  apply baseFrame_ok_names in H0. split; [ exact H0 | ].
  apply getPlot_ok_date in Hplot. rewrite H0 in Hplot.
  intros ->. simpl in Hplot.
  destruct Hplot as [[=] | [[=] | [[=] | []]]].
Qed.

Lemma getBaseDelta_ok_names (sk : sklearn) (env : entropy) (dataCol : Series)
  (timeCol : list Z) (xx yy : option string) (df : DataFrame) :
  result (getBaseDelta sk env dataCol timeCol xx yy) = Ok df ->
  names df = delta_names.
Proof.
  unfold getBaseDelta. cbv zeta. intros H.
  apply bind_ok in H. destruct H as [clf [_ H]].
  apply bind_ok in H. destruct H as [df1 [H1 H]].
  apply bind_ok in H. destruct H as [df2 [H2 H]].
  apply bind_ok in H. destruct H as [df3 [H3 H]].
  apply bind_ok in H. destruct H as [df4 [H4 H]].
  apply bind_ok in H. destruct H as [df5 [H5 H]].
  apply bind_ok in H. destruct H as [u [_ H]].
  apply bind_ok in H. destruct H as [df6 [H6 H]].
  apply bind_ok in H. destruct H as [df7 [H7 H]].
  names_after names_empty_frame H1.
  names_after H1 H2.
  names_after H2 H3.
  names_after H3 H4.
  names_after H4 H5.
  apply drop_ok_names in H6. rewrite H5 in H6. simpl in H6.
  apply drop_ok_names in H7. rewrite H6 in H7. simpl in H7.
  apply rename_at_ok_names in H. rewrite H7 in H. exact H.
Qed.

Lemma window_view_ok_names (sk : sklearn) (env : entropy) (dataCol : Series)
  (timeCol : list Z) (xx yy : option string) (val : Z) (r : Series * DataFrame) :
  result (window_view sk env dataCol timeCol xx yy val) = Ok r ->
  names (snd r) = window_names val.
Proof.
  unfold window_view. intros H. invert_binds H.
  simpl in H. injection H as <-. simpl.
  match goal with
  | Hs : result (set_columns _ _) = Ok _ |- _ => now apply set_columns_ok_names in Hs
  end.
Qed.

Lemma windowDelta_view_ok_names (sk : sklearn) (env : entropy) (dataCol : Series)
  (timeCol : list Z) (xx yy : option string) (val : Z) (columnData : Series)
  (df : DataFrame) :
  result (windowDelta_view sk env dataCol timeCol xx yy val columnData) = Ok df ->
  names df = windowDelta_names val.
Proof.
  unfold windowDelta_view. cbv zeta. intros H.
  invert_binds H.
  now apply set_columns_ok_names in H.
Qed.

Lemma getWindows_ok_names (sk : sklearn) (env : entropy) (dataCol : Series)
  (timeCol : list Z) (xx yy : option string) (windowList : list Z) :
  forall (acc r : list Series * DataFrame),
    result (foldM (fun acc val =>
                     r <- window_view sk env dataCol timeCol xx yy val ;;
                     ret (fst acc ++ [fst r], concat_axis1 [snd acc; snd r]))
                  windowList acc) = Ok r ->
    names (snd r) = names (snd acc) ++ flat_map window_names windowList
    /\ length (fst r) = (length (fst acc) + length windowList)%nat.
Proof.
  induction windowList as [ | w wl IH]; intros acc r H.
  - simpl in H. injection H as <-. rewrite app_nil_r. simpl. split; [ reflexivity | lia ].
  - rewrite result_foldM_cons in H.
    destruct (result (r0 <- window_view sk env dataCol timeCol xx yy w ;;
                      ret (fst acc ++ [fst r0], concat_axis1 [snd acc; snd r0])))
      as [acc' | e] eqn:E; [ | discriminate ].
    apply bind_ok in E. destruct E as [r0 [Hview E]].
    simpl in E. injection E as <-.
    apply window_view_ok_names in Hview.
    destruct (IH _ _ H) as [Hn Hl]. simpl fst in *. simpl snd in *.
    rewrite Hn, names_concat. simpl. rewrite Hview, app_nil_r, <- app_assoc.
    split; [ reflexivity | ]. rewrite Hl, length_app. simpl. lia.
Qed.

Lemma getWindowsDelta_ok_names (sk : sklearn) (env : entropy) (dataCol : Series)
  (timeCol : list Z) (xx yy : option string) :
  forall (windowList : list Z) (rollingDF : list Series) (acc df : DataFrame),
    length rollingDF = length windowList ->
    result (foldM (fun windowDeltaResults p =>
                     dfResults <- windowDelta_view sk env dataCol timeCol xx yy
                                                   (fst p) (snd p) ;;
                     ret (concat_axis1 [windowDeltaResults; dfResults]))
                  (combine windowList rollingDF) acc) = Ok df ->
    names df = names acc ++ flat_map windowDelta_names windowList.
Proof.
  induction windowList as [ | w wl IH]; intros rollingDF acc df Hlen H.
  - simpl in H. injection H as <-. now rewrite app_nil_r.
  - destruct rollingDF as [ | rc rollingDF]; [ discriminate | ].
    simpl combine in H. rewrite result_foldM_cons in H.
    match type of H with
    | match ?m with _ => _ end = _ => destruct m as [acc' | e] eqn:E; [ | discriminate ]
    end.
    apply bind_ok in E. destruct E as [f [Hview E]].
    simpl in E. injection E as <-. simpl in Hview.
    apply windowDelta_view_ok_names in Hview.
    rewrite (IH rollingDF _ df) by (simpl in Hlen; lia || exact H).
    rewrite names_concat. simpl. now rewrite Hview, app_nil_r, <- app_assoc.
Qed.

Lemma views_names (time : option bool) (windowList : list Z) :
  flat_map (view_names time) (views windowList)
  = base_names time ++ delta_names
    ++ flat_map window_names windowList ++ flat_map windowDelta_names windowList.
Proof.
  unfold views. simpl. rewrite flat_map_app, !flat_map_concat_map, !map_map.
  reflexivity.
Qed.

(** Whenever [getIF] returns a table, its columns are the columns of the
    views in merge order and the time flag was not [False]. *)
Lemma getIF_ok_names (sk : sklearn) (env : entropy) (dataCol : Series)
  (timeCol : list Z) (windowList : list Z) (x y : option string) (time : option bool)
  (tbl : DataFrame) :
  result (getIF sk env (PySeries dataCol) (PyDatetimeIndex timeCol) (PyList windowList)
                x y time) = Ok tbl ->
  names tbl = flat_map (view_names time) (views windowList) /\ time <> Some false.
Proof.
  simpl getIF. intros H.
  apply bind_ok in H. destruct H as [iso [Hm H]].
  simpl in H. injection H as <-. rewrite realign_names.
  unfold merged in Hm.
  apply bind_ok in Hm. destruct Hm as [baseDF [Hb Hm]].
  apply bind_ok in Hm. destruct Hm as [w [Hw Hm]].
  apply bind_ok in Hm. destruct Hm as [baseDeltaDF [Hd Hm]].
  apply bind_ok in Hm. destruct Hm as [windowDeltaDF [Hwd Hm]].
  simpl in Hm. injection Hm as <-.
  apply getBase_ok_names in Hb. destruct Hb as [Hb Htime].
  apply getBaseDelta_ok_names in Hd.
  unfold getWindows in Hw. apply getWindows_ok_names in Hw. destruct Hw as [Hw Hlen].
  unfold getWindowsDelta in Hwd.
  apply getWindowsDelta_ok_names in Hwd; [ | simpl in Hlen; exact Hlen ].
  split; [ | exact Htime ].
  rewrite names_concat, views_names. simpl flat_map.
  rewrite Hb, Hd, Hw, Hwd, app_nil_r. reflexivity.
Qed.

Lemma occurrences_app (name : string) (a b : list string) :
  occurrences name (a ++ b) = (occurrences name a + occurrences name b)%nat.
Proof. unfold occurrences. now rewrite filter_app, length_app. Qed.

Lemma occurrences_none (name : string) (l : list string) :
  ~ In name l -> occurrences name l = 0%nat.
Proof.
  intros H. unfold occurrences. rewrite filter_none; [ reflexivity | ].
  intros k Hk. destruct (String.eqb_spec name k) as [-> | _]; [ contradiction | reflexivity ].
Qed.

Lemma plain_not_window (time : option bool) (windowList : list Z) (name : string) :
  (forall rest, name <> String "w" rest) ->
  ~ In name (flat_map window_names windowList ++ flat_map windowDelta_names windowList).
Proof.
  intros Hname Hin.
  assert (H : In name (flat_map (view_names time)
                         (map Window windowList ++ map WindowDelta windowList))).
  { rewrite flat_map_app, !flat_map_concat_map, !map_map.
    rewrite <- !flat_map_concat_map. exact Hin. }
  apply window_views_names_head in H. destruct H as [rest H]. now apply (Hname rest).
Qed.

(** C9.  Whenever [getIF] returns a table, exactly one of its columns is
    called [Date] and exactly one [Incidents]; both come from the raw view,
    and no other view hands a column of either name to the merge: the
    frames of Delta, Window and WindowDelta reach it under their own
    names only. *)
Theorem C9_one_date_one_incidents (sk : sklearn) (env : entropy) (dataCol : Series)
  (timeCol : list Z) (windowList : list Z) (x y : option string) (time : option bool)
  (tbl : DataFrame) :
  result (getIF sk env (PySeries dataCol) (PyDatetimeIndex timeCol) (PyList windowList)
                x y time) = Ok tbl ->
  names tbl = flat_map (view_names time) (views windowList)
  /\ occurrences "Date" (names tbl) = 1%nat
  /\ occurrences "Incidents" (names tbl) = 1%nat
  /\ In "Date"%string (view_names time Raw)
  /\ In "Incidents"%string (view_names time Raw)
  /\ (forall v, In v (views windowList) -> v <> Raw ->
                ~ In "Date"%string (view_names time v)
                /\ ~ In "Incidents"%string (view_names time v))
  /\ (forall v f, In v (views windowList) ->
                  result (view_frame sk env dataCol timeCol x y time v) = Ok f ->
                  names f = view_names time v).
Proof.
  intros H. apply getIF_ok_names in H. destruct H as [Hnames Htime].
  assert (Hbase : base_names time = ["baseScores"; "Anomaly"; "Incidents"; "Date"]%string).
  { destruct time as [[ | ] | ]; [ reflexivity | contradiction | reflexivity ]. }
  assert (Hd : ~ In "Date"%string
                 (flat_map window_names windowList ++ flat_map windowDelta_names windowList)).
  { apply (plain_not_window time). intros rest. discriminate. }
  assert (Hi : ~ In "Incidents"%string
                 (flat_map window_names windowList ++ flat_map windowDelta_names windowList)).
  { apply (plain_not_window time). intros rest. discriminate. }
  split; [ exact Hnames | ].
  rewrite Hnames, views_names, Hbase.
  split; [ | split; [ | split; [ | split; [ | split ] ] ] ].
  - rewrite occurrences_app, occurrences_app, (occurrences_none _ _ Hd). reflexivity.
  - rewrite occurrences_app, occurrences_app, (occurrences_none _ _ Hi). reflexivity.
  - simpl. rewrite Hbase. simpl. tauto.
  - simpl. rewrite Hbase. simpl. tauto.
  - intros v Hv Hraw. unfold views in Hv. simpl in Hv.
    destruct Hv as [<- | [<- | Hv]]; [ contradiction | | ].
    + split; simpl; intros [[=] | [[=] | [[=] | []]]].
    + rewrite in_app_iff, !in_map_iff in Hv.
      destruct Hv as [[w [<- Hw]] | [w [<- Hw]]]; split; intros Hin; simpl in Hin;
        first [ apply window_names_head in Hin | apply windowDelta_names_head in Hin ];
        destruct Hin as [rest [=]].
  - intros v f Hv Hf. destruct v as [ | | w | w]; simpl in Hf |- *.
    + now apply getBase_ok_names in Hf.
    + now apply getBaseDelta_ok_names in Hf.
    + apply bind_ok in Hf. destruct Hf as [r [Hr Hf]]. simpl in Hf. injection Hf as <-.
      now apply window_view_ok_names in Hr.
    + now apply windowDelta_view_ok_names in Hf.
Qed.

Lemma spike_run :
  exists tbl,
    result (getIF threshold_forest 0%Z (PySeries spike) (PyDatetimeIndex six_days)
                  (PyList [2; 3]%Z) None None None) = Ok tbl.
Proof. eexists. vm_compute. reflexivity. Defined.

Lemma C9_witness :
  exists tbl,
    result (getIF threshold_forest 0%Z (PySeries spike) (PyDatetimeIndex six_days)
                  (PyList [2; 3]%Z) None None None) = Ok tbl
    /\ occurrences "Date" (names tbl) = 1%nat
    /\ occurrences "Incidents" (names tbl) = 1%nat.
Proof.
  destruct spike_run as [tbl Hrun]. exists tbl. split; [ exact Hrun | ].
  destruct (C9_one_date_one_incidents threshold_forest 0%Z spike six_days [2; 3]%Z
              None None None tbl Hrun) as [_ [Hd [Hi _]]].
  split; assumption.
Defined.

(** ** The time flag *)

(** C10, as the code has it.  The flag [time] has three behaviours in the
    frame of the raw view: with [None] the column [Date] holds the calendar
    dates of the time stamps, with [True] the time stamps themselves, and
    with any other value no column [Date] is added. *)
Theorem C10_time_flag_three_ways (sk : sklearn) (env : entropy) (dataCol : Series)
  (timeCol : list Z) (time : option bool) :
  scorer_ok sk env ->
  Forall (fun c => numeric c = true) (s_values dataCol) ->
  (1 <= length (s_values dataCol))%nat ->
  length timeCol = length (s_values dataCol) ->
  exists dfResults,
    result (baseFrame sk env dataCol timeCol time) = Ok dfResults
    /\ match time with
       | None => lookup "Date" (df_columns dfResults)
                 = Some (map (fun t => Day (t / ns_per_day)) timeCol)
       | Some true => lookup "Date" (df_columns dfResults) = Some (map Stamp timeCol)
       | Some false => has_column dfResults "Date" = false
                       /\ names dfResults = ["baseScores"; "Anomaly"; "Incidents"]%string
       end.
Proof.
  intros Hok Hnum Hn Hts.
  destruct (fit_exists sk env (raw_features dataCol) Hok) as [clf Hfit].
  { apply nonempty_length. unfold raw_features. rewrite length_reshape. lia. }
  { now apply reshape_numeric. }
  destruct time as [[ | ] | ].
  - eexists. split.
    + apply (baseFrame_runs sk env _ _ _ clf); try assumption. discriminate.
    + reflexivity.
  - unfold baseFrame. cbv zeta.
    change (reshape (s_values dataCol)) with (raw_features dataCol).
    rewrite result_bind, (result_fit sk env _ _ Hfit).
    rewrite (setitem_fresh (length (s_values dataCol)))
      by (rewrite (length_scores sk env _ _ Hok); apply length_reshape).
    rewrite bind_ret.
    rewrite setitem_new;
      [ | exact Hn | rewrite (length_labels sk env _ _ Hok); apply length_reshape
        | reflexivity ].
    rewrite bind_ret.
    rewrite setitem_new; [ | exact Hn | reflexivity | reflexivity ].
    rewrite bind_ret. eexists. split; [ reflexivity | ]. split; reflexivity.
  - eexists. split.
    + apply (baseFrame_runs sk env _ _ _ clf); try assumption. discriminate.
    + simpl. unfold date_column. now rewrite map_map.
Qed.

Lemma C10_witness :
  exists dfResults,
    result (baseFrame threshold_forest 0%Z spike six_days (Some false)) = Ok dfResults
    /\ has_column dfResults "Date" = false
    /\ names dfResults = ["baseScores"; "Anomaly"; "Incidents"]%string.
Proof.
  apply (C10_time_flag_three_ways threshold_forest 0%Z spike six_days (Some false)).
  - apply threshold_forest_ok.
  - simpl. repeat constructor.
  - simpl. lia.
  - reflexivity.
Defined.

(** C10 as the specification words it fails in its last clause: with
    [time = False] no merged table comes back, because the plot of the raw
    view selects the column [Date] that was not added. *)
Lemma C10_counterexample :
  result (getIF threshold_forest 0%Z (PySeries spike) (PyDatetimeIndex six_days)
                (PyList [2; 3]%Z) None None (Some false))
  = Raise (KeyError "Date").
Proof. vm_compute. reflexivity. Qed.

(** ** Names of window views never collide *)

Lemma numeral_uint (d : Decimal.uint) :
  all_chars numeral_char (NilEmpty.string_of_uint d) = true.
Proof. induction d; simpl; auto. Qed.

Lemma numeral_str (val : Z) : all_chars numeral_char (str val) = true.
Proof.
  unfold str. destruct (Z.to_int val) as [d | d]; simpl;
    destruct d; simpl; rewrite ?numeral_uint; reflexivity.
Qed.

Lemma numeral_append_inj (a b s s' : string) :
  all_chars numeral_char a = true -> all_chars numeral_char b = true ->
  starts_plain s -> starts_plain s' ->
  (a ++ s)%string = (b ++ s')%string -> a = b /\ s = s'.
Proof.
  revert b. induction a as [ | c a IH]; intros [ | c' b] Ha Hb Hs Hs' H; simpl in *.
  - now split.
  - subst s. simpl in Hs. apply andb_prop in Hb. destruct Hb as [Hc _]. congruence.
  - subst s'. simpl in Hs'. apply andb_prop in Ha. destruct Ha as [Hc _]. congruence.
  - injection H as -> H.
    apply andb_prop in Ha. destruct Ha as [_ Ha].
    apply andb_prop in Hb. destruct Hb as [_ Hb].
    destruct (IH b Ha Hb Hs Hs' H) as [-> ->]. now split.
Qed.

Lemma str_inj (v w : Z) : str v = str w -> v = w.
Proof.
  unfold str. intros H. apply DecimalZ.to_int_inj.
  assert (Hn : forall z, Z.to_int z <> Decimal.Pos Decimal.Nil
                         /\ Z.to_int z <> Decimal.Neg Decimal.Nil).
  { intros [ | q | q]; simpl; split; try discriminate;
      intros [= E]; now apply Unsigned.to_uint_nonnil in E. }
  pose proof (NilZero.isi (Z.to_int v) (proj1 (Hn v)) (proj2 (Hn v))) as Hv.
  pose proof (NilZero.isi (Z.to_int w) (proj1 (Hn w)) (proj2 (Hn w))) as Hw.
  rewrite H in Hv. congruence.
Qed.

Lemma suffix_plain (s : string) : In s suffixes -> starts_plain s.
Proof. intros [<- | [<- | [<- | []]]]; reflexivity. Qed.

Lemma append_inj_l (p a b : string) : (p ++ a)%string = (p ++ b)%string -> a = b.
Proof. induction p as [ | c p IH]; simpl; [ auto | ]. intros [= H]. now apply IH. Qed.

Lemma tagged_inj (prefix : string) (v w : Z) (s s' : string) :
  In s suffixes -> In s' suffixes ->
  (prefix ++ str v ++ s)%string = (prefix ++ str w ++ s')%string -> v = w /\ s = s'.
Proof.
  intros Hs Hs' H. apply append_inj_l in H.
  apply numeral_append_inj in H; auto using numeral_str, suffix_plain.
  destruct H as [H ->]. split; [ now apply str_inj | reflexivity ].
Qed.

Lemma NoDup_flat_map {A B} (f : A -> list B) (l : list A) :
  NoDup l -> (forall x, In x l -> NoDup (f x)) ->
  (forall x y b, In x l -> In y l -> In b (f x) -> In b (f y) -> x = y) ->
  NoDup (flat_map f l).
Proof.
  induction 1 as [ | x l Hx Hl IH]; intros Hf Hdis; simpl; [ constructor | ].
  apply NoDup_app.
  - apply Hf. now left.
  - apply IH.
    + intros y Hy. apply Hf. now right.
    + intros y z b Hy Hz. apply Hdis; now right.
  - intros b Hb Hin. apply in_flat_map in Hin. destruct Hin as [y [Hy Hby]].
    assert (x = y) by (apply (Hdis x y b); auto; [ now left | now right ]).
    subst. contradiction.
Qed.

Lemma NoDup_tagged (prefix : string) (windowList : list Z) :
  NoDup windowList -> NoDup (flat_map (tagged_names prefix) windowList).
Proof.
  intros Hnd. apply NoDup_flat_map; [ exact Hnd | | ].
  - intros w _. unfold tagged_names.
    assert (H : forall l, NoDup l -> incl l suffixes ->
                          NoDup (map (fun suffix => (prefix ++ str w ++ suffix)%string) l)).
    { induction 1 as [ | s l Hs Hl IH]; intros Hincl; simpl; constructor.
      - intros Hin. apply in_map_iff in Hin. destruct Hin as [s' [E Hs']].
        apply tagged_inj in E; [ | apply Hincl; now right | apply Hincl; now left ].
        destruct E as [_ ->]. contradiction.
      - apply IH. intros s' Hs'. apply Hincl. now right. }
    apply H; [ | apply incl_refl ].
    unfold suffixes. repeat constructor; simpl; intuition discriminate.
  - intros v w b _ _ Hv Hw. unfold tagged_names in *.
    apply in_map_iff in Hv. destruct Hv as [s [<- Hs]].
    apply in_map_iff in Hw. destruct Hw as [s' [E Hs']].
    now apply tagged_inj in E.
Qed.

Lemma tagged_disjoint (v w : Z) (name : string) :
  In name (tagged_names "window" v) -> ~ In name (tagged_names "windowDelta" w).
Proof.
  unfold tagged_names. intros Hv Hw.
  apply in_map_iff in Hv. destruct Hv as [s [<- Hs]].
  apply in_map_iff in Hw. destruct Hw as [s' [E Hs']].
  change ("windowDelta" ++ str w ++ s')%string
    with ("window" ++ (EmptyString ++ ("Delta" ++ str w ++ s')))%string in E.
  apply append_inj_l in E. symmetry in E.
  apply (numeral_append_inj (str v) EmptyString s ("Delta" ++ str w ++ s')) in E;
    [ | apply numeral_str | reflexivity | now apply suffix_plain | reflexivity ].
  destruct E as [_ E]. subst s.
  destruct Hs as [E | [E | [E | []]]]; discriminate E.
Qed.

(** With pairwise distinct window sizes no two columns of the merge share a
    name. *)
Lemma NoDup_view_names (time : option bool) (windowList : list Z) :
  time <> Some false -> NoDup windowList ->
  NoDup (flat_map (view_names time) (views windowList)).
Proof.
  intros Htime Hnd. rewrite views_names.
  assert (Hbase : base_names time = ["baseScores"; "Anomaly"; "Incidents"; "Date"]%string).
  { destruct time as [[ | ] | ]; [ reflexivity | contradiction | reflexivity ]. }
  rewrite Hbase.
  change (flat_map window_names windowList)
    with (flat_map (tagged_names "window") windowList).
  change (flat_map windowDelta_names windowList)
    with (flat_map (tagged_names "windowDelta") windowList).
  assert (Hw : NoDup (flat_map (tagged_names "window") windowList
                      ++ flat_map (tagged_names "windowDelta") windowList)).
  { apply NoDup_app; try now apply NoDup_tagged.
    intros name H1 H2. apply in_flat_map in H1. destruct H1 as [v [_ H1]].
    apply in_flat_map in H2. destruct H2 as [w [_ H2]].
    now apply (tagged_disjoint v w name). }
  assert (Hplain : forall name, (forall rest, name <> String "w" rest) ->
                     ~ In name (flat_map (tagged_names "window") windowList
                                ++ flat_map (tagged_names "windowDelta") windowList)).
  { intros name. apply (plain_not_window time). }
  apply NoDup_app; [ | apply NoDup_app; [ | exact Hw | ] | ].
  - repeat constructor; simpl; intuition discriminate.
  - unfold delta_names. repeat constructor; simpl; intuition discriminate.
  - intros name Hin. apply Hplain. intros rest ->.
    simpl in Hin. intuition discriminate.
  - intros name Hin Hin'. apply in_app_iff in Hin'. destruct Hin' as [Hin' | Hin'].
    + simpl in Hin, Hin'. intuition congruence.
    + revert Hin'. apply Hplain. intros rest ->. simpl in Hin. intuition discriminate.
Qed.

(** ** Alignment *)

Lemma top_pad_warmup (rows k : nat) (c : list cell) :
  length c = (rows - k)%nat -> (k <= rows)%nat -> top_pad rows c = repeat NaN k ++ c.
Proof. intros Hc Hk. unfold top_pad. do 2 f_equal. lia. Qed.

Lemma warmup_le (dataCol : Series) (timeCol : list Z) (windowList : list Z)
  (time : option bool) (v : ViewKind) :
  valid_input dataCol timeCol windowList time -> In v (views windowList) ->
  (warmup v <= length (s_values dataCol))%nat.
Proof.
  intros [_ [_ [Hn [_ [Hwl _]]]]] Hv. unfold views in Hv. simpl in Hv.
  rewrite in_app_iff, !in_map_iff in Hv.
  destruct Hv as [<- | [<- | [[w [<- Hw]] | [w [<- Hw]]]]]; simpl; try lia.
  rewrite Forall_forall in Hwl. specialize (Hwl _ Hw). lia.
Qed.

(** When the requested window sizes are pairwise distinct, the table
    [getIF] returns holds, for every view, the columns of the frame the
    view's function returned, each moved down by the warm-up of that view:
    the first [warmup v] entries undefined, entry [warmup v + i] the row
    [i] of the view. *)
Lemma getIF_aligned (sk : sklearn) (env : entropy) (dataCol : Series)
  (timeCol : list Z) (windowList : list Z) (x y : option string) (time : option bool) :
  scorer_ok sk env ->
  valid_input dataCol timeCol windowList time ->
  NoDup windowList ->
  exists tbl,
    result (getIF sk env (PySeries dataCol) (PyDatetimeIndex timeCol) (PyList windowList)
                  x y time) = Ok tbl
    /\ df_columns tbl
       = flat_map (fun v => map (fun p => (fst p, repeat NaN (warmup v) ++ snd p))
                                (view_columns sk env dataCol timeCol time v))
                  (views windowList)
    /\ forall v, In v (views windowList) ->
         result (view_frame sk env dataCol timeCol x y time v)
         = Ok (mkFrame (RangeIndex (length (s_values dataCol) - warmup v))
                       (view_columns sk env dataCol timeCol time v)).
Proof.
  intros Hok Hvalid Hnd.
  destruct (all_view_columns_shape sk env dataCol timeCol windowList time Hok Hvalid)
    as [Hnames Hshape].
  exists (realign (ragged (length (s_values dataCol))
                          (flat_map (view_columns sk env dataCol timeCol time)
                                    (views windowList)))).
  split; [ now apply getIF_runs | ]. split.
  - rewrite realign_ragged.
    + cbn [df_columns].
      assert (H : forall vs, incl vs (views windowList) ->
                map (fun p => (fst p, top_pad (length (s_values dataCol)) (snd p)))
                    (flat_map (view_columns sk env dataCol timeCol time) vs)
                = flat_map (fun v => map (fun p => (fst p, repeat NaN (warmup v) ++ snd p))
                                         (view_columns sk env dataCol timeCol time v)) vs).
      { induction vs as [ | v vs IH]; intros Hincl; simpl; [ reflexivity | ].
        rewrite map_app, IH by (intros u Hu; apply Hincl; now right). f_equal.
        assert (Hv : In v (views windowList)) by (apply Hincl; now left).
        destruct (view_columns_shape sk env dataCol timeCol windowList time v Hok Hvalid Hv)
          as [_ Hs].
        apply map_ext_in. intros p Hp. rewrite Forall_forall in Hs.
        destruct (Hs _ Hp) as [Hl _]. f_equal.
        apply top_pad_warmup; [ exact Hl | ].
        now apply (warmup_le dataCol timeCol windowList time). }
      apply H, incl_refl.
    + rewrite Hnames. apply NoDup_view_names; [ | exact Hnd ].
      now destruct Hvalid as [_ [_ [_ [_ [_ Htime]]]]].
    + eapply Forall_impl; [ | exact Hshape ]. intros p [Hl Hna]. now split.
  - intros v Hv. now apply (view_frame_runs sk env dataCol timeCol windowList).
Qed.

(** C1 at a window size requested twice.  With [windowList = [2, 2]] the
    two groups of [window2...] columns bear the same names; the loop at
    lines 308-312 assigns by name, so each group is shifted at both of its
    turns.  The view [Window 2] has warm-up 1 and five scored rows, yet in
    the result its column starts with two undefined entries, entry 1 does
    not hold row 0, and the last row is lost. *)
Theorem C1_repeated_window_is_shifted_twice :
  exists tbl f v c,
    result (getIF threshold_forest 0%Z (PySeries spike) (PyDatetimeIndex six_days)
                  (PyList [2; 2]%Z) None None None) = Ok tbl
    /\ result (view_frame threshold_forest 0%Z spike six_days None None None (Window 2))
       = Ok f
    /\ lookup "window2Incidents" (df_columns f) = Some v
    /\ lookup "window2Incidents" (df_columns tbl) = Some c
    /\ warmup (Window 2) = 1%nat
    /\ v = map (fun z => Num (inject_Z z)) [10; 10; 30; 30; 10]%Z
    /\ c = [NaN; NaN] ++ map (fun z => Num (inject_Z z)) [10; 10; 30; 30]%Z
    /\ c <> repeat NaN (warmup (Window 2)) ++ v.
Proof.
  do 4 eexists.
  split; [ vm_compute; reflexivity | ].
  split; [ vm_compute; reflexivity | ].
  split; [ vm_compute; reflexivity | ].
  split; [ vm_compute; reflexivity | ].
  split; [ reflexivity | ].
  split; [ vm_compute; reflexivity | ].
  split; [ vm_compute; reflexivity | ].
  vm_compute. discriminate.
Qed.

(** * Further properties of the script *)

(** ** When no table can come back *)

Lemma lookup_none (name : string) (cols : list (string * list cell)) :
  ~ In name (map fst cols) -> lookup name cols = None.
Proof.
  induction cols as [ | [k v] cols IH]; simpl; [ reflexivity | ].
  intros H. destruct (String.eqb_spec name k) as [-> | _].
  - exfalso. apply H. now left.
  - apply IH. intros Hin. apply H. now right.
Qed.

Lemma lookup_in (name : string) (cols : list (string * list cell)) :
  In name (map fst cols) -> exists v, lookup name cols = Some v.
Proof.
  induction cols as [ | [k v] cols IH]; simpl; [ contradiction | ].
  intros H. destruct (String.eqb_spec name k) as [-> | Hne]; [ eauto | ].
  apply IH. destruct H as [H | H]; [ congruence | exact H ].
Qed.

Lemma getPlot_ok_lengths (dataCol : Series) (timeCol : list Z) (dfResults : DataFrame)
  (title : string) (xx yy : option string) (u : unit) :
  result (getPlot dataCol timeCol dfResults title xx yy) = Ok u ->
  length timeCol = length (s_values dataCol).
Proof.
  unfold getPlot. rewrite result_bind.
  destruct (result (loc_anomalies dfResults)); [ | discriminate ].
  destruct (Nat.eqb_spec (length timeCol) (length (s_values dataCol))) as [E | _];
    [ intros _; exact E | discriminate ].
Qed.

(** X1.  With [time = False] the run never returns a table, whatever the
    other arguments and the scorer: the raw view gets no [Date] column and
    its plot asks for one.  When the frame of the raw view could be built,
    the exception is the [KeyError] for [Date]. *)
Theorem X1_time_false_never_returns (sk : sklearn) (env : entropy)
  (dataCol timeCol windowList : pyobj) (x y : option string) :
  (exists e, result (getIF sk env dataCol timeCol windowList x y (Some false)) = Raise e)
  /\ (forall series stamps wl dfResults,
        dataCol = PySeries series -> timeCol = PyDatetimeIndex stamps ->
        windowList = PyList wl ->
        result (baseFrame sk env series stamps (Some false)) = Ok dfResults ->
        result (getIF sk env dataCol timeCol windowList x y (Some false))
        = Raise (KeyError "Date")).
Proof.
  split.
  - destruct (result (getIF sk env dataCol timeCol windowList x y (Some false)))
      as [tbl | e] eqn:E; [ exfalso | eauto ].
    destruct dataCol; try discriminate E.
    destruct timeCol; try discriminate E.
    destruct windowList; try discriminate E.
    apply getIF_ok_names in E. destruct E as [_ E]. now apply E.
  - intros series stamps wl dfResults -> -> -> Hbase. simpl getIF.
    unfold merged, getBase. rewrite !result_bind, Hbase.
    apply baseFrame_ok_names in Hbase. simpl in Hbase.
    unfold getPlot, loc_anomalies. rewrite !result_bind.
    destruct (lookup_in "Anomaly" (df_columns dfResults)) as [a ->].
    { fold (names dfResults). rewrite Hbase. simpl. tauto. }
    destruct (lookup_in "Incidents" (df_columns dfResults)) as [i ->].
    { fold (names dfResults). rewrite Hbase. simpl. tauto. }
    rewrite (lookup_none "Date").
    { reflexivity. }
    fold (names dfResults). rewrite Hbase. simpl. intuition discriminate.
Qed.

(** X2.  A table comes back only when there are as many time stamps as
    values: the lengths are never compared beforehand, but with a [timeCol]
    of another length the run stops before the merge. *)
Theorem X2_table_needs_matching_lengths (sk : sklearn) (env : entropy)
  (dataCol : Series) (timeCol : list Z) (windowList : list Z) (x y : option string)
  (time : option bool) (tbl : DataFrame) :
  result (getIF sk env (PySeries dataCol) (PyDatetimeIndex timeCol) (PyList windowList)
                x y time) = Ok tbl ->
  length timeCol = length (s_values dataCol).
Proof.
  simpl getIF. intros H.
  apply bind_ok in H. destruct H as [iso [Hm _]].
  unfold merged in Hm. apply bind_ok in Hm. destruct Hm as [baseDF [Hb _]].
  unfold getBase in Hb. apply bind_ok in Hb. destruct Hb as [df [_ Hb]].
  apply bind_ok in Hb. destruct Hb as [u [Hplot _]].
  now apply getPlot_ok_lengths in Hplot.
Qed.

Lemma X2_witness :
  exists tbl,
    result (getIF threshold_forest 0%Z (PySeries spike) (PyDatetimeIndex six_days)
                  (PyList [2; 3]%Z) None None None) = Ok tbl
    /\ length six_days = length (s_values spike).
Proof.
  destruct spike_run as [tbl Hrun]. exists tbl. split; [ exact Hrun | ].
  exact (X2_table_needs_matching_lengths threshold_forest 0%Z spike six_days [2; 3]%Z
           None None None tbl Hrun).
Defined.

Lemma rolling_mean_zero (c : list cell) :
  rolling_mean_values 0 c = repeat NaN (length c).
Proof. unfold rolling_mean_values. apply map_const_seq. reflexivity. Qed.

Lemma window_view_nonpositive (sk : sklearn) (env : entropy) (dataCol : Series)
  (timeCol : list Z) (xx yy : option string) (w : Z) :
  rejects_empty sk env -> (w <= 0)%Z ->
  exists e, result (window_view sk env dataCol timeCol xx yy w) = Raise e.
Proof.
  intros Hrej Hw. unfold window_view, rolling_mean.
  destruct (Z.ltb_spec w 0) as [Hneg | Hzero].
  - apply bind_raises_left. eexists. reflexivity.
  - assert (w = 0%Z) by lia. subst w.
    rewrite bind_ret. cbv zeta. simpl Z.to_nat.
    rewrite rolling_mean_zero, dropna_all_na. simpl reshape.
    apply bind_raises_left. now apply fit_empty_raises.
Qed.

(** X3.  A window size that is zero or negative is not refused up front,
    but it makes the run fail: [rolling] rejects a negative window, and a
    window of zero rows leaves no row to fit.  No table is returned. *)
Theorem X3_nonpositive_window_fails (sk : sklearn) (env : entropy) (dataCol : Series)
  (timeCol : list Z) (windowList : list Z) (x y : option string) (time : option bool)
  (w : Z) :
  rejects_empty sk env ->
  In w windowList -> (w <= 0)%Z ->
  exists e,
    result (getIF sk env (PySeries dataCol) (PyDatetimeIndex timeCol) (PyList windowList)
                  x y time) = Raise e.
Proof.
  intros Hrej Hin Hw. simpl getIF. apply bind_raises_left. unfold merged.
  apply bind_raises. intros baseDF _.
  apply bind_raises_left. unfold getWindows.
  apply (foldM_raises _ _ w Hin). intros acc.
  apply bind_raises_left. now apply window_view_nonpositive.
Qed.

Lemma X3_witness :
  exists e,
    result (getIF threshold_forest 0%Z (PySeries spike) (PyDatetimeIndex six_days)
                  (PyList [2; -1]%Z) None None None) = Raise e.
Proof.
  apply (X3_nonpositive_window_fails threshold_forest 0%Z spike six_days [2; -1]%Z
           None None None (-1)%Z).
  - apply threshold_forest_rejects_empty.
  - simpl. tauto.
  - lia.
Defined.

(** ** The plot *)

Lemma nth_error_combine {A B} (l : list A) (l' : list B) (k : nat) (x : A) (y : B) :
  nth_error (combine l l') k = Some (x, y)
  <-> nth_error l k = Some x /\ nth_error l' k = Some y.
Proof.
  revert l' k. induction l as [ | a l IH]; intros [ | b l'] k; simpl.
  - destruct k; split; [ discriminate | intros [H _]; discriminate H
                       | discriminate | intros [H _]; discriminate H ].
  - destruct k; split; [ discriminate | intros [H _]; discriminate H
                       | discriminate | intros [H _]; discriminate H ].
  - destruct k; split; try discriminate; intros [_ H]; discriminate H.
  - destruct k as [ | k]; simpl.
    + split; [ intros [= -> ->]; now split | intros [[= ->] [= ->]]; reflexivity ].
    + apply IH.
Qed.

Lemma filter_combine_length {A B} (p : A -> bool) (l : list A) (l' : list B) :
  length l = length l' ->
  length (filter (fun r => p (fst r)) (combine l l')) = length (filter p l).
Proof.
  revert l'. induction l as [ | a l IH]; intros [ | b l'] H; simpl in *;
    try discriminate; [ reflexivity | ].
  injection H as H. destruct (p a); simpl; now rewrite IH.
Qed.

Lemma is_anomaly_spec (f : cell) :
  is_anomaly f = true <-> exists q, f = Num q /\ (q == inject_Z (-1))%Q.
Proof.
  destruct f as [ | q | t | t]; simpl; split;
    try discriminate; try (intros [q' [E _]]; discriminate E).
  - intros H. exists q. split; [ reflexivity | now apply Qeq_bool_iff ].
  - intros [q' [[= <-] H]]. now apply Qeq_bool_iff.
Qed.

(** X5.  A call of [getPlot] that returns has shown one figure, under the
    title and the axis labels it was given, and the points scattered on it
    are the rows of the frame whose label is -1, and only those: a pair
    (date, value) is among the points exactly when some row of the frame
    holds that date and that value and the label -1 in its columns [Date],
    [Incidents] and [Anomaly]; on columns of one length there are as many
    points as labels -1. *)
Theorem X5_scatter_is_the_flagged_rows (dataCol : Series) (timeCol : list Z)
  (dfResults : DataFrame) (title : string) (xx yy : option string) (u : unit) :
  result (getPlot dataCol timeCol dfResults title xx yy) = Ok u ->
  exists flags dates incidents a,
    lookup "Anomaly" (df_columns dfResults) = Some flags
    /\ lookup "Date" (df_columns dfResults) = Some dates
    /\ lookup "Incidents" (df_columns dfResults) = Some incidents
    /\ effects (getPlot dataCol timeCol dfResults title xx yy) = [Plot title xx yy a]
    /\ (forall d v,
          In (d, v) a
          <-> exists k q, nth_error flags k = Some (Num q) /\ (q == inject_Z (-1))%Q
                          /\ nth_error dates k = Some d
                          /\ nth_error incidents k = Some v)
    /\ (length flags = length dates -> length dates = length incidents ->
        length a = length (filter is_anomaly flags)).
Proof.
  unfold getPlot, loc_anomalies. rewrite result_bind, effects_bind.
  destruct (lookup "Anomaly" (df_columns dfResults)) as [flags | ]; [ | discriminate ].
  destruct (lookup "Date" (df_columns dfResults)) as [dates | ],
           (lookup "Incidents" (df_columns dfResults)) as [incidents | ];
    try discriminate.
  cbn [result ret snd effects fst app].
  destruct (Nat.eqb (length timeCol) (length (s_values dataCol))); [ | discriminate ].
  intros _. exists flags, dates, incidents. eexists.
  split; [ reflexivity | split; [ reflexivity | split; [ reflexivity | ] ] ].
  split; [ reflexivity | split ].
  - intros d v. split.
    + intros Hin. apply in_map_iff in Hin. destruct Hin as [[f [d' v']] [E Hin]].
      simpl in E. injection E as -> ->.
      apply filter_In in Hin. destruct Hin as [Hin Hf]. simpl in Hf.
      apply is_anomaly_spec in Hf. destruct Hf as [q [-> Hq]].
      apply In_nth_error in Hin. destruct Hin as [k Hk].
      apply nth_error_combine in Hk. destruct Hk as [Hk1 Hk2].
      apply nth_error_combine in Hk2. destruct Hk2 as [Hk2 Hk3].
      exists k, q. repeat split; assumption.
    + intros [k [q [Hk1 [Hq [Hk2 Hk3]]]]].
      apply in_map_iff. exists (Num q, (d, v)). split; [ reflexivity | ].
      apply filter_In. split.
      * apply (nth_error_In _ k). apply nth_error_combine. split; [ exact Hk1 | ].
        apply nth_error_combine. now split.
      * apply is_anomaly_spec. exists q. now split.
  - intros H1 H2. rewrite length_map.
    apply (filter_combine_length is_anomaly).
    rewrite length_combine, <- H2, Nat.min_id. exact H1.
Qed.

Lemma X5_witness :
  exists flags dates incidents a,
    lookup "Anomaly"
      (df_columns (mkFrame (RangeIndex 2)
                     [("Anomaly"%string, [Num (inject_Z (-1)); Num 1]);
                      ("Date"%string, [Day 0; Day 1]);
                      ("Incidents"%string, [Num 50; Num 10])])) = Some flags
    /\ lookup "Date"
         (df_columns (mkFrame (RangeIndex 2)
                        [("Anomaly"%string, [Num (inject_Z (-1)); Num 1]);
                         ("Date"%string, [Day 0; Day 1]);
                         ("Incidents"%string, [Num 50; Num 10])])) = Some dates
    /\ lookup "Incidents"
         (df_columns (mkFrame (RangeIndex 2)
                        [("Anomaly"%string, [Num (inject_Z (-1)); Num 1]);
                         ("Date"%string, [Day 0; Day 1]);
                         ("Incidents"%string, [Num 50; Num 10])])) = Some incidents
    /\ effects (getPlot (mkSeries (map Time two_days) [Num 50; Num 10]) two_days
                        (mkFrame (RangeIndex 2)
                                 [("Anomaly"%string, [Num (inject_Z (-1)); Num 1]);
                                  ("Date"%string, [Day 0; Day 1]);
                                  ("Incidents"%string, [Num 50; Num 10])])
                        "Raw Input" None None)
       = [Plot "Raw Input" None None a]
    /\ (forall d v,
          In (d, v) a
          <-> exists k q, nth_error flags k = Some (Num q) /\ (q == inject_Z (-1))%Q
                          /\ nth_error dates k = Some d
                          /\ nth_error incidents k = Some v)
    /\ (length flags = length dates -> length dates = length incidents ->
        length a = length (filter is_anomaly flags)).
Proof.
  apply (X5_scatter_is_the_flagged_rows
           (mkSeries (map Time two_days) [Num 50; Num 10]) two_days
           (mkFrame (RangeIndex 2)
                    [("Anomaly"%string, [Num (inject_Z (-1)); Num 1]);
                     ("Date"%string, [Day 0; Day 1]);
                     ("Incidents"%string, [Num 50; Num 10])])
           "Raw Input" None None tt).
  reflexivity.
Defined.

(** ** The rolling columns in [getWindowsDelta] *)

(** X6.  [getWindowsDelta] uses the frame of rolling means only to count
    its columns: two such frames with the same number of columns give the
    same fits, the same plots and the same outcome, whatever they hold; and
    windows beyond the number of rolling columns are skipped by the [zip]. *)
Theorem X6_rolling_columns_only_counted (sk : sklearn) (env : entropy) (dataCol : Series)
  (timeCol : list Z) (windowList : list Z) (rollingDF rollingDF' : list Series)
  (xx yy : option string) :
  length rollingDF = length rollingDF' ->
  getWindowsDelta sk env dataCol timeCol windowList rollingDF xx yy
  = getWindowsDelta sk env dataCol timeCol windowList rollingDF' xx yy
  /\ getWindowsDelta sk env dataCol timeCol windowList rollingDF xx yy
     = getWindowsDelta sk env dataCol timeCol (firstn (length rollingDF) windowList)
                       rollingDF xx yy.
Proof.
  intros Hlen. unfold getWindowsDelta. generalize empty_frame. split.
  - revert rollingDF rollingDF' Hlen d.
    induction windowList as [ | w wl IH]; intros r1 r2 Hlen acc; [ reflexivity | ].
    destruct r1 as [ | c1 r1], r2 as [ | c2 r2]; try discriminate Hlen; [ reflexivity | ].
    simpl. apply bind_ext. intros acc'. apply IH. simpl in Hlen. lia.
  - clear rollingDF' Hlen. revert rollingDF d.
    induction windowList as [ | w wl IH]; intros r acc.
    + now rewrite firstn_nil.
    + destruct r as [ | c r]; [ reflexivity | ].
      simpl. apply bind_ext. intros acc'. apply IH.
Qed.

Lemma X6_witness :
  getWindowsDelta threshold_forest 0%Z spike six_days [2; 3]%Z
                  [mkSeries [] []; mkSeries [] []] None None
  = getWindowsDelta threshold_forest 0%Z spike six_days [2; 3]%Z
                    [spike; spike] None None
  /\ getWindowsDelta threshold_forest 0%Z spike six_days [2; 3]%Z
                     [mkSeries [] []; mkSeries [] []] None None
     = getWindowsDelta threshold_forest 0%Z spike six_days
                       (firstn (length [mkSeries [] []; mkSeries [] []]) [2; 3]%Z)
                       [mkSeries [] []; mkSeries [] []] None None.
Proof.
  apply (X6_rolling_columns_only_counted threshold_forest 0%Z spike six_days [2; 3]%Z
           [mkSeries [] []; mkSeries [] []] [spike; spike] None None).
  reflexivity.
Defined.

(** ** The realignment loop on any frame *)

Lemma realign_step_index (df : DataFrame) (i : nat) :
  df_index (realign_step df i) = df_index df.
Proof.
  unfold realign_step.
  destruct (nth_error (df_columns df) i) as [[columnName columnData] | ]; [ | reflexivity ].
  unfold setitem_aligned, shift_named.
  now destruct (has_column df columnName).
Qed.

(** X7.  Whatever the frame (also with columns that share a name), the
    loop at lines 308-312 keeps the row index, the names of the columns in
    their order, hence their number, and the height of every column: it
    moves entries inside columns and nothing else. *)
Theorem X7_realignment_keeps_the_shape (isoResults : DataFrame) :
  Forall (fun c => length (snd c) = length (df_index isoResults)) (df_columns isoResults) ->
  df_index (realign isoResults) = df_index isoResults
  /\ names (realign isoResults) = names isoResults
  /\ length (df_columns (realign isoResults)) = length (df_columns isoResults)
  /\ Forall (fun c => length (snd c) = length (df_index isoResults))
            (df_columns (realign isoResults)).
Proof.
  intros H. destruct (realign_shape isoResults H) as [Hi [Hn Hl]].
  repeat split; try assumption.
  unfold names in Hn. apply (f_equal (@length string)) in Hn.
  now rewrite !length_map in Hn.
Qed.

Lemma X7_witness :
  df_index (realign (mkFrame (RangeIndex 2)
                             [("a"%string, [Num 1; NaN]); ("a"%string, [Num 2; NaN])]))
  = df_index (mkFrame (RangeIndex 2)
                      [("a"%string, [Num 1; NaN]); ("a"%string, [Num 2; NaN])])
  /\ names (realign (mkFrame (RangeIndex 2)
                             [("a"%string, [Num 1; NaN]); ("a"%string, [Num 2; NaN])]))
     = names (mkFrame (RangeIndex 2)
                      [("a"%string, [Num 1; NaN]); ("a"%string, [Num 2; NaN])])
  /\ length (df_columns (realign (mkFrame (RangeIndex 2)
                                    [("a"%string, [Num 1; NaN]);
                                     ("a"%string, [Num 2; NaN])])))
     = length (df_columns (mkFrame (RangeIndex 2)
                                   [("a"%string, [Num 1; NaN]);
                                    ("a"%string, [Num 2; NaN])]))
  /\ Forall (fun c => length (snd c)
                      = length (df_index (mkFrame (RangeIndex 2)
                                            [("a"%string, [Num 1; NaN]);
                                             ("a"%string, [Num 2; NaN])])))
            (df_columns (realign (mkFrame (RangeIndex 2)
                                    [("a"%string, [Num 1; NaN]);
                                     ("a"%string, [Num 2; NaN])]))).
Proof.
  apply (X7_realignment_keeps_the_shape
           (mkFrame (RangeIndex 2)
                    [("a"%string, [Num 1; NaN]); ("a"%string, [Num 2; NaN])])).
  repeat constructor.
Defined.

(** A turn of the loop at another position leaves a column alone whose
    name no other column bears. *)
Lemma realign_step_elsewhere (df : DataFrame) (before after : list (string * list cell))
  (name : string) (c : list cell) (i : nat) :
  df_columns df = before ++ (name, c) :: after ->
  ~ In name (map fst before) -> ~ In name (map fst after) ->
  i <> length before ->
  exists before' after',
    df_columns (realign_step df i) = before' ++ (name, c) :: after'
    /\ length before' = length before
    /\ map fst before' = map fst before
    /\ map fst after' = map fst after.
Proof.
  intros Hcols Hb Ha Hi. unfold realign_step.
  destruct (nth_error (df_columns df) i) as [[columnName columnData] | ] eqn:E;
    [ | exists before, after; repeat split; assumption ].
  assert (Hne : columnName <> name).
  { rewrite Hcols in E. intros ->.
    destruct (Nat.lt_ge_cases i (length before)) as [Hlt | Hge].
    - rewrite nth_error_app1 in E by exact Hlt.
      apply nth_error_In in E. apply (in_map fst) in E. now apply Hb.
    - rewrite nth_error_app2 in E by exact Hge.
      destruct (i - length before)%nat as [ | k] eqn:Ek; [ lia | ].
      simpl in E. apply nth_error_In in E. apply (in_map fst) in E. now apply Ha. }
  assert (Hhas : has_column df columnName = true).
  { unfold has_column, names. apply existsb_exists. exists columnName. split.
    - apply nth_error_In in E. now apply (in_map fst) in E.
    - apply String.eqb_refl. }
  unfold setitem_aligned. rewrite Hhas. unfold shift_named, replace_named.
  simpl df_columns. rewrite Hcols, !map_app. simpl map.
  destruct (String.eqb_spec columnName name) as [Heq | _]; [ contradiction | ].
  simpl fst. destruct (String.eqb_spec columnName name) as [Heq | _]; [ contradiction | ].
  eexists. eexists. split; [ reflexivity | ].
  repeat split.
  - now rewrite !length_map.
  - rewrite (names_update _ (fun c0 => shift (count_na columnData) (snd c0))
               (String.eqb columnName)).
    apply (names_update _ (fun _ => reindex (df_index df)
                                      (s_index (dropna (mkSeries (df_index df) columnData)))
                                      (s_values (dropna (mkSeries (df_index df) columnData))))
             (String.eqb columnName)).
  - rewrite (names_update _ (fun c0 => shift (count_na columnData) (snd c0))
               (String.eqb columnName)).
    apply (names_update _ (fun _ => reindex (df_index df)
                                      (s_index (dropna (mkSeries (df_index df) columnData)))
                                      (s_values (dropna (mkSeries (df_index df) columnData))))
             (String.eqb columnName)).
Qed.

Lemma realign_fold_elsewhere (l : list nat) :
  forall (df : DataFrame) (before after : list (string * list cell))
         (name : string) (c : list cell),
    df_columns df = before ++ (name, c) :: after ->
    ~ In name (map fst before) -> ~ In name (map fst after) ->
    ~ In (length before) l ->
    exists before' after',
      df_columns (fold_left realign_step l df) = before' ++ (name, c) :: after'
      /\ length before' = length before
      /\ map fst before' = map fst before
      /\ map fst after' = map fst after
      /\ df_index (fold_left realign_step l df) = df_index df.
Proof.
  induction l as [ | i l IH]; intros df before after name c Hcols Hb Ha Hl; simpl.
  - exists before, after. repeat split; assumption.
  - destruct (realign_step_elsewhere df before after name c i Hcols Hb Ha)
      as [b1 [a1 [H1 [H2 [H3 H4]]]]].
    { intros ->. apply Hl. now left. }
    destruct (IH (realign_step df i) b1 a1 name c H1) as [b2 [a2 [K1 [K2 [K3 [K4 K5]]]]]].
    + now rewrite H3.
    + now rewrite H4.
    + rewrite H2. intros Hin. apply Hl. now right.
    + exists b2, a2. repeat split; try congruence.
      now rewrite K5, realign_step_index.
Qed.

Lemma lookup_middle (before after : list (string * list cell)) (name : string)
  (c : list cell) :
  ~ In name (map fst before) -> lookup name (before ++ (name, c) :: after) = Some c.
Proof.
  induction before as [ | [k v] before IH]; intros H; simpl.
  - now rewrite String.eqb_refl.
  - destruct (String.eqb_spec name k) as [-> | _].
    + exfalso. apply H. now left.
    + apply IH. intros Hin. apply H. now right.
Qed.

(** A column that alone bears its name, defined entries first and [NaN]
    below, comes out of the loop with the [NaN] on top, whatever the other
    columns of the frame are. *)
Lemma realign_unique (rows : nat) (before after : list (string * list cell))
  (name : string) (v : list cell) :
  Forall (fun x => notna x = true) v -> (length v <= rows)%nat ->
  ~ In name (map fst before) -> ~ In name (map fst after) ->
  lookup name
    (df_columns (realign (mkFrame (RangeIndex rows)
                                  (before ++ (name, bottom_pad rows v) :: after))))
  = Some (top_pad rows v).
Proof.
  intros Hv Hle Hb Ha. unfold realign. simpl df_columns.
  rewrite length_app. simpl length.
  replace (length before + S (length after))%nat
    with (length before + (1 + length after))%nat by lia.
  rewrite seq_app, fold_left_app. simpl seq. simpl fold_left at 1.
  destruct (realign_fold_elsewhere (seq 0 (length before))
              (mkFrame (RangeIndex rows) (before ++ (name, bottom_pad rows v) :: after))
              before after name (bottom_pad rows v) eq_refl Hb Ha)
    as [b1 [a1 [H1 [H2 [H3 [H4 H5]]]]]].
  { rewrite in_seq. lia. }
  destruct (fold_left realign_step (seq 0 (length before))
              (mkFrame (RangeIndex rows) (before ++ (name, bottom_pad rows v) :: after)))
    as [idx1 cols1].
  simpl in H1, H5. subst idx1 cols1.
  rewrite <- H2.
  rewrite realign_step_ragged; try assumption; try (now rewrite ?H3, ?H4).
  destruct (realign_fold_elsewhere (seq (S (length b1)) (length after))
              (mkFrame (RangeIndex rows) (b1 ++ (name, top_pad rows v) :: a1))
              b1 a1 name (top_pad rows v) eq_refl) as [b2 [a2 [K1 [K2 [K3 _]]]]].
  - now rewrite H3.
  - now rewrite H4.
  - rewrite in_seq. lia.
  - rewrite K1. apply lookup_middle. now rewrite K3, H3.
Qed.

(** ** Alignment of the views *)

Lemma occurrences_zero (name : string) (l : list string) :
  occurrences name l = 0%nat -> ~ In name l.
Proof.
  unfold occurrences. intros H Hin.
  assert (Hf : In name (filter (String.eqb name) l)).
  { apply filter_In. split; [ exact Hin | apply String.eqb_refl ]. }
  destruct (filter (String.eqb name) l); [ contradiction | discriminate ].
Qed.

Lemma occurrences_cons (name k : string) (l : list string) :
  occurrences name (k :: l)
  = ((if String.eqb name k then 1 else 0) + occurrences name l)%nat.
Proof. unfold occurrences. simpl. now destruct (String.eqb name k). Qed.

Lemma split_unique (name : string) (c : list cell) (cols : list (string * list cell)) :
  In (name, c) cols -> occurrences name (map fst cols) = 1%nat ->
  exists before after,
    cols = before ++ (name, c) :: after
    /\ ~ In name (map fst before) /\ ~ In name (map fst after).
Proof.
  intros Hin Hocc. apply in_split in Hin. destruct Hin as [before [after ->]].
  exists before, after. split; [ reflexivity | ].
  rewrite map_app, occurrences_app in Hocc. simpl map in Hocc.
  rewrite occurrences_cons, String.eqb_refl in Hocc.
  split; apply occurrences_zero; lia.
Qed.

(** On a valid input, a view whose column names are borne by no other
    column of the merge is aligned: each column of its frame is found in
    the result under its name, moved down by the warm-up of the view. *)
Lemma view_aligned_when_unique (sk : sklearn) (env : entropy) (dataCol : Series)
  (timeCol : list Z) (windowList : list Z) (time : option bool) (v : ViewKind)
  (name : string) (c : list cell) :
  scorer_ok sk env ->
  valid_input dataCol timeCol windowList time ->
  In v (views windowList) ->
  In (name, c) (view_columns sk env dataCol timeCol time v) ->
  occurrences name (flat_map (view_names time) (views windowList)) = 1%nat ->
  lookup name
    (df_columns (realign (ragged (length (s_values dataCol))
                                 (flat_map (view_columns sk env dataCol timeCol time)
                                           (views windowList)))))
  = Some (repeat NaN (warmup v) ++ c).
Proof.
  intros Hok Hvalid Hv Hin Hocc.
  destruct (all_view_columns_shape sk env dataCol timeCol windowList time Hok Hvalid)
    as [Hnames _].
  destruct (view_columns_shape sk env dataCol timeCol windowList time v Hok Hvalid Hv)
    as [_ Hshape].
  rewrite Forall_forall in Hshape. destruct (Hshape _ Hin) as [Hlen Hna]. simpl in Hlen, Hna.
  assert (HinP : In (name, c) (flat_map (view_columns sk env dataCol timeCol time)
                                        (views windowList))).
  { apply in_flat_map. exists v. now split. }
  rewrite <- Hnames in Hocc.
  destruct (split_unique name c _ HinP Hocc) as [before [after [E [Hb Ha]]]].
  rewrite E. unfold ragged. rewrite map_app. simpl map.
  rewrite realign_unique.
  - f_equal. apply top_pad_warmup; [ exact Hlen | ].
    now apply (warmup_le dataCol timeCol windowList time).
  - exact Hna.
  - lia.
  - now rewrite map_map.
  - now rewrite map_map.
Qed.

Lemma NoDup_occurrences (name : string) (l : list string) :
  NoDup l -> In name l -> occurrences name l = 1%nat.
Proof.
  induction 1 as [ | k l Hk Hl IH]; intros Hin; [ contradiction | ].
  rewrite occurrences_cons. destruct (String.eqb_spec name k) as [-> | Hne].
  - now rewrite (occurrences_none _ _ Hk).
  - destruct Hin as [-> | Hin]; [ contradiction | ]. now rewrite IH.
Qed.

(** X8.  With pairwise distinct window sizes the table [getIF] returns on
    a valid input is, column by column and in merge order, the frames the
    views' functions returned, each column moved down by the warm-up of
    its view: [warmup v] undefined entries, then the rows of the view in
    their order. *)
Theorem X8_distinct_windows_align (sk : sklearn) (env : entropy) (dataCol : Series)
  (timeCol : list Z) (windowList : list Z) (x y : option string) (time : option bool) :
  scorer_ok sk env ->
  valid_input dataCol timeCol windowList time ->
  NoDup windowList ->
  exists tbl frames,
    result (getIF sk env (PySeries dataCol) (PyDatetimeIndex timeCol) (PyList windowList)
                  x y time) = Ok tbl
    /\ Forall2 (fun v f => result (view_frame sk env dataCol timeCol x y time v) = Ok f
                           /\ length (df_index f)
                              = (length (s_values dataCol) - warmup v)%nat)
               (views windowList) frames
    /\ df_columns tbl
       = concat (map (fun vf => map (fun p => (fst p, repeat NaN (warmup (fst vf)) ++ snd p))
                                    (df_columns (snd vf)))
                     (combine (views windowList) frames)).
Proof.
  intros Hok Hvalid Hnd.
  destruct (getIF_aligned sk env dataCol timeCol windowList x y time Hok Hvalid Hnd)
    as [tbl [Hrun [Hcols Hframes]]].
  exists tbl.
  exists (map (fun v => mkFrame (RangeIndex (length (s_values dataCol) - warmup v))
                                (view_columns sk env dataCol timeCol time v))
              (views windowList)).
  split; [ exact Hrun | ]. split.
  - assert (H : forall vs, incl vs (views windowList) ->
              Forall2 (fun v f => result (view_frame sk env dataCol timeCol x y time v) = Ok f
                                  /\ length (df_index f)
                                     = (length (s_values dataCol) - warmup v)%nat)
                      vs
                      (map (fun v => mkFrame (RangeIndex (length (s_values dataCol)
                                                          - warmup v))
                                             (view_columns sk env dataCol timeCol time v))
                           vs)).
    { induction vs as [ | v vs IH]; intros Hincl; simpl; constructor.
      - split; [ apply Hframes, Hincl; now left | ]. simpl. apply length_RangeIndex.
      - apply IH. intros u Hu. apply Hincl. now right. }
    apply H, incl_refl.
  - rewrite Hcols. generalize (views windowList). intros vs.
    induction vs as [ | v vs IH]; simpl; [ reflexivity | ]. now rewrite IH.
Qed.

Lemma X8_witness :
  exists tbl frames,
    result (getIF threshold_forest 0%Z (PySeries spike) (PyDatetimeIndex six_days)
                  (PyList [2; 3]%Z) None None None) = Ok tbl
    /\ Forall2 (fun v f => result (view_frame threshold_forest 0%Z spike six_days None None
                                              None v) = Ok f
                           /\ length (df_index f) = (length (s_values spike) - warmup v)%nat)
               (views [2; 3]%Z) frames
    /\ df_columns tbl
       = concat (map (fun vf => map (fun p => (fst p, repeat NaN (warmup (fst vf)) ++ snd p))
                                    (df_columns (snd vf)))
                     (combine (views [2; 3]%Z) frames)).
Proof.
  apply (X8_distinct_windows_align threshold_forest 0%Z spike six_days [2; 3]%Z
           None None None).
  - apply threshold_forest_ok.
  - apply spike_valid. discriminate.
  - repeat constructor; simpl; intuition discriminate.
Defined.

Lemma occurrences_tagged (prefix : string) (w : Z) (s : string) (windowList : list Z) :
  In s suffixes ->
  occurrences (prefix ++ str w ++ s) (flat_map (tagged_names prefix) windowList)
  = count_occ Z.eq_dec windowList w.
Proof.
  intros Hs. induction windowList as [ | w' wl IH]; [ reflexivity | ].
  cbn [flat_map]. rewrite occurrences_app, IH. simpl count_occ.
  destruct (Z.eq_dec w' w) as [-> | Hne].
  - rewrite NoDup_occurrences; [ reflexivity | | ].
    + pose proof (NoDup_tagged prefix [w]) as H. cbn [flat_map] in H.
      rewrite app_nil_r in H.
      apply H. repeat constructor. intros [].
    + unfold tagged_names. apply in_map_iff. now exists s.
  - rewrite occurrences_none; [ reflexivity | ].
    unfold tagged_names. intros Hin. apply in_map_iff in Hin.
    destruct Hin as [s' [E Hs']]. apply tagged_inj in E; [ | exact Hs' | exact Hs ].
    destruct E as [E _]. contradiction.
Qed.

Lemma occurrences_other_tag (v : Z) (s : string) (windowList : list Z) :
  In s suffixes ->
  occurrences ("window" ++ str v ++ s) (flat_map (tagged_names "windowDelta") windowList)
  = 0%nat
  /\ occurrences ("windowDelta" ++ str v ++ s)
                 (flat_map (tagged_names "window") windowList) = 0%nat.
Proof.
  intros Hs. split; apply occurrences_none; intros Hin;
    apply in_flat_map in Hin; destruct Hin as [w [_ Hin]].
  - apply (tagged_disjoint v w ("window" ++ str v ++ s)%string);
      [ unfold tagged_names; apply in_map_iff; now exists s | exact Hin ].
  - apply (tagged_disjoint w v ("windowDelta" ++ str v ++ s)%string);
      [ exact Hin | unfold tagged_names; apply in_map_iff; now exists s ].
Qed.

(** The names of Raw and Delta occur once among the names of a run; the
    names of a window view occur as often as its size is requested. *)
Lemma view_names_occur_once (time : option bool) (windowList : list Z) (v : ViewKind)
  (name : string) :
  time <> Some false ->
  match v with
  | Window w | WindowDelta w => count_occ Z.eq_dec windowList w = 1%nat
  | _ => True
  end ->
  In name (view_names time v) ->
  occurrences name (flat_map (view_names time) (views windowList)) = 1%nat.
Proof.
  intros Htime Hv Hin. rewrite views_names.
  assert (Hbase : base_names time = ["baseScores"; "Anomaly"; "Incidents"; "Date"]%string).
  { destruct time as [[ | ] | ]; [ reflexivity | contradiction | reflexivity ]. }
  rewrite Hbase.
  change (flat_map window_names windowList)
    with (flat_map (tagged_names "window") windowList).
  change (flat_map windowDelta_names windowList)
    with (flat_map (tagged_names "windowDelta") windowList).
  rewrite !occurrences_app.
  destruct v as [ | | w | w]; simpl view_names in Hin.
  - rewrite Hbase in Hin.
    rewrite (occurrences_none name (flat_map (tagged_names "window") windowList)),
      (occurrences_none name (flat_map (tagged_names "windowDelta") windowList)).
    + simpl in Hin. destruct Hin as [<- | [<- | [<- | [<- | []]]]]; reflexivity.
    + intros H. apply in_flat_map in H. destruct H as [u [_ H]].
      apply windowDelta_names_head in H. destruct H as [rest ->].
      simpl in Hin. intuition discriminate.
    + intros H. apply in_flat_map in H. destruct H as [u [_ H]].
      apply window_names_head in H. destruct H as [rest ->].
      simpl in Hin. intuition discriminate.
  - rewrite (occurrences_none name (flat_map (tagged_names "window") windowList)),
      (occurrences_none name (flat_map (tagged_names "windowDelta") windowList)).
    + simpl in Hin. destruct Hin as [<- | [<- | [<- | []]]]; reflexivity.
    + intros H. apply in_flat_map in H. destruct H as [u [_ H]].
      apply windowDelta_names_head in H. destruct H as [rest ->].
      simpl in Hin. intuition discriminate.
    + intros H. apply in_flat_map in H. destruct H as [u [_ H]].
      apply window_names_head in H. destruct H as [rest ->].
      simpl in Hin. intuition discriminate.
  - change (window_names w) with (tagged_names "window" w) in Hin.
    unfold tagged_names in Hin. apply in_map_iff in Hin. destruct Hin as [s [<- Hs]].
    rewrite (occurrences_tagged "window" w s windowList Hs), Hv.
    rewrite (proj1 (occurrences_other_tag w s windowList Hs)).
    rewrite !occurrences_none; [ reflexivity | | ];
      simpl; intuition discriminate.
  - change (windowDelta_names w) with (tagged_names "windowDelta" w) in Hin.
    unfold tagged_names in Hin. apply in_map_iff in Hin. destruct Hin as [s [<- Hs]].
    rewrite (occurrences_tagged "windowDelta" w s windowList Hs), Hv.
    rewrite (proj2 (occurrences_other_tag w s windowList Hs)).
    rewrite !occurrences_none; [ reflexivity | | ];
      simpl; intuition discriminate.
Qed.

(** X9.  Repeating a window size harms only the views of that size.  On
    every valid input, also one with repeated sizes, the raw view, the
    Delta view and the Window and WindowDelta views of each size requested
    once are aligned in the result: every column of the frame the view's
    function returned is found under its name, moved down by the warm-up
    of the view (for the raw view: unchanged). *)
Theorem X9_unrepeated_views_align (sk : sklearn) (env : entropy) (dataCol : Series)
  (timeCol : list Z) (windowList : list Z) (x y : option string) (time : option bool)
  (v : ViewKind) :
  scorer_ok sk env ->
  valid_input dataCol timeCol windowList time ->
  In v (views windowList) ->
  match v with
  | Window w | WindowDelta w => count_occ Z.eq_dec windowList w = 1%nat
  | _ => True
  end ->
  exists tbl f,
    result (getIF sk env (PySeries dataCol) (PyDatetimeIndex timeCol) (PyList windowList)
                  x y time) = Ok tbl
    /\ result (view_frame sk env dataCol timeCol x y time v) = Ok f
    /\ forall name c, In (name, c) (df_columns f) ->
         lookup name (df_columns tbl) = Some (repeat NaN (warmup v) ++ c).
Proof.
  intros Hok Hvalid Hv Honce.
  eexists. eexists.
  split; [ now apply getIF_runs | ].
  split; [ now apply (view_frame_runs sk env dataCol timeCol windowList) | ].
  intros name c Hin. simpl df_columns in Hin.
  apply (view_aligned_when_unique sk env dataCol timeCol windowList time v);
    try assumption.
  apply (view_names_occur_once time windowList v); try assumption.
  - now destruct Hvalid as [_ [_ [_ [_ [_ Htime]]]]].
  - destruct (view_columns_shape sk env dataCol timeCol windowList time v Hok Hvalid Hv)
      as [<- _].
    now apply (in_map fst) in Hin.
Qed.

Lemma spike_valid_repeated : valid_input spike six_days [2; 2; 3]%Z None.
Proof.
  unfold valid_input. simpl.
  repeat split; try lia; try discriminate; repeat constructor; simpl; lia.
Qed.

Lemma X9_witness :
  exists tbl f,
    result (getIF threshold_forest 0%Z (PySeries spike) (PyDatetimeIndex six_days)
                  (PyList [2; 2; 3]%Z) None None None) = Ok tbl
    /\ result (view_frame threshold_forest 0%Z spike six_days None None None (Window 3))
       = Ok f
    /\ forall name c, In (name, c) (df_columns f) ->
         lookup name (df_columns tbl) = Some (repeat NaN (warmup (Window 3)) ++ c).
Proof.
  apply (X9_unrepeated_views_align threshold_forest 0%Z spike six_days [2; 2; 3]%Z
           None None None (Window 3)).
  - apply threshold_forest_ok.
  - apply spike_valid_repeated.
  - simpl. tauto.
  - reflexivity.
Defined.

(** ** What a run that returns has fitted and shown *)

Lemma effects_bind_ok {A B} (m : M A) (f : A -> M B) (b : B) :
  result (bind m f) = Ok b ->
  exists a, result m = Ok a /\ result (f a) = Ok b
            /\ effects (bind m f) = effects m ++ effects (f a).
Proof.
  intros H. rewrite effects_bind. rewrite result_bind in H.
  destruct (result m) as [a | e]; [ eauto | discriminate ].
Qed.

Lemma effects_setitem (df : DataFrame) (name : string) (v : list cell) :
  effects (setitem df name v) = [].
Proof.
  unfold setitem. destruct (df_index df); [ now destruct (has_column df name) | ].
  destruct (Nat.eqb _ _); [ now destruct (has_column df name) | reflexivity ].
Qed.

Lemma effects_drop (df : DataFrame) (name : string) : effects (drop df name) = [].
Proof. unfold drop. now destruct (has_column df name). Qed.

Lemma effects_set_columns (df : DataFrame) (new_names : list string) :
  effects (set_columns df new_names) = [].
Proof. unfold set_columns. now destruct (Nat.eqb _ _). Qed.

Lemma effects_rename_at (df : DataFrame) (i : nat) (name : string) :
  effects (rename_at df i name) = [].
Proof. unfold rename_at. now destruct (rename_nth i name (df_columns df)). Qed.

Lemma effects_rolling_mean (val : Z) (s : Series) : effects (rolling_mean val s) = [].
Proof. unfold rolling_mean. now destruct (val <? 0)%Z. Qed.

Lemma getPlot_ok_effects (dataCol : Series) (timeCol : list Z) (dfResults : DataFrame)
  (title : string) (xx yy : option string) (u : unit) :
  result (getPlot dataCol timeCol dfResults title xx yy) = Ok u ->
  map erase (effects (getPlot dataCol timeCol dfResults title xx yy))
  = [Plot title xx yy []].
Proof.
  unfold getPlot. intros H. destruct (effects_bind_ok _ _ _ H) as [a [Ha [H' ->]]].
  unfold loc_anomalies in *.
  destruct (lookup "Anomaly" (df_columns dfResults)); [ | discriminate ].
  destruct (lookup "Date" (df_columns dfResults)),
           (lookup "Incidents" (df_columns dfResults)); try discriminate.
  destruct (Nat.eqb _ _); [ reflexivity | discriminate ].
Qed.

Ltac trace_binds H :=
  repeat (let a := fresh "a" in
          let Ha := fresh "Ha" in
          let H' := fresh "H" in
          let E := fresh "E" in
          destruct (effects_bind_ok _ _ _ H) as [a [Ha [H' E]]];
          rewrite E; clear E H; rename H' into H; cbv beta in H |- *).

Ltac silence :=
  rewrite ?effects_setitem, ?effects_drop, ?effects_set_columns, ?effects_rename_at,
    ?effects_rolling_mean, ?effects_fit.

Lemma getBase_ok_trace (sk : sklearn) (env : entropy) (dataCol : Series)
  (timeCol : list Z) (xx yy : option string) (time : option bool) (df : DataFrame) :
  result (getBase sk env dataCol timeCol xx yy time) = Ok df ->
  map erase (effects (getBase sk env dataCol timeCol xx yy time))
  = [Fit (raw_features dataCol); Plot "Raw Input" xx yy []].
Proof.
  unfold getBase. intros H.
  destruct (effects_bind_ok _ _ _ H) as [df0 [Hbase [H' ->]]]. clear H.
  destruct (effects_bind_ok _ _ _ H') as [u [Hplot [_ ->]]].
  rewrite !map_app, (getPlot_ok_effects _ _ _ _ _ _ _ Hplot). simpl.
  unfold baseFrame in *. cbv zeta in *.
  trace_binds Hbase. silence.
  destruct time as [[ | ] | ].
  - silence. reflexivity.
  - reflexivity.
  - trace_binds Hbase. silence.
    destruct (lookup "Date" (df_columns a3)); [ | discriminate ].
    silence. reflexivity.
Qed.

Lemma getBaseDelta_ok_trace (sk : sklearn) (env : entropy) (dataCol : Series)
  (timeCol : list Z) (xx yy : option string) (df : DataFrame) :
  result (getBaseDelta sk env dataCol timeCol xx yy) = Ok df ->
  map erase (effects (getBaseDelta sk env dataCol timeCol xx yy))
  = [Fit (delta_features dataCol); Plot "Raw Input and Delta" xx yy []].
Proof.
  unfold getBaseDelta. cbv zeta. intros H. trace_binds H. silence.
  rewrite !map_app.
  match goal with
  | Hp : result (getPlot _ _ _ _ _ _) = Ok _ |- _ =>
      rewrite (getPlot_ok_effects _ _ _ _ _ _ _ Hp)
  end.
  reflexivity.
Qed.

Lemma window_view_ok_trace (sk : sklearn) (env : entropy) (dataCol : Series)
  (timeCol : list Z) (xx yy : option string) (val : Z) (r : Series * DataFrame) :
  result (window_view sk env dataCol timeCol xx yy val) = Ok r ->
  map erase (effects (window_view sk env dataCol timeCol xx yy val))
  = [Fit (view_features dataCol (Window val)); Plot (view_title (Window val)) xx yy []].
Proof.
  unfold window_view. intros H.
  destruct (effects_bind_ok _ _ _ H) as [rc [Hrc [H' ->]]]. clear H.
  assert (rc = rolling_column val dataCol) as ->.
  { unfold rolling_mean in Hrc. destruct (val <? 0)%Z; [ discriminate | ].
    simpl in Hrc. now injection Hrc as <-. }
  cbv zeta in *. trace_binds H'. silence.
  rewrite !map_app.
  match goal with
  | Hp : result (getPlot _ _ _ _ _ _) = Ok _ |- _ =>
      rewrite (getPlot_ok_effects _ _ _ _ _ _ _ Hp)
  end.
  reflexivity.
Qed.

Lemma windowDelta_view_ok_trace (sk : sklearn) (env : entropy) (dataCol : Series)
  (timeCol : list Z) (xx yy : option string) (val : Z) (columnData : Series)
  (df : DataFrame) :
  result (windowDelta_view sk env dataCol timeCol xx yy val columnData) = Ok df ->
  map erase (effects (windowDelta_view sk env dataCol timeCol xx yy val columnData))
  = [Fit (view_features dataCol (WindowDelta val));
     Plot (view_title (WindowDelta val)) xx yy []].
Proof.
  unfold windowDelta_view. cbv zeta. intros H. trace_binds H. silence.
  rewrite !map_app.
  match goal with
  | Hp : result (getPlot _ _ _ _ _ _) = Ok _ |- _ =>
      rewrite (getPlot_ok_effects _ _ _ _ _ _ _ Hp)
  end.
  reflexivity.
Qed.

Lemma foldM_ok_trace {A B} (f : A -> B -> M A) (E : B -> list event) (l : list B) :
  (forall acc acc' b, result (f acc b) = Ok acc' -> map erase (effects (f acc b)) = E b) ->
  forall acc r, result (foldM f l acc) = Ok r ->
                map erase (effects (foldM f l acc)) = flat_map E l.
Proof.
  intros Hf. induction l as [ | b l IH]; intros acc r H; [ reflexivity | ].
  simpl foldM in *. destruct (effects_bind_ok _ _ _ H) as [acc' [Hstep [Hrest ->]]].
  rewrite map_app, (Hf _ _ _ Hstep), (IH _ _ Hrest). reflexivity.
Qed.

Lemma flat_map_of_map {A B C} (g : B -> list C) (h : A -> B) (l : list A) :
  flat_map g (map h l) = flat_map (fun a => g (h a)) l.
Proof. induction l as [ | a l IH]; simpl; [ reflexivity | now rewrite IH ]. Qed.

Lemma flat_map_combine_fst {A B C} (g : A -> list C) (l1 : list A) :
  forall l2 : list B,
    length l2 = length l1 ->
    flat_map (fun p => g (fst p)) (combine l1 l2) = flat_map g l1.
Proof.
  induction l1 as [ | a l1 IH]; intros [ | b l2] Hlen; simpl in *;
    try reflexivity; try discriminate.
  injection Hlen as Hlen. now rewrite IH.
Qed.

Lemma getWindows_ok_trace (sk : sklearn) (env : entropy) (dataCol : Series)
  (timeCol : list Z) (windowList : list Z) (xx yy : option string)
  (r : list Series * DataFrame) :
  result (getWindows sk env dataCol timeCol windowList xx yy) = Ok r ->
  map erase (effects (getWindows sk env dataCol timeCol windowList xx yy))
  = flat_map (fun val => [Fit (view_features dataCol (Window val));
                          Plot (view_title (Window val)) xx yy []]) windowList.
Proof.
  unfold getWindows. apply foldM_ok_trace. intros acc acc' val H.
  destruct (effects_bind_ok _ _ _ H) as [rv [Hrv [_ ->]]].
  rewrite map_app, (window_view_ok_trace _ _ _ _ _ _ _ _ Hrv). reflexivity.
Qed.

Lemma getWindowsDelta_ok_trace (sk : sklearn) (env : entropy) (dataCol : Series)
  (timeCol : list Z) (windowList : list Z) (rollingDF : list Series)
  (xx yy : option string) (df : DataFrame) :
  length rollingDF = length windowList ->
  result (getWindowsDelta sk env dataCol timeCol windowList rollingDF xx yy) = Ok df ->
  map erase (effects (getWindowsDelta sk env dataCol timeCol windowList rollingDF xx yy))
  = flat_map (fun val => [Fit (view_features dataCol (WindowDelta val));
                          Plot (view_title (WindowDelta val)) xx yy []]) windowList.
Proof.
  intros Hlen H. unfold getWindowsDelta in *.
  rewrite <- (flat_map_combine_fst
                (fun val => [Fit (view_features dataCol (WindowDelta val));
                             Plot (view_title (WindowDelta val)) xx yy []])
                windowList rollingDF Hlen).
  revert H. apply foldM_ok_trace. intros acc acc' p H.
  destruct (effects_bind_ok _ _ _ H) as [rv [Hrv [_ ->]]].
  rewrite map_app, (windowDelta_view_ok_trace _ _ _ _ _ _ _ _ _ Hrv). reflexivity.
Qed.

(** X10.  A call of [getIF] that returns has fitted one forest and shown one
    figure per view, in the order the script runs them: the raw view, the
    window views in the order of [windowList], the delta view, then the
    window-delta views in the order of [windowList].  Each forest is fitted on
    the matrix of its view and each figure carries the title of its view and
    the axis labels [x] and [y] of the call; nothing else is fitted or
    shown.  The points scattered on a figure are left out of the comparison
    ([erase]). *)
Theorem X10_returned_run_fits_and_shows_each_view (sk : sklearn) (env : entropy)
  (dataCol : Series) (timeCol : list Z) (windowList : list Z) (x y : option string)
  (time : option bool) (tbl : DataFrame) :
  result (getIF sk env (PySeries dataCol) (PyDatetimeIndex timeCol) (PyList windowList)
                x y time) = Ok tbl ->
  map erase (effects (getIF sk env (PySeries dataCol) (PyDatetimeIndex timeCol)
                            (PyList windowList) x y time))
  = flat_map (fun v => [Fit (view_features dataCol v); Plot (view_title v) x y []])
             (execution_order windowList).
Proof.
  cbn [getIF]. intros H.
  destruct (effects_bind_ok _ _ _ H) as [iso [Hm [_ ->]]]. clear H.
  rewrite map_app. cbn [effects ret fst map]. rewrite app_nil_r.
  unfold merged in *. cbv zeta in *.
  destruct (effects_bind_ok _ _ _ Hm) as [baseDF [Hb [H1 ->]]]. clear Hm.
  destruct (effects_bind_ok _ _ _ H1) as [w [Hw [H2 ->]]]. clear H1.
  destruct (effects_bind_ok _ _ _ H2) as [baseDeltaDF [Hd [H3 ->]]]. clear H2.
  destruct (effects_bind_ok _ _ _ H3) as [windowDeltaDF [Hwd [_ ->]]]. clear H3.
  assert (Hlen : length (fst w) = length windowList).
  { unfold getWindows in Hw.
    destruct (getWindows_ok_names _ _ _ _ _ _ _ _ _ Hw) as [_ Hl]. exact Hl. }
  rewrite !map_app.
  rewrite (getBase_ok_trace _ _ _ _ _ _ _ _ Hb),
    (getWindows_ok_trace _ _ _ _ _ _ _ _ Hw),
    (getBaseDelta_ok_trace _ _ _ _ _ _ _ Hd),
    (getWindowsDelta_ok_trace _ _ _ _ _ _ _ _ _ Hlen Hwd).
  unfold execution_order. cbn [flat_map].
  rewrite flat_map_app. cbn [flat_map]. rewrite !flat_map_of_map.
  cbn [effects ret fst map app]. rewrite app_nil_r. reflexivity.
Qed.

Lemma X10_witness :
  exists tbl,
    result (getIF threshold_forest 0%Z (PySeries spike) (PyDatetimeIndex six_days)
                  (PyList [2; 3]%Z) None None None) = Ok tbl
    /\ map erase (effects (getIF threshold_forest 0%Z (PySeries spike)
                                 (PyDatetimeIndex six_days) (PyList [2; 3]%Z)
                                 None None None))
       = flat_map (fun v => [Fit (view_features spike v); Plot (view_title v) None None []])
                  (execution_order [2; 3]%Z).
Proof.
  destruct spike_run as [tbl Hrun]. exists tbl. split; [ exact Hrun | ].
  exact (X10_returned_run_fits_and_shows_each_view threshold_forest 0%Z spike six_days
           [2; 3]%Z None None None tbl Hrun).
Defined.

(** ** What a run that raises has fitted and shown *)














